(** * Semantic retrieval over Pinecone and Gemini: [pinecone_utils.py]

    A shallow embedding of [inicializar_pinecone], [gerar_embedding],
    [processar_e_indexar_documento], [buscar_documentos] and
    [listar_todos_documentos], and the properties of the retrieval core;
    then of [ask_question] of [llm_router.py], which answers from what the
    search finds, and of the script [list_gemini_models.py].

    Conventions of the embedding.
    - A Python [str] is a [string] read as a sequence of code points below
      256 (Latin-1): one [ascii] is one character, so [length] is Python's
      [len].  Every literal of the source lives in that range; the accented
      letters are written with their code ([chr 231] is c-cedilla).
    - A Python [float] is a binary64 primitive float.
    - Dynamically typed SDK values (responses, matches, metadata) are
      [pyval]s; an operation that Python would reject raises the exception
      Python raises.
    - Calls to the two SDKs are answered by a [world], a function of the
      calls made so far, and are recorded in that trace in order.
    - [print] is console logging and is left out, but in the script
      [list_gemini_models.py], where the lines printed are the result.
    - An exception is an instance of a class derived from [Exception];
      KeyboardInterrupt, SystemExit and the cancellation of a task are
      outside the model.  [buscar_documentos] is declared [async] but
      awaits nothing: awaiting it runs its body from start to end. *)

From Stdlib Require Import List String Ascii ZArith Bool Lia.
From Stdlib Require Import PrimFloat SpecFloat FloatOps DecimalString.
From Stdlib Require Import DecimalZ.
Import ListNotations.

Local Open Scope string_scope.
Local Open Scope list_scope.
Local Open Scope Z_scope.

(** ** Python strings *)

Definition chr (n : nat) : string := String (ascii_of_nat n) "".

(** [str.isspace] on one character: TAB..CR, FS..US, SPACE, NEL, NBSP. *)
Definition isspace (c : ascii) : bool :=
  let n := nat_of_ascii c in
  ((9 <=? n) && (n <=? 13))%nat || ((28 <=? n) && (n <=? 32))%nat
  || (n =? 133)%nat || (n =? 160)%nat.

Fixpoint lstrip (s : string) : string :=
  match s with
  | "" => ""
  | String c r => if isspace c then lstrip r else s
  end.

Fixpoint rstrip (s : string) : string :=
  match s with
  | "" => ""
  | String c r =>
      match rstrip r with
      | "" => if isspace c then "" else String c ""
      | r' => String c r'
      end
  end.

(** [s.strip()] *)
Definition strip (s : string) : string := rstrip (lstrip s).

(** [str.lower] on one character: A..Z and the Latin-1 capitals
    (192..222 but the multiplication sign 215) move up by 32. *)
Definition lower_char (c : ascii) : ascii :=
  let n := nat_of_ascii c in
  if ((65 <=? n) && (n <=? 90))%nat
     || ((192 <=? n) && (n <=? 222) && negb (n =? 215))%nat
  then ascii_of_nat (n + 32) else c.

Fixpoint lower (s : string) : string :=
  match s with
  | "" => ""
  | String c r => String (lower_char c) (lower r)
  end.

(** [s[:n]] *)
Fixpoint slice_to (n : nat) (s : string) : string :=
  match n, s with
  | O, _ => ""
  | S _, "" => ""
  | S k, String c r => String c (slice_to k r)
  end.

(** [t in s] for two strings *)
Fixpoint str_in (t s : string) : bool :=
  prefix t s ||
  match s with
  | "" => false
  | String _ r => str_in t r
  end.

Definition str_is_empty (s : string) : bool :=
  match s with "" => true | _ => false end.

Fixpoint chars (s : string) : list string :=
  match s with
  | "" => []
  | String c r => String c "" :: chars r
  end.

(** ** Exceptions *)

Inductive exc_class : Type :=
| Exception
| ArithmeticError | OverflowError
| AttributeError
| LookupError | IndexError | KeyError
| OSError | ConnectionError | ConnectionRefusedError | TimeoutError
| RuntimeError
| TypeError
| ValueError | UnicodeError.

(** The direct base class; [Exception] is the root of what
    [except Exception] catches. *)
Definition exc_base (c : exc_class) : option exc_class :=
  match c with
  | Exception => None
  | OverflowError => Some ArithmeticError
  | IndexError | KeyError => Some LookupError
  | ConnectionError | TimeoutError => Some OSError
  | ConnectionRefusedError => Some ConnectionError
  | UnicodeError => Some ValueError
  | _ => Some Exception
  end.

Definition exc_class_eqb (a b : exc_class) : bool :=
  match a, b with
  | Exception, Exception | ArithmeticError, ArithmeticError
  | OverflowError, OverflowError | AttributeError, AttributeError
  | LookupError, LookupError | IndexError, IndexError | KeyError, KeyError
  | OSError, OSError | ConnectionError, ConnectionError
  | ConnectionRefusedError, ConnectionRefusedError
  | TimeoutError, TimeoutError | RuntimeError, RuntimeError
  | TypeError, TypeError | ValueError, ValueError
  | UnicodeError, UnicodeError => true
  | _, _ => false
  end.

Fixpoint issubclass_upto (fuel : nat) (c d : exc_class) : bool :=
  exc_class_eqb c d ||
  match fuel, exc_base c with
  | S k, Some b => issubclass_upto k b d
  | _, _ => false
  end.

(** The hierarchy above is three levels deep. *)
Definition issubclass (c d : exc_class) : bool := issubclass_upto 3 c d.

(** An exception object: its class and [str(e)]. *)
Record exn : Type := mkExn { exc_type : exc_class; exc_str : string }.

Definition isinstance (e : exn) (c : exc_class) : bool :=
  issubclass (exc_type e) c.

Inductive result (A : Type) : Type :=
| Ok (a : A)
| Raise (e : exn).
Arguments Ok {A} a.
Arguments Raise {A} e.

Definition rbind {A B} (r : result A) (k : A -> result B) : result B :=
  match r with
  | Ok a => k a
  | Raise e => Raise e
  end.

(** ** Python values *)

Set Warnings "-register-all".

Inductive pyval : Type :=
| PNone
| PBool (b : bool)
| PInt (z : Z)
| PFloat (f : float)
| PStr (s : string)
| PList (l : list pyval)
| PDict (d : list (string * pyval))
| PObj (attrs : list (string * pyval)).

Definition type_name (v : pyval) : string :=
  match v with
  | PNone => "NoneType"
  | PBool _ => "bool"
  | PInt _ => "int"
  | PFloat _ => "float"
  | PStr _ => "str"
  | PList _ => "list"
  | PDict _ => "dict"
  | PObj _ => "object"
  end.

(** [bool(v)] *)
Definition truthy (v : pyval) : bool :=
  match v with
  | PNone => false
  | PBool b => b
  | PInt z => negb (z =? 0)
  | PFloat f => negb (f =? 0)%float
  | PStr s => negb (str_is_empty s)
  | PList l => match l with [] => false | _ => true end
  | PDict d => match d with [] => false | _ => true end
  | PObj _ => true
  end.

Fixpoint assoc {A} (k : string) (d : list (string * A)) : option A :=
  match d with
  | [] => None
  | (k', v) :: r => if String.eqb k k' then Some v else assoc k r
  end.

(** Data attributes: only objects carry the ones the code asks for
    ([matches], [metadata], [id], [score], [get]). *)
Definition attr (v : pyval) (name : string) : option pyval :=
  match v with
  | PObj attrs => assoc name attrs
  | _ => None
  end.

Definition hasattr (v : pyval) (name : string) : bool :=
  match attr v name with Some _ => true | None => false end.

Definition no_attribute (v : pyval) (name : string) : exn :=
  mkExn AttributeError
    ("'" ++ type_name v ++ "' object has no attribute '" ++ name ++ "'").

(** [v.name] *)
Definition getattr (v : pyval) (name : string) : result pyval :=
  match attr v name with
  | Some a => Ok a
  | None => Raise (no_attribute v name)
  end.

Definition not_callable (v : pyval) : exn :=
  mkExn TypeError ("'" ++ type_name v ++ "' object is not callable").

(** [v.get(k, default)]: a dict method; objects carry data attributes
    only, so a [get] attribute of an object cannot be called. *)
Definition py_get (v : pyval) (k : string) (default : pyval) : result pyval :=
  match v with
  | PDict d => Ok match assoc k d with Some x => x | None => default end
  | PObj attrs =>
      match assoc "get" attrs with
      | Some g => Raise (not_callable g)
      | None => Raise (no_attribute v "get")
      end
  | _ => Raise (no_attribute v "get")
  end.

(** [x == k] where [k] is a str *)
Definition eq_str (x : pyval) (k : string) : bool :=
  match x with
  | PStr s => String.eqb s k
  | _ => false
  end.

(** [k in v] where [k] is a str *)
Definition py_in (k : string) (v : pyval) : result bool :=
  match v with
  | PDict d => Ok match assoc k d with Some _ => true | None => false end
  | PList l => Ok (existsb (fun x => eq_str x k) l)
  | PStr s => Ok (str_in k s)
  | _ => Raise (mkExn TypeError
                  ("argument of type '" ++ type_name v ++ "' is not iterable"))
  end.

(** [v[k]] where [k] is a str *)
Definition getitem_str (v : pyval) (k : string) : result pyval :=
  match v with
  | PDict d =>
      match assoc k d with
      | Some x => Ok x
      | None => Raise (mkExn KeyError ("'" ++ k ++ "'"))
      end
  | PList _ =>
      Raise (mkExn TypeError "list indices must be integers or slices, not str")
  | PStr _ => Raise (mkExn TypeError "string indices must be integers, not 'str'")
  | _ => Raise (mkExn TypeError
                  ("'" ++ type_name v ++ "' object is not subscriptable"))
  end.

(** [v[0]] *)
Definition getitem_0 (v : pyval) : result pyval :=
  match v with
  | PList (x :: _) => Ok x
  | PList [] => Raise (mkExn IndexError "list index out of range")
  | PStr (String c _) => Ok (PStr (String c ""))
  | PStr "" => Raise (mkExn IndexError "string index out of range")
  | PDict _ => Raise (mkExn KeyError "0")
  | _ => Raise (mkExn TypeError
                  ("'" ++ type_name v ++ "' object is not subscriptable"))
  end.

(** The items a [for] loop over [v] visits. *)
Definition py_iter (v : pyval) : result (list pyval) :=
  match v with
  | PList l => Ok l
  | PStr s => Ok (map PStr (chars s))
  | PDict d => Ok (map (fun kv => PStr (fst kv)) d)
  | _ => Raise (mkExn TypeError
                  ("'" ++ type_name v ++ "' object is not iterable"))
  end.

(** [float(z)] for an int: rounded to nearest even, and an int beyond the
    binary64 range is an OverflowError. *)
Definition float_of_int (z : Z) : result float :=
  let f := SF2Prim (binary_normalize prec emax z 0 false) in
  if is_infinity f
  then Raise (mkExn OverflowError "int too large to convert to float")
  else Ok f.

(** [float(v)]; the decimal reader used for a str is [parse]. *)
Definition py_float (parse : string -> option float) (v : pyval)
  : result float :=
  match v with
  | PFloat f => Ok f
  | PInt z => float_of_int z
  | PBool b => Ok (if b then 1%float else 0%float)
  | PStr s =>
      match parse s with
      | Some f => Ok f
      | None => Raise (mkExn ValueError
                         ("could not convert string to float: '" ++ s ++ "'"))
      end
  | _ => Raise (mkExn TypeError
                  ("float() argument must be a string or a real number, not '"
                   ++ type_name v ++ "'"))
  end.

(** [int(f)] for a float: truncation towards zero. *)
Definition int_of_float (f : float) : result Z :=
  match Prim2SF f with
  | S754_zero _ => Ok 0
  | S754_infinity _ =>
      Raise (mkExn OverflowError "cannot convert float infinity to integer")
  | S754_nan => Raise (mkExn ValueError "cannot convert float NaN to integer")
  | S754_finite s m e =>
      let a := if 0 <=? e then Z.pos m * 2 ^ e else Z.pos m / 2 ^ (- e) in
      Ok (if s then - a else a)
  end.

(** [str(z)] for an int *)
Definition str_of_int (z : Z) : string := NilZero.string_of_int (Z.to_int z).

(** [v == 0] *)
Definition eq_zero (v : pyval) : bool :=
  match v with
  | PInt z => z =? 0
  | PBool b => negb b
  | PFloat f => (f =? 0)%float
  | _ => false
  end.

(** ** The outside world and the effect monad *)

(** The SDK entry points the module calls, with their arguments. *)
Inductive call : Type :=
| embed_content (model : string) (content : list string) (task_type : string)
| Pinecone (api_key : string)
| Index (pc : pyval) (name : string) (host : string)
| describe_index_stats (index : pyval)
| upsert (index : pyval) (vectors : list (pyval * pyval * pyval))
| query (index : pyval) (vector : pyval) (top_k : Z) (include_metadata : bool).

(** What lies outside the module: the answer of each SDK call given the
    calls made before it, the clock, and [float]'s decimal reader. *)
Record world : Type := mkWorld {
  respond : list call -> call -> result pyval;
  time_time : list call -> float;
  float_of_str : string -> option float
}.

(** A computation reads the trace of calls made so far and extends it. *)
Definition M (A : Type) : Type := list call -> result A * list call.

Definition ret {A} (a : A) : M A := fun t => (Ok a, t).

Definition raise {A} (e : exn) : M A := fun t => (Raise e, t).

Definition bind {A B} (m : M A) (k : A -> M B) : M B :=
  fun t =>
    match m t with
    | (Ok a, t') => k a t'
    | (Raise e, t') => (Raise e, t')
    end.

Definition lift {A} (r : result A) : M A := fun t => (r, t).

(** [try: m  except Exception as e: h e] *)
Definition try_except {A} (m : M A) (h : exn -> M A) : M A :=
  fun t =>
    match m t with
    | (Ok a, t') => (Ok a, t')
    | (Raise e, t') => h e t'
    end.

Declare Scope py_scope.
Delimit Scope py_scope with py.
Notation "x <- m ;; k" := (bind m (fun x => k))
  (at level 100, m at next level, right associativity) : py_scope.
Notation "m ;;; k" := (bind m (fun _ => k))
  (at level 100, right associativity) : py_scope.
Local Open Scope py_scope.

(** An SDK call: answered by the world and recorded. *)
Definition sdk (W : world) (c : call) : M pyval :=
  fun t => (respond W t c, t ++ [c]).

(** A method of an SDK object [recv]; anything but an object has no
    such method. *)
Definition method (W : world) (recv : pyval) (name : string) (c : call)
  : M pyval :=
  match recv with
  | PObj _ => sdk W c
  | _ => raise (no_attribute recv name)
  end.

(** ** Configuration *)

(** The module-level settings read from the environment at import;
    [None] is a variable that is not set. *)
Record config : Type := mkConfig {
  PINECONE_API_KEY : option string;
  PINECONE_HOST : option string;
  INDEX_NAME : string;
  GEMINI_EMBEDDING_MODEL : string
}.

(** ** [inicializar_pinecone] *)

Definition inicializar_pinecone (cfg : config) (W : world) : M pyval :=
  match PINECONE_API_KEY cfg with
  | Some (String a k) =>
      let api_key := String a k in
      match PINECONE_HOST cfg with
      | Some (String b h) =>
          let host := String b h in
          try_except
            (pc <- sdk W (Pinecone api_key) ;;
             index <- method W pc "Index" (Index pc (INDEX_NAME cfg) host) ;;
             stats <- method W index "describe_index_stats"
                        (describe_index_stats index) ;;
             lift (py_get stats "total_vector_count" (PInt 0)) ;;;
             ret index)
            (fun e => raise e)
      | _ =>
          raise (mkExn ValueError
                   ("PINECONE_HOST n" ++ chr 227 ++ "o encontrado no arquivo .env"))
      end
  | _ =>
      raise (mkExn ValueError
               ("PINECONE_API_KEY n" ++ chr 227 ++ "o encontrada no arquivo .env"))
  end.

(** ** [gerar_embedding] *)

Definition gerar_embedding (cfg : config) (W : world) (texto : string)
  : M pyval :=
  try_except
    (response <- sdk W (embed_content (GEMINI_EMBEDDING_MODEL cfg) [texto]
                          "RETRIEVAL_DOCUMENT") ;;
     embedding <- lift (getitem_str response "embedding") ;;
     lift (getitem_0 embedding))
    (fun e => raise e).

(** ** [processar_e_indexar_documento] *)

(** [str(int(time.time() * 1000))] *)
Definition timestamp_id (W : world) : M string :=
  fun t =>
    (rbind (int_of_float (time_time W t * 1000)%float)
       (fun ms => Ok (str_of_int ms)), t).

Definition processar_e_indexar_documento (cfg : config) (W : world)
    (texto : string) (metadata : pyval)
    (id : option string) (index : option pyval) : M string :=
  try_except
    (embedding <- gerar_embedding cfg W texto ;;
     id <- match id with
           | None => timestamp_id W
           | Some i => ret i
           end ;;
     index <- match index with
              | None => inicializar_pinecone cfg W
              | Some ix => ret ix
              end ;;
     method W index "upsert" (upsert index [(PStr id, embedding, metadata)]) ;;;
     ret id)
    (fun e => raise e).

(** ** [buscar_documentos] *)

(** One entry of the returned list: the dict built for a match. *)
Record documento : Type := mkDocumento {
  doc_id : pyval;
  doc_score : float;
  doc_arquivo : pyval;
  doc_texto : pyval;
  doc_secao : pyval;
  doc_valores_monetarios : pyval;
  doc_cpfs : pyval;
  doc_nomes : pyval
}.

Definition termos_valor : list string :=
  ["valor"; "pre" ++ chr 231 ++ "o"; "custo"; "aluguel"; "taxa"; "multa";
   "reais"; "r$"; "pagamento"]%string.

Definition nomes_pessoa : list string :=
  ["eduardo"; "rocha"; "fontenele"; "gabriela"; "bruno"; "ana"]%string.

Definition sufixo_valor : string :=
  "valor aluguel pre" ++ chr 231 ++ "o pagamento R$".

Definition sufixo_pessoa : string :=
  "nome cpf rg identifica" ++ chr 231 ++ chr 227 ++ "o contratante locat"
  ++ chr 225 ++ "rio inquilino".

(** [any(termo in q.lower() for termo in [...])] *)
Definition consulta_sobre_valor (q : string) : bool :=
  existsb (fun termo => str_in termo (lower q)) termos_valor.

Definition consulta_sobre_pessoa (q : string) : bool :=
  existsb (fun nome => str_in nome (lower q)) nomes_pessoa.

(** Lines 125-127: the trimmed query, cut to 1000 characters. *)
Definition truncar (query : string) : string :=
  let query_processada := strip query in
  if (1000 <? String.length query_processada)%nat
  then slice_to 1000 query_processada
  else query_processada.

(** Lines 131-140: the enrichment of the cut query. *)
Definition enriquecer (query_processada : string) : string :=
  if consulta_sobre_valor query_processada
  then query_processada ++ " " ++ sufixo_valor
  else if consulta_sobre_pessoa query_processada
  then query_processada ++ " " ++ sufixo_pessoa
  else query_processada.

(** The fixed openings of the three messages raised at lines 152, 161
    and 178. *)
Definition prefixo_erro_embedding : string :=
  "N" ++ chr 227 ++ "o foi poss" ++ chr 237
  ++ "vel gerar embedding para a consulta: ".

Definition prefixo_erro_conexao : string :=
  "Falha na conex" ++ chr 227 ++ "o com o Pinecone: ".

Definition prefixo_erro_busca : string := "Falha na busca vetorial: ".

(** Lines 143-152: the embedding of the query. *)
Definition embedding_da_consulta (cfg : config) (W : world)
    (query_processada : string) : M pyval :=
  try_except
    (response <- sdk W (embed_content (GEMINI_EMBEDDING_MODEL cfg)
                          [query_processada] "RETRIEVAL_QUERY") ;;
     embedding <- lift (getitem_str response "embedding") ;;
     lift (getitem_0 embedding))
    (fun e =>
       raise (mkExn ValueError (prefixo_erro_embedding ++ exc_str e))).

(** Lines 155-161: the connection to the index. *)
Definition conectar (cfg : config) (W : world) : M pyval :=
  try_except
    (index <- inicializar_pinecone cfg W ;;
     if negb (truthy index)
     then raise (mkExn ConnectionError
                   ("N" ++ chr 227 ++ "o foi poss" ++ chr 237
                    ++ "vel conectar ao Pinecone"))
     else ret index)
    (fun e =>
       raise (mkExn ConnectionError (prefixo_erro_conexao ++ exc_str e))).

(** Lines 164-178: the query; [None] is the early [return []]. *)
Definition realizar_busca (W : world) (index query_embedding : pyval)
    (top_k : Z) : M (option pyval) :=
  try_except
    (resultados <- method W index "query"
                     (query index query_embedding top_k true) ;;
     if negb (truthy resultados) then ret None
     else match attr resultados "matches" with
          | None => ret None
          | Some matches =>
              if negb (truthy matches) then ret None else ret (Some resultados)
          end)
    (fun e =>
       raise (mkExn ValueError (prefixo_erro_busca ++ exc_str e))).

Notation "x <~ r ;; k" := (rbind r (fun x => k))
  (at level 100, r at next level, right associativity) : py_scope.

(** Lines 199-209, for one [campo]: the metadata entry when it is present
    and truthy, the empty list otherwise. *)
Definition campo_extra (metadata : pyval) (campo : string) : result pyval :=
  presente <~ py_in campo metadata ;;
  if presente
  then v <~ getitem_str metadata campo ;;
       if truthy v then getitem_str metadata campo else Ok (PList [])
  else Ok (PList []).

(** Lines 184-216, the body of the loop for one match: [Ok None] is a
    [continue], [Ok (Some doc)] an [append], [Raise] an exception that the
    loop's own handler receives. *)
Definition formatar_match (W : world) (m : pyval) : result (option documento) :=
  match attr m "metadata" with
  | None => Ok None
  | Some metadata =>
      if negb (truthy metadata) then Ok None
      else
        let id := match attr m "id" with Some i => i | None => PStr "" end in
        score <~ match attr m "score" with
                 | Some s => py_float (float_of_str W) s
                 | None => Ok 0%float
                 end ;;
        arquivo <~ py_get metadata "arquivo" (PStr "") ;;
        texto <~ py_get metadata "texto" (PStr "") ;;
        secao <~ py_get metadata "secao" (PStr "") ;;
        valores_monetarios <~ campo_extra metadata "valores_monetarios" ;;
        cpfs <~ campo_extra metadata "cpfs" ;;
        nomes <~ campo_extra metadata "nomes" ;;
        if negb (truthy arquivo) || negb (truthy texto) then Ok None
        else Ok (Some (mkDocumento id score arquivo texto secao
                         valores_monetarios cpfs nomes))
  end.

(** Lines 181-219: the loop, with [documentos] as it grows. *)
Fixpoint formatar_resultados (W : world) (matches : list pyval)
    (documentos : list documento) : list documento :=
  match matches with
  | [] => documentos
  | m :: rest =>
      match formatar_match W m with
      | Ok (Some doc) => formatar_resultados W rest (documentos ++ [doc])
      | Ok None => formatar_resultados W rest documentos
      | Raise _ => formatar_resultados W rest documentos
      end
  end.

(** Lines 124-222: the body of the outer [try]. *)
Definition buscar_documentos_corpo (cfg : config) (W : world)
    (query : string) (top_k : Z) : M (list documento) :=
  let query_processada := enriquecer (truncar query) in
  query_embedding <- embedding_da_consulta cfg W query_processada ;;
  index <- conectar cfg W ;;
  encontrados <- realizar_busca W index query_embedding top_k ;;
  match encontrados with
  | None => ret []
  | Some resultados =>
      matches <- lift (getattr resultados "matches") ;;
      items <- lift (py_iter matches) ;;
      ret (formatar_resultados W items [])
  end.

(** Lines 224-232: the handlers of the outer [try]. *)
Definition tratar_erro_busca (e : exn) : M (list documento) :=
  if isinstance e ValueError then raise e
  else if isinstance e ConnectionError then raise e
  else ret [].

Definition buscar_documentos (cfg : config) (W : world)
    (query : string) (top_k : Z) : M (list documento) :=
  if str_is_empty query || str_is_empty (strip query) then ret []
  else try_except (buscar_documentos_corpo cfg W query top_k) tratar_erro_busca.

(** ** [listar_todos_documentos] *)

Record documento_listado : Type := mkListado {
  item_id : pyval;
  item_arquivo : pyval;
  item_texto : pyval
}.

(** Lines 270-274: the dict appended for one match. *)
Definition listar_match (m : pyval) : result documento_listado :=
  id <~ getattr m "id" ;;
  metadata <~ getattr m "metadata" ;;
  arquivo <~ py_get metadata "arquivo" (PStr "") ;;
  metadata <~ getattr m "metadata" ;;
  texto <~ py_get metadata "texto" (PStr "") ;;
  Ok (mkListado id arquivo texto).

(** Lines 268-274: the loop; an exception leaves it at once. *)
Fixpoint listar_matches (matches : list pyval)
    (documentos : list documento_listado) : result (list documento_listado) :=
  match matches with
  | [] => Ok documentos
  | m :: rest =>
      doc <~ listar_match m ;;
      listar_matches rest (documentos ++ [doc])
  end.

(** Lines 268-274 on the response of the query. *)
Definition documentos_da_resposta (resultados : pyval)
  : result (list documento_listado) :=
  matches <~ getattr resultados "matches" ;;
  items <~ py_iter matches ;;
  listar_matches items [].

(** [[0.0] * 768] *)
Definition dummy_vector : pyval := PList (repeat (PFloat 0%float) 768).

Definition listar_todos_documentos (cfg : config) (W : world) (limit : Z)
  : M (list documento_listado * pyval) :=
  try_except
    (index <- inicializar_pinecone cfg W ;;
     stats <- method W index "describe_index_stats"
                (describe_index_stats index) ;;
     total <- lift (py_get stats "total_vector_count" (PInt 0)) ;;
     if eq_zero total then ret ([], PInt 0)
     else
       try_except
         (resultados <- method W index "query"
                          (query index dummy_vector (Z.min limit 10000) true) ;;
          documentos <- lift (documentos_da_resposta resultados) ;;
          ret (documentos, total))
         (fun e => ret ([], total)))
    (fun e => ret ([], PInt 0)).

(** ** Sample configurations, worlds and matches

    Concrete inputs on which the functions above are evaluated below. *)

Definition cfg_exemplo : config :=
  mkConfig (Some "pc-key") (Some "https://brito-ai.svc.pinecone.io")
    "brito-ai" "models/embedding-001".

Definition indice_exemplo : pyval := PObj [("name", PStr "brito-ai")].

Definition embedding_exemplo : pyval := PList [PFloat 0.25; PFloat 0.5].

Definition resposta_embedding : pyval :=
  PDict [("embedding", PList [embedding_exemplo])].

(** A world that answers by the kind of call alone: the embedding
    service with [on_embed], the index statistics with [on_stats], a query
    with [on_query]; the connection itself always succeeds. *)
Definition mundo (on_embed on_stats on_query : result pyval) : world :=
  mkWorld
    (fun _ c =>
       match c with
       | embed_content _ _ _ => on_embed
       | Pinecone _ => Ok (PObj [("kind", PStr "Pinecone")])
       | Index _ _ _ => Ok indice_exemplo
       | describe_index_stats _ => on_stats
       | upsert _ _ => Ok (PDict [("upserted_count", PInt 1)])
       | query _ _ _ _ => on_query
       end)
    (fun _ => 1700000000.5%float)
    (fun _ => None).

Definition stats_de (n : Z) : result pyval :=
  Ok (PDict [("total_vector_count", PInt n)]).

Definition um_match (id : string) (score : pyval)
    (metadata : list (string * pyval)) : pyval :=
  PObj [("id", PStr id); ("score", score); ("metadata", PDict metadata)].

Definition match_completo_1 : pyval :=
  um_match "doc-1" (PFloat 0.75)
    [("arquivo", PStr "contrato.pdf"); ("texto", PStr "aluguel de R$ 1500")].

Definition match_completo_2 : pyval :=
  um_match "doc-2" (PFloat 0.5)
    [("arquivo", PStr "aditivo.pdf"); ("texto", PStr "multa de 10%");
     ("secao", PStr "3")].

Definition match_sem_metadata : pyval :=
  PObj [("id", PStr "doc-3"); ("score", PFloat 0.25)].

Definition match_sem_arquivo : pyval :=
  um_match "doc-4" (PFloat 0.125) [("texto", PStr "sem arquivo")].


Definition resposta_com (matches : list pyval) : result pyval :=
  Ok (PObj [("matches", PList matches)]).

Definition falha (c : exc_class) (msg : string) : result pyval :=
  Raise (mkExn c msg).

(** The index holds two vectors; the second has no [arquivo]. *)
Definition mundo_dois_matches : world :=
  mundo (Ok resposta_embedding) (stats_de 2)
    (resposta_com [match_completo_1; match_sem_arquivo]).

(** Three matches, the middle one without metadata. *)
Definition mundo_tres_matches : world :=
  mundo (Ok resposta_embedding) (stats_de 3)
    (resposta_com [match_completo_1; match_sem_metadata; match_completo_2]).

(** The vector query raises. *)
Definition mundo_busca_falha : world :=
  mundo (Ok resposta_embedding) (stats_de 3) (falha RuntimeError "timeout").

(** The embedding service raises. *)
Definition mundo_embedding_falha : world :=
  mundo (falha RuntimeError "quota") (stats_de 3) (resposta_com []).

(** The response carries a [matches] that cannot be iterated. *)
Definition mundo_matches_invalidos : world :=
  mundo (Ok resposta_embedding) (stats_de 3)
    (Ok (PObj [("matches", PInt 5)])).

(** The index reports no vector. *)
Definition mundo_indice_vazio : world :=
  mundo (Ok resposta_embedding) (stats_de 0) (resposta_com [match_completo_1]).

(** A configuration without the API key: the connection fails. *)
Definition cfg_sem_chave : config :=
  mkConfig None (Some "https://brito-ai.svc.pinecone.io")
    "brito-ai" "models/embedding-001".

(** A query of 1000 letters [a] followed by [valor]. *)
Definition consulta_longa : string :=
  string_of_list_ascii (repeat "a"%char 1000) ++ "valor".

(** ** Vocabulary of the properties *)

(** The query is empty or made of whitespace only. *)
Definition em_branco (query : string) : bool :=
  forallb isspace (list_ascii_of_string query).

(** Every call that [m] makes satisfies [P]: from any trace, [m] leaves
    that trace extended by calls that all satisfy [P]. *)
Definition emite {A} (P : call -> Prop) (m : M A) : Prop :=
  forall t, exists ev, snd (m t) = t ++ ev /\ Forall P ev.

Definition chamada_embedding (c : call) : bool :=
  match c with embed_content _ _ _ => true | _ => false end.

Definition chamada_query (c : call) : bool :=
  match c with query _ _ _ _ => true | _ => false end.

(** The calls by which [inicializar_pinecone] connects. *)
Definition chamada_conexao (c : call) : bool :=
  match c with
  | Pinecone _ | Index _ _ _ | describe_index_stats _ => true
  | _ => false
  end.

(** The purpose tags of the embedding calls of a trace, in order. *)
Fixpoint propositos (t : list call) : list string :=
  match t with
  | [] => []
  | embed_content _ _ task_type :: r => task_type :: propositos r
  | _ :: r => propositos r
  end.

(** The texts sent to the embedding service in a trace, in order. *)
Fixpoint textos_embutidos (t : list call) : list string :=
  match t with
  | [] => []
  | embed_content _ content _ :: r => (content ++ textos_embutidos r)%list
  | _ :: r => textos_embutidos r
  end.

(** A returned record has a file name and a text. *)
Definition doc_completo (d : documento) : bool :=
  truthy (doc_arquivo d) && truthy (doc_texto d).

Definition listado_completo (d : documento_listado) : bool :=
  truthy (item_arquivo d) && truthy (item_texto d).


(** What one match contributes to the list that the loop builds. *)
Definition contribuicao (W : world) (m : pyval) : list documento :=
  match formatar_match W m with
  | Ok (Some doc) => [doc]
  | _ => []
  end.

Definition dict_get (d : list (string * pyval)) (k : string)
    (default : pyval) : pyval :=
  match assoc k d with Some x => x | None => default end.

(** A well-formed match: a metadata dict with a non-empty file name and
    text, and a score that is absent or converts to a float. *)
Definition bem_formado (W : world) (m : pyval) : bool :=
  match attr m "metadata" with
  | Some (PDict d) =>
      truthy (dict_get d "arquivo" (PStr ""))
      && truthy (dict_get d "texto" (PStr ""))
      && match attr m "score" with
         | None => true
         | Some s =>
             match py_float (float_of_str W) s with
             | Ok _ => true
             | Raise _ => false
             end
         end
  | _ => false
  end.

(** The three errors that [buscar_documentos] raises on purpose: the
    wrapped failure of the embedding (line 152), of the connection
    (line 161) and of the vector query (line 178). *)
Definition erro_de_embedding (e : exn) : Prop :=
  exists e0, e = mkExn ValueError (prefixo_erro_embedding ++ exc_str e0).

Definition erro_de_conexao (e : exn) : Prop :=
  exists e0, e = mkExn ConnectionError (prefixo_erro_conexao ++ exc_str e0).

Definition erro_de_busca (e : exn) : Prop :=
  exists e0, e = mkExn ValueError (prefixo_erro_busca ++ exc_str e0).

(** The last character of a term is not a space. *)
Fixpoint fim_nao_branco (t : string) : bool :=
  match t with
  | "" => false
  | String c "" => negb (isspace c)
  | String _ r => fim_nao_branco r
  end.

(** A term with no space at either end. *)
Definition sem_bordas_brancas (t : string) : bool :=
  match t with
  | "" => false
  | String c _ => negb (isspace c) && fim_nao_branco t
  end.

(** ** Further vocabulary and samples *)

Definition chamada_upsert (c : call) : bool :=
  match c with upsert _ _ => true | _ => false end.

(** A setting that is present and not empty: what [if not X] lets
    through. *)
Definition configurado (o : option string) : bool :=
  match o with Some (String _ _) => true | _ => false end.

(** Nothing answers but the embedding service. *)
Definition mundo_offline : world :=
  mkWorld
    (fun _ c =>
       match c with
       | embed_content _ _ _ => Ok resposta_embedding
       | _ => falha ConnectionRefusedError "connection refused"
       end)
    (fun _ => 1700000000.5%float)
    (fun _ => None).

(** The value line 200-209 gives to the entry [campo] of the record: the
    entry of the metadata when it is there and truthy, the empty list
    otherwise. *)
Definition extra_de (d : list (string * pyval)) (campo : string) : pyval :=
  match assoc campo d with
  | Some v => if truthy v then v else PList []
  | None => PList []
  end.

(** The longest text that [buscar_documentos] can send to the embedding
    service: 1000 characters, a space and the longer suffix. *)
Definition tamanho_maximo_embutido : nat :=
  1000 + 1 + Nat.max (String.length sufixo_valor) (String.length sufixo_pessoa).

(** A match that the listing can turn into a record: it has an id and a
    metadata dict. *)
Definition listavel (m : pyval) : bool :=
  match attr m "id", attr m "metadata" with
  | Some _, Some (PDict _) => true
  | _, _ => false
  end.

(** The record that the listing builds for such a match. *)
Definition registro_listado (m : pyval) : documento_listado :=
  mkListado
    match attr m "id" with Some i => i | None => PNone end
    match attr m "metadata" with
    | Some (PDict d) => dict_get d "arquivo" (PStr "")
    | _ => PStr ""
    end
    match attr m "metadata" with
    | Some (PDict d) => dict_get d "texto" (PStr "")
    | _ => PStr ""
    end.

(** The record that lines 270-274 build for a match: the [id] of the
    match with the [arquivo] and [texto] entries of its metadata dict, the
    empty string standing for an entry that the dict lacks. *)
Definition registro_do_match (m : pyval) (doc : documento_listado) : Prop :=
  exists id d,
    attr m "id" = Some id
    /\ attr m "metadata" = Some (PDict d)
    /\ doc = mkListado id (dict_get d "arquivo" (PStr ""))
               (dict_get d "texto" (PStr "")).

(** Statistics without a total. *)
Definition mundo_sem_total : world :=
  mundo (Ok resposta_embedding) (Ok (PDict [("dimension", PInt 768)]))
    (resposta_com [match_completo_1]).

(** ** [ask_question] of [llm_router.py]

    The handler of [POST /ask], which answers a question from the
    documents that [buscar_documentos] finds.  What it raises is a Python
    exception or FastAPI's [HTTPException], itself an [Exception]. *)

Inductive excecao : Type :=
| ErroPython (e : exn)
| HTTPException (status_code : Z) (detail : string).

Inductive desfecho (A : Type) : Type :=
| Retorna (a : A)
| Levanta (x : excecao).
Arguments Retorna {A} a.
Arguments Levanta {A} x.

(** What lies outside the router: the chat model, whose
    [generate_content] is awaited with the prompt and answers given the
    SDK calls made so far; [str] of an [HTTPException], which the
    installed Starlette decides; and [str] of a value that is not a
    str. *)
Record llm : Type := mkLlm {
  generate_content : list call -> string -> result pyval;
  str_HTTPException : Z -> string -> string;
  str_valor : pyval -> string
}.

(** [str(e)] *)
Definition str_excecao (L : llm) (x : excecao) : string :=
  match x with
  | ErroPython e => exc_str e
  | HTTPException status_code detail => str_HTTPException L status_code detail
  end.

(** [f"{v}"] *)
Definition py_str (L : llm) (v : pyval) : string :=
  match v with
  | PStr s => s
  | _ => str_valor L v
  end.

Definition nl : string := chr 10.

Record fonte : Type := mkFonte { filename : pyval; text : pyval }.

Record resposta : Type := mkResposta {
  answer : pyval;
  sources : list fonte
}.

(** Lines 47-59: the search and its handler. *)
Definition busca_semantica (cfg : config) (W : world) (L : llm)
    (question : string) (max_results : Z) (t : list call)
  : desfecho (list documento) * list call :=
  let tentativa :=
    match buscar_documentos cfg W question max_results t with
    | (Raise e, t') => (Levanta (ErroPython e), t')
    | (Ok [], t') =>
        (Levanta (HTTPException 404 "Nenhum documento relevante encontrado."),
         t')
    | (Ok documentos, t') => (Retorna documentos, t')
    end in
  match tentativa with
  | (Levanta e, t') =>
      (Levanta (HTTPException 500
                  ("Erro ao processar a consulta de busca: "
                   ++ str_excecao L e)), t')
  | ok => ok
  end.

(** Lines 62-65: one block per document, numbered from [i + 1]. *)
Fixpoint blocos (L : llm) (i : Z) (documentos : list documento)
  : list string :=
  match documentos with
  | [] => []
  | doc :: r =>
      ("[Documento " ++ str_of_int (i + 1) ++ " - "
       ++ py_str L (doc_arquivo doc) ++ "]" ++ nl
       ++ py_str L (doc_texto doc))%string
      :: blocos L (i + 1) r
  end.

Definition context (L : llm) (documentos : list documento) : string :=
  String.concat (nl ++ nl) (blocos L 0 documentos).

Definition system_instruction : string :=
  "Voc" ++ chr 234 ++ " " ++ chr 233
  ++ " um assistente especializado em contratos imobili" ++ chr 225
  ++ "rios com acesso a uma base de documentos. "
  ++ "Suas respostas devem ser:" ++ nl
  ++ "1. DETALHADAS - Forne" ++ chr 231 ++ "a informa" ++ chr 231 ++ chr 245
  ++ "es completas e abrangentes sobre o que foi perguntado." ++ nl
  ++ "2. ESPEC" ++ chr 205
  ++ "FICAS - Quando a pergunta for sobre pessoas, entidades ou cl"
  ++ chr 225 ++ "usulas, inclua TODOS os detalhes dispon" ++ chr 237
  ++ "veis nos documentos." ++ nl
  ++ "3. ESTRUTURADAS - Organize a resposta de forma clara, "
  ++ "usando listas ou se" ++ chr 231 ++ chr 245
  ++ "es quando apropriado." ++ nl
  ++ "4. BASEADAS EM EVID" ++ chr 202
  ++ "NCIAS - Cite explicitamente de qual documento/contrato a informa"
  ++ chr 231 ++ chr 227 ++ "o foi extra" ++ chr 237 ++ "da." ++ nl
  ++ ". Cite explicitamente codigos de barras, caso as informa"
  ++ chr 231 ++ chr 245 ++ "es sejam de boletos de cobran" ++ chr 231 ++ "a.".

(** Line 84 *)
Definition full_prompt (L : llm) (documentos : list documento)
    (question : string) : string :=
  system_instruction ++ nl ++ nl ++ "Documentos:" ++ nl
  ++ context L documentos ++ nl ++ nl ++ "Pergunta: " ++ question.

(** [[part.text for part in parts if hasattr(part, 'text')]] *)
Fixpoint textos_das_partes (parts : list pyval) : list pyval :=
  match parts with
  | [] => []
  | part :: r =>
      match attr part "text" with
      | Some texto => texto :: textos_das_partes r
      | None => textos_das_partes r
      end
  end.

(** ["".join(items)]: every item must be a str. *)
Fixpoint join_vazio (i : Z) (items : list pyval) : result string :=
  match items with
  | [] => Ok ""
  | PStr s :: r => resto <~ join_vazio (i + 1) r ;; Ok (s ++ resto)%string
  | v :: _ =>
      Raise (mkExn TypeError
               ("sequence item " ++ str_of_int i
                ++ ": expected str instance, " ++ type_name v ++ " found"))
  end.

Definition resposta_bloqueada : string :=
  "A resposta n" ++ chr 227 ++ "o p" ++ chr 244
  ++ "de ser gerada devido a filtros de seguran" ++ chr 231
  ++ "a do modelo. Motivo: ".

Definition resposta_vazia : string :=
  "N" ++ chr 227 ++ "o foi poss" ++ chr 237
  ++ "vel gerar uma resposta detalhada do modelo. "
  ++ "Resposta vazia ou inesperada.".

Definition erro_interno : string :=
  "Ocorreu um erro interno ao gerar a resposta com o modelo.".

(** Lines 97-112: the answer read from the response of the model. *)
Definition extrair_resposta (L : llm) (resposta_final : pyval)
  : result pyval :=
  texto <~ getattr resposta_final "text" ;;
  if truthy texto then getattr resposta_final "text"
  else
    parts <~ getattr resposta_final "parts" ;;
    if truthy parts
    then parts <~ getattr resposta_final "parts" ;;
         items <~ py_iter parts ;;
         junto <~ join_vazio 0 (textos_das_partes items) ;;
         Ok (PStr junto)
    else
      feedback <~ getattr resposta_final "prompt_feedback" ;;
      bloqueio <~ (if truthy feedback
                   then feedback <~ getattr resposta_final "prompt_feedback" ;;
                        getattr feedback "block_reason"
                   else Ok feedback) ;;
      if truthy bloqueio
      then feedback <~ getattr resposta_final "prompt_feedback" ;;
           motivo <~ getattr feedback "block_reason" ;;
           block_reason <~ getattr motivo "name" ;;
           Ok (PStr (resposta_bloqueada ++ py_str L block_reason))
      else Ok (PStr resposta_vazia).

(** Lines 71-120: the generation and its handler. *)
Definition gerar_resposta (L : llm) (documentos : list documento)
    (question : string) (t : list call) : desfecho pyval :=
  match
    resposta_final <~ generate_content L t
                        (full_prompt L documentos question) ;;
    extrair_resposta L resposta_final
  with
  | Ok answer => Retorna answer
  | Raise _ => Levanta (HTTPException 500 erro_interno)
  end.

(** Lines 123-131 *)
Definition fontes (documentos : list documento) : list fonte :=
  map (fun doc => mkFonte (doc_arquivo doc) (doc_texto doc)) documentos.

(** Lines 136-141: the handlers of the outer [try]. *)
Definition tratar_erro_pergunta {A} (L : llm) (d : desfecho A) : desfecho A :=
  match d with
  | Levanta (ErroPython e) =>
      Levanta (HTTPException 500
                 ("Erro ao processar pergunta: " ++ exc_str e))
  | _ => d
  end.

Definition ask_question (cfg : config) (W : world) (L : llm)
    (question : string) (max_results : Z) (t : list call)
  : desfecho resposta * list call :=
  if str_is_empty question || str_is_empty (strip question)
  then (tratar_erro_pergunta L
          (Levanta (HTTPException 400
                      ("A pergunta n" ++ chr 227 ++ "o pode estar vazia"))),
        t)
  else
    match busca_semantica cfg W L question max_results t with
    | (Levanta x, t') => (tratar_erro_pergunta L (Levanta x), t')
    | (Retorna documentos, t') =>
        (tratar_erro_pergunta L
           match gerar_resposta L documentos question t' with
           | Levanta x => Levanta x
           | Retorna answer =>
               Retorna (mkResposta answer (fontes documentos))
           end, t')
    end.

(** The texts of the parts, as strings: a part without [text] has none. *)
Fixpoint textos_str (parts : list pyval) : option (list string) :=
  match parts with
  | [] => Some []
  | part :: r =>
      match attr part "text", textos_str r with
      | None, o => o
      | Some (PStr s), Some l => Some (s :: l)
      | Some _, _ => None
      end
  end.

(** A chat model that answers with a plain text. *)
Definition llm_exemplo : llm :=
  mkLlm (fun _ _ => Ok (PObj [("text", PStr "O aluguel e de R$ 1500.")]))
    (fun status_code detail => (str_of_int status_code ++ ": " ++ detail)%string)
    (fun _ => "?").

(** A chat model whose call fails. *)
Definition llm_falha : llm :=
  mkLlm (fun _ _ => falha RuntimeError "quota exceeded")
    (fun status_code detail => (str_of_int status_code ++ ": " ++ detail)%string)
    (fun _ => "?").

(** A chat model that answers with parts, of which none has a text. *)
Definition llm_sem_texto : llm :=
  mkLlm (fun _ _ =>
           Ok (PObj [("text", PStr "");
                     ("parts", PList [PObj [("inline_data", PNone)]])]))
    (fun status_code detail => (str_of_int status_code ++ ": " ++ detail)%string)
    (fun _ => "?").

(** ** The script [list_gemini_models.py]

    Its effect is what it prints: the lines written to the console, in
    order, and whether it stopped at [exit()].  [genai.list_models()]
    either fails as a call or yields models one by one, possibly failing
    after some of them. *)

Definition cabecalho_modelos : string :=
  "Modelos dispon" ++ chr 237 ++ "veis para generateContent:".

Definition erro_sem_chave : string :=
  "ERRO: GOOGLE_API_KEY n" ++ chr 227
  ++ "o encontrada no arquivo .env ou n" ++ chr 227 ++ "o carregada.".

Definition erro_ao_listar (e : exn) : string :=
  "Erro ao listar modelos: " ++ exc_str e.

(** Lines 26-28: the lines printed for the models, and the exception that
    ended the loop, if any. *)
Fixpoint imprimir_modelos (str : pyval -> string) (modelos : list pyval)
  : list string * option exn :=
  match modelos with
  | [] => ([], None)
  | m :: r =>
      match metodos <~ getattr m "supported_generation_methods" ;;
            py_in "generateContent" metodos with
      | Raise e => ([], Some e)
      | Ok false => imprimir_modelos str r
      | Ok true =>
          match getattr m "name" with
          | Raise e => ([], Some e)
          | Ok name =>
              let (linhas, fim) := imprimir_modelos str r in
              (("- " ++ match name with PStr s => s | _ => str name end)%string
               :: linhas, fim)
          end
      end
  end.

(** The script: the key from the environment, the outcome of
    [genai.list_models()] (its models and the exception that ends the
    iteration, if any) and [str] for a name that is not a str give the
    lines printed and whether [exit()] was reached. *)
Definition list_gemini_models (GOOGLE_API_KEY : option string)
    (list_models : result (list pyval * option exn))
    (str : pyval -> string) : list string * bool :=
  if configurado GOOGLE_API_KEY
  then
    (cabecalho_modelos
     :: match list_models with
        | Raise e => [erro_ao_listar e]
        | Ok (modelos, fim_da_iteracao) =>
            let (linhas, fim) := imprimir_modelos str modelos in
            linhas ++ match fim with
                      | Some e => [erro_ao_listar e]
                      | None =>
                          match fim_da_iteracao with
                          | Some e => [erro_ao_listar e]
                          | None => []
                          end
                      end
        end, false)
  else ([erro_sem_chave], true).

(** A model as the SDK lists it. *)
Definition um_modelo (name : string) (metodos : list string) : pyval :=
  PObj [("name", PStr name);
        ("supported_generation_methods", PList (map PStr metodos))].

(** The model has both attributes, the methods in a list and a str name. *)
Definition modelo_bem_formado (m : pyval) : bool :=
  match attr m "supported_generation_methods", attr m "name" with
  | Some (PList _), Some (PStr _) => true
  | _, _ => false
  end.

Definition suporta_generateContent (m : pyval) : bool :=
  match attr m "supported_generation_methods" with
  | Some (PList l) => existsb (fun x => eq_str x "generateContent") l
  | _ => false
  end.

Definition nome_do_modelo (m : pyval) : string :=
  match attr m "name" with Some (PStr s) => s | _ => "" end.

(** * Properties *)

(** ** Strings *)

Lemma lstrip_em_branco (s : string) : em_branco s = true -> lstrip s = "".
Proof.
  unfold em_branco.
  induction s as [|c r IH]; simpl; [reflexivity|].
  intros H. apply andb_true_iff in H as [Hc Hr].
  rewrite Hc. auto.
Qed.

Lemma strip_em_branco (s : string) : em_branco s = true -> strip s = "".
Proof.
  intros H. unfold strip. rewrite (lstrip_em_branco s H). reflexivity.
Qed.

Lemma rstrip_vazio (s : string) : rstrip s = "" -> em_branco s = true.
Proof.
  unfold em_branco.
  induction s as [|c r IH]; simpl; [reflexivity|].
  destruct (rstrip r) eqn:E.
  - destruct (isspace c); [intros _; simpl; auto | discriminate].
  - discriminate.
Qed.

Lemma lstrip_branco_inv (s : string) :
  em_branco (lstrip s) = true -> em_branco s = true.
Proof.
  unfold em_branco.
  induction s as [|c r IH]; simpl; [reflexivity|].
  destruct (isspace c) eqn:E; simpl; [exact IH|].
  rewrite E. discriminate.
Qed.

Lemma strip_vazio_iff (s : string) : strip s = "" <-> em_branco s = true.
Proof.
  split; [|apply strip_em_branco].
  unfold strip. intros H. apply lstrip_branco_inv, rstrip_vazio, H.
Qed.

Lemma slice_to_length (n : nat) (s : string) :
  String.length (slice_to n s) = Nat.min n (String.length s).
Proof.
  revert s. induction n as [|n IH]; intros [|c r]; simpl; auto.
Qed.

Lemma slice_to_prefixo (n : nat) (s : string) :
  exists resto, s = (slice_to n s ++ resto)%string.
Proof.
  revert s. induction n as [|n IH]; intros s.
  - exists s. destruct s; reflexivity.
  - destruct s as [|c r]; [exists ""; reflexivity|].
    destruct (IH r) as [resto E]. exists resto. simpl. congruence.
Qed.

Lemma str_is_empty_true (s : string) : str_is_empty s = true <-> s = "".
Proof. destruct s; simpl; split; congruence. Qed.

Lemma consulta_sobre_valor_nao_vazia (q : string) :
  consulta_sobre_valor q = true -> q <> "".
Proof. intros H ->. vm_compute in H. discriminate. Qed.

Lemma truncar_vazio (query : string) : strip query = "" -> truncar query = "".
Proof. unfold truncar. intros ->. reflexivity. Qed.

Lemma truncar_longa (query : string) :
  (1000 < String.length (strip query))%nat ->
  truncar query = slice_to 1000 (strip query).
Proof.
  unfold truncar. intros H.
  destruct (1000 <? String.length (strip query))%nat eqn:E; [reflexivity|].
  apply Nat.ltb_ge in E. lia.
Qed.

Lemma truncar_curta (query : string) :
  (String.length (strip query) <= 1000)%nat -> truncar query = strip query.
Proof.
  unfold truncar. intros H.
  destruct (1000 <? String.length (strip query))%nat eqn:E; [|reflexivity].
  apply Nat.ltb_lt in E. lia.
Qed.

(** The enrichment appends at most one suffix. *)
Lemma enriquecer_casos (q : string) :
  (consulta_sobre_valor q = true /\ enriquecer q = (q ++ " " ++ sufixo_valor)%string)
  \/ (consulta_sobre_valor q = false /\ consulta_sobre_pessoa q = true
      /\ enriquecer q = (q ++ " " ++ sufixo_pessoa)%string)
  \/ (consulta_sobre_valor q = false /\ consulta_sobre_pessoa q = false
      /\ enriquecer q = q).
Proof.
  unfold enriquecer.
  destruct (consulta_sobre_valor q); [left; auto|].
  destruct (consulta_sobre_pessoa q); right; [left|right]; auto.
Qed.

Lemma append_vazio (s : string) : (s ++ "")%string = s.
Proof. induction s as [|c r IH]; simpl; congruence. Qed.

Example strip_exemplo :
  strip (chr 9 ++ "  qual o valor? " ++ chr 10)%string = "qual o valor?".
Proof. reflexivity. Qed.

Example lower_exemplo :
  lower ("PRE" ++ chr 199 ++ "O em R$")
  = ("pre" ++ chr 231 ++ "o em r$")%string.
Proof. reflexivity. Qed.

Example truncar_exemplo :
  truncar ("  " ++ consulta_longa ++ " ")
  = string_of_list_ascii (repeat "a"%char 1000).
Proof. vm_compute. reflexivity. Qed.

Example enriquecer_exemplo :
  enriquecer "contrato do Bruno"
  = ("contrato do Bruno " ++ sufixo_pessoa)%string.
Proof. vm_compute. reflexivity. Qed.

(** ** The effect monad *)

Section Emite.

Context {A : Type} (P : call -> Prop).

(** A computation that makes no call. *)
Lemma emite_nada (m : M A) : (forall t, snd (m t) = t) -> emite P m.
Proof.
  intros H t. exists []. rewrite app_nil_r. split; [apply H|constructor].
Qed.

Lemma emite_ret (a : A) : emite P (ret a).
Proof. apply emite_nada. reflexivity. Qed.

Lemma emite_raise (e : exn) : emite P (@raise A e).
Proof. apply emite_nada. reflexivity. Qed.

Lemma emite_lift (r : result A) : emite P (lift r).
Proof. apply emite_nada. reflexivity. Qed.

Lemma emite_try_except (m : M A) (h : exn -> M A) :
  emite P m -> (forall e, emite P (h e)) -> emite P (try_except m h).
Proof.
  intros Hm Hh t. unfold try_except.
  destruct (Hm t) as [ev1 [E1 F1]].
  destruct (m t) as [[a|e] t1]; simpl in E1; subst t1.
  - exists ev1. auto.
  - destruct (Hh e (t ++ ev1)) as [ev2 [E2 F2]].
    exists (ev1 ++ ev2). rewrite E2, app_assoc. split; [reflexivity|].
    apply Forall_app; auto.
Qed.

End Emite.

Lemma emite_bind {A B} (P : call -> Prop) (m : M A) (k : A -> M B) :
  emite P m -> (forall a, emite P (k a)) -> emite P (bind m k).
Proof.
  intros Hm Hk t. unfold bind.
  destruct (Hm t) as [ev1 [E1 F1]].
  destruct (m t) as [[a|e] t1]; simpl in E1; subst t1.
  - destruct (Hk a (t ++ ev1)) as [ev2 [E2 F2]].
    exists (ev1 ++ ev2). rewrite E2, app_assoc. split; [reflexivity|].
    apply Forall_app; auto.
  - exists ev1. auto.
Qed.

Lemma emite_sdk (P : call -> Prop) (W : world) (c : call) :
  P c -> emite P (sdk W c).
Proof. intros H t. exists [c]. split; [reflexivity|]. constructor; auto. Qed.

Lemma emite_method (P : call -> Prop) (W : world) (recv : pyval)
    (name : string) (c : call) :
  P c -> emite P (method W recv name c).
Proof.
  intros H. destruct recv; simpl; try apply emite_raise.
  apply emite_sdk, H.
Qed.

Lemma emite_impl {A} (P Q : call -> Prop) (m : M A) :
  (forall c, P c -> Q c) -> emite P m -> emite Q m.
Proof.
  intros HPQ Hm t. destruct (Hm t) as [ev [E F]].
  exists ev. split; [exact E|]. eapply Forall_impl; eauto.
Qed.

(** Breaks a computation down to the calls it makes. *)
Ltac emite_passos :=
  repeat first
    [ apply emite_ret | apply emite_raise | apply emite_lift
    | apply emite_sdk | apply emite_method
    | apply emite_bind; [|intros]
    | apply emite_try_except; [|intros]
    | match goal with
      | |- emite _ (match ?x with _ => _ end) => destruct x
      end ].

(** A method answers only on an object. *)
Lemma method_ok (W : world) (recv : pyval) (name : string) (c : call)
    (t t' : list call) (v : pyval) :
  method W recv name c t = (Ok v, t') ->
  (exists attrs, recv = PObj attrs) /\ respond W t c = Ok v /\ t' = t ++ [c].
Proof.
  destruct recv; simpl; try discriminate.
  unfold sdk. intros H. inversion H; subst. eauto.
Qed.

(** ** [inicializar_pinecone] *)

Lemma inicializar_pinecone_emite (cfg : config) (W : world) :
  emite (fun c => chamada_conexao c = true) (inicializar_pinecone cfg W).
Proof. unfold inicializar_pinecone. emite_passos; reflexivity. Qed.

(** The handle that [inicializar_pinecone] returns is an object. *)
Lemma inicializar_pinecone_objeto (cfg : config) (W : world)
    (t t' : list call) (index : pyval) :
  inicializar_pinecone cfg W t = (Ok index, t') ->
  exists attrs, index = PObj attrs.
Proof.
  unfold inicializar_pinecone.
  destruct (PINECONE_API_KEY cfg) as [[|a k]|]; try discriminate.
  destruct (PINECONE_HOST cfg) as [[|b h]|]; try discriminate.
  unfold try_except, bind, raise, ret, lift.
  destruct (sdk W _ t) as [[pc|e] t1]; [|discriminate].
  destruct (method W pc _ _ t1) as [[ix|e] t2]; [|discriminate].
  destruct (method W ix _ _ t2) as [[stats|e] t3] eqn:E3; [|discriminate].
  apply method_ok in E3 as [Hobj _].
  destruct (py_get stats _ _); [|discriminate].
  intros H. inversion H; subst. exact Hobj.
Qed.

Lemma conectar_emite (cfg : config) (W : world) :
  emite (fun c => chamada_conexao c = true) (conectar cfg W).
Proof.
  unfold conectar. emite_passos. apply inicializar_pinecone_emite.
Qed.

Lemma conectar_objeto (cfg : config) (W : world)
    (t t' : list call) (index : pyval) :
  conectar cfg W t = (Ok index, t') -> exists attrs, index = PObj attrs.
Proof.
  unfold conectar, try_except, bind.
  destruct (inicializar_pinecone cfg W t) as [[ix|e] t1] eqn:E; [|discriminate].
  apply inicializar_pinecone_objeto in E as [attrs ->].
  simpl. unfold ret. intros H. inversion H; subst. eauto.
Qed.

(** [conectar] fails with a ConnectionError only. *)
Lemma conectar_erro (cfg : config) (W : world)
    (t t' : list call) (e : exn) :
  conectar cfg W t = (Raise e, t') ->
  erro_de_conexao e.
Proof.
  unfold conectar, try_except, bind, raise.
  destruct (inicializar_pinecone cfg W t) as [[ix|e1] t1].
  - destruct (negb (truthy ix)); unfold ret; [|discriminate].
    intros H. inversion H.
    exists (mkExn ConnectionError
              ("N" ++ chr 227 ++ "o foi poss" ++ chr 237
               ++ "vel conectar ao Pinecone")).
    reflexivity.
  - intros H. inversion H. exists e1. reflexivity.
Qed.

(** ** The embedding calls *)

Lemma gerar_embedding_traco (cfg : config) (W : world) (texto : string)
    (t : list call) :
  snd (gerar_embedding cfg W texto t)
  = t ++ [embed_content (GEMINI_EMBEDDING_MODEL cfg) [texto] "RETRIEVAL_DOCUMENT"].
Proof.
  unfold gerar_embedding, try_except, bind, sdk, lift, raise.
  destruct (respond W t _) as [r|e]; simpl; [|reflexivity].
  destruct (getitem_str r "embedding") as [v|e]; simpl; [|reflexivity].
  destruct (getitem_0 v); reflexivity.
Qed.

Lemma embedding_da_consulta_traco (cfg : config) (W : world) (q : string)
    (t : list call) :
  snd (embedding_da_consulta cfg W q t)
  = t ++ [embed_content (GEMINI_EMBEDDING_MODEL cfg) [q] "RETRIEVAL_QUERY"].
Proof.
  unfold embedding_da_consulta, try_except, bind, sdk, lift, raise.
  destruct (respond W t _) as [r|e]; simpl; [|reflexivity].
  destruct (getitem_str r "embedding") as [v|e]; simpl; [|reflexivity].
  destruct (getitem_0 v); reflexivity.
Qed.

(** The embedding step fails with a ValueError only. *)
Lemma embedding_da_consulta_erro (cfg : config) (W : world) (q : string)
    (t t' : list call) (e : exn) :
  embedding_da_consulta cfg W q t = (Raise e, t') ->
  erro_de_embedding e.
Proof.
  unfold embedding_da_consulta, try_except, bind, sdk, lift, raise.
  destruct (respond W t _) as [r|e1]; simpl.
  - destruct (getitem_str r "embedding") as [v|e1]; simpl.
    + destruct (getitem_0 v) as [x|e1]; intros H; inversion H.
      exists e1. reflexivity.
    + intros H; inversion H. exists e1. reflexivity.
  - intros H; inversion H. exists e1. reflexivity.
Qed.

(** ** The query step *)

Lemma realizar_busca_emite (W : world) (index emb : pyval) (top_k : Z) :
  emite (fun c => c = query index emb top_k true)
    (realizar_busca W index emb top_k).
Proof. unfold realizar_busca. emite_passos; reflexivity. Qed.

(** The query step fails with a ValueError only. *)
Lemma realizar_busca_erro (W : world) (index emb : pyval) (top_k : Z)
    (t t' : list call) (e : exn) :
  realizar_busca W index emb top_k t = (Raise e, t') ->
  erro_de_busca e.
Proof.
  unfold realizar_busca, try_except, bind, raise, ret.
  destruct (method W index _ _ t) as [[r|e1] t1].
  - destruct (negb (truthy r)); [discriminate|].
    destruct (attr r "matches") as [ms|]; [|discriminate].
    destruct (negb (truthy ms)); discriminate.
  - intros H; inversion H. exists e1. reflexivity.
Qed.

(** When the query call itself raises, the step raises the wrapped
    ValueError right after recording the call. *)
Lemma realizar_busca_falha (W : world) (attrs : list (string * pyval))
    (emb : pyval) (top_k : Z) (t : list call) (e0 : exn) :
  respond W t (query (PObj attrs) emb top_k true) = Raise e0 ->
  realizar_busca W (PObj attrs) emb top_k t
  = (Raise (mkExn ValueError (prefixo_erro_busca ++ exc_str e0)),
     t ++ [query (PObj attrs) emb top_k true]).
Proof.
  intros H. unfold realizar_busca, try_except, bind, method, sdk, raise.
  rewrite H. reflexivity.
Qed.

(** ** The normalisation loop *)

(** The loop is a filtering map: each match adds its contribution. *)
Lemma formatar_resultados_contribuicoes (W : world) (matches : list pyval) :
  forall documentos,
    formatar_resultados W matches documentos
    = documentos ++ flat_map (contribuicao W) matches.
Proof.
  induction matches as [|m rest IH]; intros documentos; simpl.
  - now rewrite app_nil_r.
  - unfold contribuicao at 1.
    destruct (formatar_match W m) as [[doc|]|e]; rewrite IH; simpl; auto.
    now rewrite <- app_assoc.
Qed.


Lemma rbind_ok {A B} (r : result A) (k : A -> result B) (b : B) :
  rbind r k = Ok b -> exists a, r = Ok a /\ k a = Ok b.
Proof. destruct r; simpl; [eauto|discriminate]. Qed.

(** A record that a match yields has passed the check of line 212. *)
Lemma formatar_match_completo (W : world) (m : pyval) (doc : documento) :
  formatar_match W m = Ok (Some doc) -> doc_completo doc = true.
Proof.
  unfold formatar_match.
  destruct (attr m "metadata") as [metadata|]; [|discriminate].
  destruct (negb (truthy metadata)); [discriminate|].
  intros H.
  repeat (apply rbind_ok in H as [? [_ H]]).
  match type of H with
  | (if ?c then _ else _) = _ => destruct c eqn:E; [discriminate|]
  end.
  inversion H; subst. unfold doc_completo; simpl.
  apply orb_false_iff in E as [E1 E2].
  apply negb_false_iff in E1, E2. now rewrite E1, E2.
Qed.

Lemma contribuicao_completa (W : world) (m : pyval) :
  Forall (fun d => doc_completo d = true) (contribuicao W m).
Proof.
  unfold contribuicao.
  destruct (formatar_match W m) as [[doc|]|e] eqn:E; constructor.
  - eapply formatar_match_completo, E.
  - constructor.
Qed.

Lemma formatar_resultados_completos (W : world) (matches : list pyval) :
  Forall (fun d => doc_completo d = true) (formatar_resultados W matches []).
Proof.
  rewrite formatar_resultados_contribuicoes. simpl.
  induction matches as [|m rest IH]; simpl; [constructor|].
  apply Forall_app. split; [apply contribuicao_completa|exact IH].
Qed.


Lemma campo_extra_dict (d : list (string * pyval)) (campo : string) :
  exists v, campo_extra (PDict d) campo = Ok v.
Proof.
  unfold campo_extra, py_in, getitem_str. simpl.
  destruct (assoc campo d) as [x|]; simpl; [|eauto].
  destruct (truthy x); eauto.
Qed.

(** A well-formed match yields exactly one record. *)
Lemma bem_formado_um (W : world) (m : pyval) :
  bem_formado W m = true -> exists doc, contribuicao W m = [doc].
Proof.
  unfold bem_formado, contribuicao, formatar_match.
  destruct (attr m "metadata") as [[| | | | | |d|]|]; try discriminate.
  intros H. apply andb_true_iff in H as [H Hs].
  apply andb_true_iff in H as [Ha Ht].
  assert (Hm : truthy (PDict d) = true).
  { destruct d; [|reflexivity]. simpl in Ha. discriminate. }
  rewrite Hm. simpl negb. cbv iota.
  assert (Hscore : exists f,
             match attr m "score" with
             | Some s => py_float (float_of_str W) s
             | None => Ok 0%float
             end = Ok f).
  { destruct (attr m "score") as [s|]; [|eauto].
    destruct (py_float (float_of_str W) s); [eauto|discriminate]. }
  destruct Hscore as [f ->].
  destruct (campo_extra_dict d "valores_monetarios") as [v1 E1].
  destruct (campo_extra_dict d "cpfs") as [v2 E2].
  destruct (campo_extra_dict d "nomes") as [v3 E3].
  unfold py_get. simpl rbind. rewrite E1, E2, E3. simpl rbind.
  unfold dict_get in Ha, Ht. rewrite Ha, Ht. simpl. eauto.
Qed.

Lemma bem_formados_todos (W : world) (ms : list pyval) :
  forallb (bem_formado W) ms = true ->
  List.length (flat_map (contribuicao W) ms) = List.length ms.
Proof.
  induction ms as [|m rest IH]; simpl; [reflexivity|].
  intros H. apply andb_true_iff in H as [Hm Hr].
  destruct (bem_formado_um W m Hm) as [doc ->]. simpl. now rewrite IH.
Qed.

(** ** [buscar_documentos] *)

(** The guard of line 119 is the blank test. *)
Lemma guarda_em_branco (query : string) :
  str_is_empty query || str_is_empty (strip query) = em_branco query.
Proof.
  apply eq_true_iff_eq. rewrite orb_true_iff, !str_is_empty_true.
  rewrite strip_vazio_iff. split; [|auto].
  intros [->|H]; [reflexivity|exact H].
Qed.

Lemma sem_embedding_propositos (ev : list call) :
  Forall (fun c => chamada_embedding c = false) ev ->
  propositos ev = [] /\ textos_embutidos ev = [].
Proof.
  induction 1 as [|c r Hc _ [IH1 IH2]]; [auto|].
  destruct c; simpl in *; auto; discriminate.
Qed.

Lemma tratar_erro_busca_traco (e : exn) (t : list call) :
  snd (tratar_erro_busca e t) = t.
Proof.
  unfold tratar_erro_busca.
  destruct (isinstance e ValueError); [reflexivity|].
  destruct (isinstance e ConnectionError); reflexivity.
Qed.

(** What follows the embedding makes no embedding call. *)
Lemma buscar_corpo_traco (cfg : config) (W : world) (query : string)
    (top_k : Z) (t : list call) :
  exists resto,
    snd (buscar_documentos_corpo cfg W query top_k t)
    = t ++ embed_content (GEMINI_EMBEDDING_MODEL cfg)
             [enriquecer (truncar query)] "RETRIEVAL_QUERY" :: resto
    /\ Forall (fun c => chamada_embedding c = false) resto.
Proof.
  unfold buscar_documentos_corpo. unfold bind at 1.
  pose proof (embedding_da_consulta_traco cfg W
                (enriquecer (truncar query)) t) as Et.
  destruct (embedding_da_consulta cfg W _ t) as [[emb|e] t1];
    simpl in Et; subst t1.
  - match goal with
    | |- context [snd (?m ?t1)] =>
        assert (H : emite (fun c => chamada_embedding c = false) m)
    end.
    { apply emite_bind.
      - eapply emite_impl; [|apply conectar_emite].
        intros [] Hc; simpl in *; congruence.
      - intros index. apply emite_bind.
        + eapply emite_impl; [|apply realizar_busca_emite].
          intros c ->. reflexivity.
        + intros [resultados|]; emite_passos. }
    destruct (H (t ++ [embed_content (GEMINI_EMBEDDING_MODEL cfg)
                         [enriquecer (truncar query)] "RETRIEVAL_QUERY"]))
      as [ev [E F]].
    exists ev. rewrite E, <- app_assoc. auto.
  - exists []. simpl. auto.
Qed.

Lemma buscar_documentos_traco (cfg : config) (W : world) (query : string)
    (top_k : Z) (t : list call) :
  em_branco query = false ->
  exists resto,
    snd (buscar_documentos cfg W query top_k t)
    = t ++ embed_content (GEMINI_EMBEDDING_MODEL cfg)
             [enriquecer (truncar query)] "RETRIEVAL_QUERY" :: resto
    /\ Forall (fun c => chamada_embedding c = false) resto.
Proof.
  intros Hb. unfold buscar_documentos. rewrite guarda_em_branco, Hb.
  destruct (buscar_corpo_traco cfg W query top_k t) as [resto [E F]].
  exists resto. split; [|exact F].
  unfold try_except.
  destruct (buscar_documentos_corpo cfg W query top_k t) as [[docs|e] t1];
    simpl in E; subst t1; [reflexivity|apply tratar_erro_busca_traco].
Qed.

(** The failures of the body: the three wrapped ones, or a TypeError or
    AttributeError from walking the response. *)
Lemma buscar_corpo_erro (cfg : config) (W : world) (query : string)
    (top_k : Z) (t t' : list call) (e : exn) :
  buscar_documentos_corpo cfg W query top_k t = (Raise e, t') ->
  erro_de_embedding e \/ erro_de_conexao e \/ erro_de_busca e
  \/ exc_type e = AttributeError \/ exc_type e = TypeError.
Proof.
  unfold buscar_documentos_corpo, bind.
  destruct (embedding_da_consulta cfg W _ t) as [[emb|e1] t1] eqn:E1.
  2:{ intros H; inversion H; subst.
      left. eapply embedding_da_consulta_erro, E1. }
  destruct (conectar cfg W t1) as [[index|e2] t2] eqn:E2.
  2:{ intros H; inversion H; subst.
      right; left. eapply conectar_erro, E2. }
  destruct (realizar_busca W index emb top_k t2) as [[[r|]|e3] t3] eqn:E3.
  3:{ intros H; inversion H; subst.
      right; right; left. eapply realizar_busca_erro, E3. }
  2:{ discriminate. }
  unfold lift, getattr.
  destruct (attr r "matches") as [ms|].
  - destruct ms; simpl; try discriminate;
      intros H; inversion H; subst; auto.
  - intros H; inversion H; subst; auto.
Qed.

Lemma buscar_corpo_completos (cfg : config) (W : world) (query : string)
    (top_k : Z) (t t' : list call) (docs : list documento) :
  buscar_documentos_corpo cfg W query top_k t = (Ok docs, t') ->
  Forall (fun d => doc_completo d = true) docs.
Proof.
  unfold buscar_documentos_corpo, bind.
  destruct (embedding_da_consulta cfg W _ t) as [[emb|e1] t1]; [|discriminate].
  destruct (conectar cfg W t1) as [[index|e2] t2]; [|discriminate].
  destruct (realizar_busca W index emb top_k t2) as [[[r|]|e3] t3];
    [| |discriminate].
  - unfold lift.
    destruct (getattr r "matches") as [ms|]; [|discriminate].
    destruct (py_iter ms) as [items|]; [|discriminate].
    unfold ret. intros H; inversion H; subst.
    apply formatar_resultados_completos.
  - unfold ret. intros H; inversion H; subst. constructor.
Qed.

Lemma erro_de_embedding_classe (e : exn) :
  erro_de_embedding e -> exc_type e = ValueError.
Proof. intros [e0 ->]. reflexivity. Qed.

Lemma erro_de_busca_classe (e : exn) :
  erro_de_busca e -> exc_type e = ValueError.
Proof. intros [e0 ->]. reflexivity. Qed.

Lemma erro_de_conexao_classe (e : exn) :
  erro_de_conexao e -> exc_type e = ConnectionError.
Proof. intros [e0 ->]. reflexivity. Qed.

Lemma tratar_erro_busca_relanca (e : exn) (t : list call) :
  isinstance e ValueError || isinstance e ConnectionError = true ->
  tratar_erro_busca e t = (Raise e, t).
Proof.
  unfold tratar_erro_busca.
  destruct (isinstance e ValueError); [reflexivity|].
  simpl. intros ->. reflexivity.
Qed.

Lemma tratar_erro_busca_engole (e : exn) (t : list call) :
  isinstance e ValueError = false -> isinstance e ConnectionError = false ->
  tratar_erro_busca e t = (Ok [], t).
Proof. unfold tratar_erro_busca. intros -> ->. reflexivity. Qed.

(** ** [listar_todos_documentos] *)

(** The record of a match that has an id and a metadata dict: the
    entries of the dict, or the empty string in their place. *)
Lemma listar_match_dict (m id : pyval) (d : list (string * pyval)) :
  attr m "id" = Some id -> attr m "metadata" = Some (PDict d) ->
  listar_match m
  = Ok (mkListado id (dict_get d "arquivo" (PStr ""))
          (dict_get d "texto" (PStr ""))).
Proof.
  intros Hid Hmd. unfold listar_match, getattr. rewrite Hid, Hmd. reflexivity.
Qed.

Lemma listar_matches_um_por_match (ms : list pyval) :
  forall acc docs,
    listar_matches ms acc = Ok docs ->
    exists novos,
      docs = acc ++ novos
      /\ Forall2 (fun m d => listar_match m = Ok d) ms novos.
Proof.
  induction ms as [|m rest IH]; intros acc docs; simpl.
  - intros H; inversion H; subst. exists []. now rewrite app_nil_r.
  - destruct (listar_match m) as [doc|e] eqn:Em; simpl; [|discriminate].
    intros H. apply IH in H as [novos [-> F]].
    exists (doc :: novos). rewrite <- app_assoc. split; [reflexivity|].
    constructor; assumption.
Qed.

(** The documents of a response: one per item of its [matches], in
    order. *)
Lemma documentos_da_resposta_um_por_match (resultados : pyval)
    (docs : list documento_listado) :
  documentos_da_resposta resultados = Ok docs ->
  exists matches items,
    attr resultados "matches" = Some matches
    /\ py_iter matches = Ok items
    /\ Forall2 (fun m d => listar_match m = Ok d) items docs.
Proof.
  unfold documentos_da_resposta, getattr.
  destruct (attr resultados "matches") as [matches|]; [|discriminate].
  simpl. destruct (py_iter matches) as [items|] eqn:Ei; [|discriminate].
  simpl. intros H.
  apply listar_matches_um_por_match in H as [novos [-> F]].
  exists matches, items. simpl. repeat split; [exact Ei|exact F].
Qed.

(** The inner [try] of lines 257-280 always returns. *)
Lemma listar_consulta_retorna (W : world) (index total : pyval) (limit : Z)
    (t : list call) :
  exists docs t',
    try_except
      (resultados <- method W index "query"
                       (query index dummy_vector (Z.min limit 10000) true) ;;
       documentos <- lift (documentos_da_resposta resultados) ;;
       ret (documentos, total))
      (fun e => ret ([], total)) t
    = (Ok (docs, total), t').
Proof.
  unfold try_except, bind, lift, ret.
  destruct (method W index _ _ t) as [[r|e] t1]; [|eauto].
  destruct (documentos_da_resposta r); eauto.
Qed.

Lemma listar_nunca_levanta (cfg : config) (W : world) (limit : Z)
    (t : list call) :
  exists docs total t',
    listar_todos_documentos cfg W limit t = (Ok (docs, total), t').
Proof.
  unfold listar_todos_documentos.
  unfold try_except at 1. unfold bind at 1.
  destruct (inicializar_pinecone cfg W t) as [[index|e] t1];
    [|unfold ret; eauto].
  unfold bind at 1.
  destruct (method W index _ _ t1) as [[stats|e] t2]; [|unfold ret; eauto].
  unfold bind at 1, lift at 1.
  destruct (py_get stats _ _) as [total|e]; [|unfold ret; eauto].
  destruct (eq_zero total); [unfold ret; eauto|].
  destruct (listar_consulta_retorna W index total limit t2) as [docs [t' E]].
  rewrite E. eauto.
Qed.

(** The run up to the statistics, named for the statements below:
    the connection, the second [describe_index_stats] and the total. *)
Lemma listar_apos_estatisticas (cfg : config) (W : world) (limit : Z)
    (t t1 t2 : list call) (index stats total : pyval) :
  inicializar_pinecone cfg W t = (Ok index, t1) ->
  method W index "describe_index_stats" (describe_index_stats index) t1
  = (Ok stats, t2) ->
  py_get stats "total_vector_count" (PInt 0) = Ok total ->
  listar_todos_documentos cfg W limit t
  = if eq_zero total then (Ok ([], PInt 0), t2)
    else
      match method W index "query"
              (query index dummy_vector (Z.min limit 10000) true) t2 with
      | (Ok resultados, t3) =>
          match documentos_da_resposta resultados with
          | Ok documentos => (Ok (documentos, total), t3)
          | Raise _ => (Ok ([], total), t3)
          end
      | (Raise _, t3) => (Ok ([], total), t3)
      end.
Proof.
  intros E1 E2 E3.
  unfold listar_todos_documentos.
  unfold try_except at 1. unfold bind at 1. rewrite E1.
  unfold bind at 1. rewrite E2.
  unfold bind at 1, lift at 1. rewrite E3.
  destruct (eq_zero total); [reflexivity|].
  unfold try_except, bind, lift, ret.
  destruct (method W index _ _ t2) as [[r|e] t3]; [|reflexivity].
  destruct (documentos_da_resposta r); reflexivity.
Qed.

(** A list that [listar_todos_documentos] returns is empty or holds the
    documents of the response to its query. *)
Lemma listar_resultado (cfg : config) (W : world) (limit : Z)
    (t t' : list call) (docs : list documento_listado) (total : pyval) :
  listar_todos_documentos cfg W limit t = (Ok (docs, total), t') ->
  docs = [] \/ exists resultados, documentos_da_resposta resultados = Ok docs.
Proof.
  unfold listar_todos_documentos.
  unfold try_except at 1. unfold bind at 1.
  destruct (inicializar_pinecone cfg W t) as [[index|e] t1];
    [|unfold ret; intros H; inversion H; auto].
  unfold bind at 1.
  destruct (method W index _ _ t1) as [[stats|e] t2];
    [|unfold ret; intros H; inversion H; auto].
  unfold bind at 1, lift at 1.
  destruct (py_get stats _ _) as [tot|e];
    [|unfold ret; intros H; inversion H; auto].
  destruct (eq_zero tot); [unfold ret; intros H; inversion H; auto|].
  unfold try_except, bind, lift, ret.
  destruct (method W index _ _ t2) as [[r|e] t3];
    [|intros H; inversion H; auto].
  destruct (documentos_da_resposta r) as [ds|e] eqn:Ed;
    intros H; inversion H; subst; eauto.
Qed.

(** A record comes only from a match with an id and a metadata dict. *)
Lemma listar_match_registro (m : pyval) (doc : documento_listado) :
  listar_match m = Ok doc -> registro_do_match m doc.
Proof.
  unfold listar_match, getattr, registro_do_match.
  destruct (attr m "id") as [id|]; [|discriminate].
  destruct (attr m "metadata") as [[| | | | | |d|attrs]|]; simpl;
    try discriminate.
  - intros H. inversion H; subst. exists id, d. auto.
  - destruct (assoc "get" attrs); discriminate.
Qed.

(** The loop keeps every match that has an id and a metadata dict. *)
Lemma listar_matches_registros (ms : list pyval) :
  Forall (fun m => exists id d,
              attr m "id" = Some id /\ attr m "metadata" = Some (PDict d)) ms ->
  forall acc,
  exists novos,
    listar_matches ms acc = Ok (acc ++ novos)
    /\ Forall2 registro_do_match ms novos.
Proof.
  induction 1 as [|m rest [id [d [Hid Hmd]]] _ IH]; intros acc; simpl.
  - exists []. now rewrite app_nil_r.
  - rewrite (listar_match_dict m id d Hid Hmd). simpl.
    destruct (IH (acc ++ [mkListado id (dict_get d "arquivo" (PStr ""))
                            (dict_get d "texto" (PStr ""))]))
      as [novos [E F]].
    eexists. split; [rewrite E, <- app_assoc; reflexivity|].
    constructor; [|exact F]. exists id, d. auto.
Qed.

(** The record of each match is in the list built from the matches. *)
Lemma registros_de_cada_match (ms : list pyval)
    (docs : list documento_listado) :
  Forall2 registro_do_match ms docs ->
  forall m, In m ms -> exists doc, In doc docs /\ registro_do_match m doc.
Proof.
  induction 1 as [|m0 doc0 ms docs R _ IH]; intros m; simpl; [tauto|].
  intros [<-|Hin].
  - exists doc0. auto.
  - destruct (IH m Hin) as [doc [Hd Hr]]. exists doc. auto.
Qed.

(** The record of a match whose metadata lacks a file name or a text is
    incomplete. *)
Lemma registro_incompleto (m : pyval) (d : list (string * pyval))
    (doc : documento_listado) :
  attr m "metadata" = Some (PDict d) ->
  truthy (dict_get d "arquivo" (PStr ""))
  && truthy (dict_get d "texto" (PStr "")) = false ->
  registro_do_match m doc -> listado_completo doc = false.
Proof.
  intros Hmd Hinc [id [d' [_ [Hmd' ->]]]].
  rewrite Hmd in Hmd'. inversion Hmd'; subst d'. exact Hinc.
Qed.

(** A list that [listar_todos_documentos] returns is empty, or the run
    went through the connection, the statistics with a total that is not
    zero and the query, and the list holds the documents of the answer of
    the store to that query. *)
Lemma listar_resultado_da_resposta (cfg : config) (W : world) (limit : Z)
    (t t' : list call) (docs : list documento_listado) (total : pyval) :
  listar_todos_documentos cfg W limit t = (Ok (docs, total), t') ->
  docs = []
  \/ exists index stats t1 t2 resultados,
       inicializar_pinecone cfg W t = (Ok index, t1)
       /\ method W index "describe_index_stats" (describe_index_stats index) t1
          = (Ok stats, t2)
       /\ py_get stats "total_vector_count" (PInt 0) = Ok total
       /\ eq_zero total = false
       /\ t' = t2 ++ [query index dummy_vector (Z.min limit 10000) true]
       /\ respond W t2 (query index dummy_vector (Z.min limit 10000) true)
          = Ok resultados
       /\ documentos_da_resposta resultados = Ok docs.
Proof.
  unfold listar_todos_documentos.
  unfold try_except at 1. unfold bind at 1.
  destruct (inicializar_pinecone cfg W t) as [[index|e] t1];
    [|unfold ret; intros H; inversion H; auto].
  unfold bind at 1.
  destruct (method W index _ _ t1) as [[stats|e] t2] eqn:E2;
    [|unfold ret; intros H; inversion H; auto].
  unfold bind at 1, lift at 1.
  destruct (py_get stats _ _) as [tot|e] eqn:E3;
    [|unfold ret; intros H; inversion H; auto].
  destruct (eq_zero tot) eqn:Hz; [unfold ret; intros H; inversion H; auto|].
  unfold try_except, bind, lift, ret.
  destruct (method W index _ _ t2) as [[r|e] t3] eqn:Eq;
    [|intros H; inversion H; auto].
  apply method_ok in Eq as [_ [Er ->]].
  destruct (documentos_da_resposta r) as [ds|e] eqn:Ed;
    intros H; inversion H; subst; [|auto].
  right. exists index, stats, t1, t2, r.
  repeat (split; [assumption || reflexivity|]). exact Ed.
Qed.

Lemma listar_emite (cfg : config) (W : world) (limit : Z) :
  emite (fun c => chamada_conexao c = true
                  \/ exists index,
                       c = query index dummy_vector (Z.min limit 10000) true)
    (listar_todos_documentos cfg W limit).
Proof.
  unfold listar_todos_documentos.
  apply emite_try_except; [|intros; apply emite_ret].
  apply emite_bind.
  { eapply emite_impl; [|apply inicializar_pinecone_emite]. auto. }
  intros index. emite_passos; eauto.
Qed.

Lemma dummy_vector_zeros :
  exists zs, dummy_vector = PList zs /\ List.length zs = 768%nat
             /\ Forall (fun z => z = PFloat 0%float) zs.
Proof.
  exists (repeat (PFloat 0%float) 768). split; [reflexivity|].
  split; [apply repeat_length|].
  apply Forall_forall. intros x Hx. eapply repeat_spec, Hx.
Qed.

Lemma buscar_nao_branco (cfg : config) (W : world) (query : string)
    (top_k : Z) :
  em_branco query = false ->
  buscar_documentos cfg W query top_k
  = try_except (buscar_documentos_corpo cfg W query top_k) tratar_erro_busca.
Proof.
  intros Hb. unfold buscar_documentos. now rewrite guarda_em_branco, Hb.
Qed.

Lemma buscar_completos (cfg : config) (W : world) (query : string)
    (top_k : Z) (t t' : list call) (docs : list documento) :
  buscar_documentos cfg W query top_k t = (Ok docs, t') ->
  Forall (fun d => doc_completo d = true) docs.
Proof.
  unfold buscar_documentos.
  destruct (str_is_empty query || str_is_empty (strip query)).
  - unfold ret. intros H; inversion H; subst. constructor.
  - unfold try_except.
    destruct (buscar_documentos_corpo cfg W query top_k t)
      as [[ds|e] t1] eqn:E.
    + intros H; inversion H; subst. eapply buscar_corpo_completos, E.
    + unfold tratar_erro_busca.
      destruct (isinstance e ValueError); [discriminate|].
      destruct (isinstance e ConnectionError); [discriminate|].
      unfold ret. intros H; inversion H; subst. constructor.
Qed.

Lemma truthy_nao_vazio (v : pyval) :
  truthy v = true -> v <> PStr "" /\ v <> PNone.
Proof. intros H; split; intros ->; discriminate. Qed.

(** A match whose metadata dict lacks a file name or a text adds nothing. *)
Lemma incompleto_nada (W : world) (m : pyval) (d : list (string * pyval)) :
  attr m "metadata" = Some (PDict d) ->
  truthy (dict_get d "arquivo" (PStr "")) && truthy (dict_get d "texto" (PStr ""))
  = false ->
  contribuicao W m = [].
Proof.
  intros Hm Hinc. unfold contribuicao, formatar_match. rewrite Hm.
  destruct (negb (truthy (PDict d))); [reflexivity|].
  destruct (match attr m "score" with
            | Some s => py_float (float_of_str W) s
            | None => Ok 0%float
            end) as [f|e]; [|reflexivity].
  destruct (campo_extra_dict d "valores_monetarios") as [v1 E1].
  destruct (campo_extra_dict d "cpfs") as [v2 E2].
  destruct (campo_extra_dict d "nomes") as [v3 E3].
  unfold py_get. simpl rbind. rewrite E1, E2, E3. simpl rbind.
  unfold dict_get in Hinc.
  rewrite <- negb_andb, Hinc. reflexivity.
Qed.

(** C1 (as amended).  Every record that [buscar_documentos] returns has a
    non-empty file name ([arquivo]) and a non-empty text ([texto]): a match
    whose metadata lacks either adds nothing to the result.
    [listar_todos_documentos] applies no such filter.  A list that it
    returns is empty, or the run connected, read a total that is not zero
    and sent its query, and the list has one record per match of the
    answer of the store to that query, in order, each record carrying the
    id of its match and the [arquivo] and [texto] entries of the metadata,
    or the empty string where an entry is absent.  Conversely, when the
    run gets that far and every match of the answer has an id and a
    metadata dict, every match is kept: a match whose metadata lacks a
    file name or a text is returned as an incomplete record. *)
Theorem C1_busca_filtra_listagem_nao (cfg : config) (W : world) :
  (forall query top_k t docs t',
      buscar_documentos cfg W query top_k t = (Ok docs, t') ->
      Forall (fun d => truthy (doc_arquivo d) = true
                       /\ truthy (doc_texto d) = true
                       /\ doc_arquivo d <> PStr "" /\ doc_texto d <> PStr "")
        docs)
  /\ (forall m d,
         attr m "metadata" = Some (PDict d) ->
         truthy (dict_get d "arquivo" (PStr ""))
         && truthy (dict_get d "texto" (PStr "")) = false ->
         forall antes depois,
           formatar_resultados W (antes ++ m :: depois) []
           = formatar_resultados W antes [] ++ formatar_resultados W depois [])
  /\ (forall limit t docs total t',
         listar_todos_documentos cfg W limit t = (Ok (docs, total), t') ->
         docs = []
         \/ exists index stats t1 t2 resultados matches items,
              let q := query index dummy_vector (Z.min limit 10000) true in
              inicializar_pinecone cfg W t = (Ok index, t1)
              /\ method W index "describe_index_stats"
                   (describe_index_stats index) t1 = (Ok stats, t2)
              /\ py_get stats "total_vector_count" (PInt 0) = Ok total
              /\ eq_zero total = false
              /\ t' = t2 ++ [q]
              /\ respond W t2 q = Ok resultados
              /\ attr resultados "matches" = Some matches
              /\ py_iter matches = Ok items
              /\ Forall2 registro_do_match items docs)
  /\ (forall limit t t1 t2 index stats total resultados matches items,
         let q := query index dummy_vector (Z.min limit 10000) true in
         inicializar_pinecone cfg W t = (Ok index, t1) ->
         method W index "describe_index_stats" (describe_index_stats index) t1
         = (Ok stats, t2) ->
         py_get stats "total_vector_count" (PInt 0) = Ok total ->
         eq_zero total = false ->
         respond W t2 q = Ok resultados ->
         attr resultados "matches" = Some matches ->
         py_iter matches = Ok items ->
         Forall (fun m => exists id d,
                     attr m "id" = Some id
                     /\ attr m "metadata" = Some (PDict d)) items ->
         exists docs,
           listar_todos_documentos cfg W limit t
           = (Ok (docs, total), t2 ++ [q])
           /\ Forall2 registro_do_match items docs
           /\ forall m d,
                In m items ->
                attr m "metadata" = Some (PDict d) ->
                truthy (dict_get d "arquivo" (PStr ""))
                && truthy (dict_get d "texto" (PStr "")) = false ->
                exists doc,
                  In doc docs /\ registro_do_match m doc
                  /\ listado_completo doc = false).
Proof.
  split; [|split; [|split]].
  - intros query top_k t docs t' H.
    apply buscar_completos in H.
    eapply Forall_impl; [|exact H].
    intros d Hd. unfold doc_completo in Hd.
    apply andb_true_iff in Hd as [Ha Ht].
    destruct (truthy_nao_vazio _ Ha), (truthy_nao_vazio _ Ht). auto.
  - intros m d Hm Hinc antes depois.
    rewrite !formatar_resultados_contribuicoes. simpl.
    rewrite flat_map_app. simpl.
    now rewrite (incompleto_nada W m d Hm Hinc).
  - intros limit t docs total t' H.
    apply listar_resultado_da_resposta in H
      as [H|[index [stats [t1 [t2 [r [E1 [E2 [E3 [Hz [Et [Er Ed]]]]]]]]]]]];
      [auto|].
    right.
    apply documentos_da_resposta_um_por_match in Ed
      as [matches [items [Em [Ei F]]]].
    exists index, stats, t1, t2, r, matches, items. cbv zeta.
    repeat (split; [assumption|]).
    eapply Forall2_impl; [|exact F].
    intros m doc. apply listar_match_registro.
  - intros limit t t1 t2 index stats total resultados matches items q
      E1 E2 E3 Hz Er Em Ei Hl.
    destruct (listar_matches_registros items Hl []) as [docs [El F]].
    exists docs. split; [|split; [exact F|]].
    + rewrite (listar_apos_estatisticas cfg W limit t t1 t2 index stats total
                 E1 E2 E3), Hz.
      destruct (inicializar_pinecone_objeto cfg W t t1 index E1) as [attrs ->].
      simpl method. unfold sdk. fold q. rewrite Er.
      unfold documentos_da_resposta, getattr. rewrite Em. simpl.
      rewrite Ei. simpl. rewrite El. reflexivity.
    + intros m d Hin Hmd Hinc.
      destruct (registros_de_cada_match items docs F m Hin) as [doc [Hd Hr]].
      exists doc. split; [exact Hd|]. split; [exact Hr|].
      exact (registro_incompleto m d doc Hmd Hinc Hr).
Qed.

Lemma C1_busca_filtra_listagem_nao_witness :
  (exists docs,
      fst (buscar_documentos cfg_exemplo
             mundo_dois_matches "qual o valor do aluguel?" 5 []) = Ok docs
      /\ List.length docs = 1%nat
      /\ Forall (fun d => truthy (doc_arquivo d) = true
                          /\ truthy (doc_texto d) = true
                          /\ doc_arquivo d <> PStr "" /\ doc_texto d <> PStr "")
           docs)
  /\ (exists docs,
         fst (listar_todos_documentos cfg_exemplo mundo_dois_matches 100 [])
         = Ok (docs, PInt 2)
         /\ Forall2 registro_do_match
              [match_completo_1; match_sem_arquivo] docs
         /\ exists doc,
              In doc docs /\ registro_do_match match_sem_arquivo doc
              /\ listado_completo doc = false)
  /\ (exists items,
         List.length items = 2%nat
         /\ Forall2 registro_do_match items
              [mkListado (PStr "doc-1") (PStr "contrato.pdf")
                 (PStr "aluguel de R$ 1500");
               mkListado (PStr "doc-4") (PStr "") (PStr "sem arquivo")]).
Proof.
  split; [|split].
  - eexists. split; [vm_compute; reflexivity|]. split; [reflexivity|].
    eapply (proj1 (C1_busca_filtra_listagem_nao cfg_exemplo mundo_dois_matches)
              "qual o valor do aluguel?" 5 []).
    vm_compute. reflexivity.
  - edestruct (proj2 (proj2 (proj2 (C1_busca_filtra_listagem_nao
                                      cfg_exemplo mundo_dois_matches)))
                 100 [])
      as [docs [E [F Hinc]]].
    + vm_compute. reflexivity.
    + vm_compute. reflexivity.
    + vm_compute. reflexivity.
    + reflexivity.
    + vm_compute. reflexivity.
    + reflexivity.
    + reflexivity.
    + repeat apply Forall_cons; [| |apply Forall_nil];
        eexists; eexists; split; vm_compute; reflexivity.
    + exists docs. split; [rewrite E; reflexivity|]. split; [exact F|].
      apply (Hinc match_sem_arquivo [("texto", PStr "sem arquivo")]).
      * simpl. auto.
      * reflexivity.
      * reflexivity.
  - edestruct (proj1 (proj2 (proj2 (C1_busca_filtra_listagem_nao
                                      cfg_exemplo mundo_dois_matches)))
                 100 [])
      as [H|[index [stats [t1 [t2 [r [matches [items H]]]]]]]].
    + vm_compute. reflexivity.
    + discriminate H.
    + destruct H as [_ [_ [_ [_ [_ [_ [_ [_ F]]]]]]]].
      exists items. split; [exact (Forall2_length F)|exact F].
Defined.

(** C1 (as stated) fails for the listing: with a match whose metadata has
    no [arquivo], [listar_todos_documentos] returns a record whose file
    name is the empty string. *)
Lemma C1_listagem_counterexample :
  fst (listar_todos_documentos cfg_exemplo mundo_dois_matches 100 [])
  = Ok ([mkListado (PStr "doc-1") (PStr "contrato.pdf")
           (PStr "aluguel de R$ 1500");
         mkListado (PStr "doc-4") (PStr "") (PStr "sem arquivo")],
        PInt 2)
  /\ listado_completo
       (mkListado (PStr "doc-4") (PStr "") (PStr "sem arquivo")) = false.
Proof. split; vm_compute; reflexivity. Qed.

(** The three wrapped errors are told apart by class or by message. *)
Lemma erros_das_etapas_distintos (e1 e2 e3 : exn) :
  erro_de_embedding e1 -> erro_de_conexao e2 -> erro_de_busca e3 ->
  e1 <> e2 /\ e2 <> e3 /\ e1 <> e3.
Proof.
  intros [a ->] [b ->] [c ->]. repeat split; intros H; inversion H.
Qed.

(** C2 (as amended).  When the vector query itself fails inside
    [buscar_documentos], the caller receives a ValueError whose message is
    "Falha na busca vetorial: " followed by the message of the failure.
    This is the class that an embedding failure is raised with as well
    (there is no search class of its own): the two differ by their message
    only.  It is not a ConnectionError, the class of a connection
    failure. *)
Theorem C2_falha_da_busca_e_ValueError (cfg : config) (W : world)
    (consulta : string) (top_k : Z) (t : list call) :
  em_branco consulta = false ->
  (forall emb t1 index t2 e0,
      embedding_da_consulta cfg W (enriquecer (truncar consulta)) t = (Ok emb, t1) ->
      conectar cfg W t1 = (Ok index, t2) ->
      respond W t2 (query index emb top_k true) = Raise e0 ->
      let e := mkExn ValueError (prefixo_erro_busca ++ exc_str e0) in
      buscar_documentos cfg W consulta top_k t
      = (Raise e, t2 ++ [query index emb top_k true])
      /\ isinstance e ValueError = true
      /\ isinstance e ConnectionError = false)
  /\ (forall e t1,
         embedding_da_consulta cfg W (enriquecer (truncar consulta)) t
         = (Raise e, t1) ->
         buscar_documentos cfg W consulta top_k t = (Raise e, t1)
         /\ exc_type e = ValueError
         /\ forall e', erro_de_busca e' ->
                       exc_type e' = exc_type e /\ e' <> e).
Proof.
  intros Hb. rewrite (buscar_nao_branco cfg W consulta top_k Hb). split.
  - intros emb t1 index t2 e0 E1 E2 E3 e.
    destruct (conectar_objeto cfg W t1 t2 index E2) as [attrs ->].
    repeat split.
    unfold try_except, buscar_documentos_corpo, bind.
    rewrite E1, E2, (realizar_busca_falha W attrs emb top_k t2 e0 E3).
    reflexivity.
  - intros e t1 E1.
    pose proof (embedding_da_consulta_erro cfg W _ t t1 e E1) as He.
    pose proof (erro_de_embedding_classe e He) as Hc.
    repeat split.
    + unfold try_except, buscar_documentos_corpo, bind. rewrite E1.
      apply tratar_erro_busca_relanca.
      unfold isinstance. rewrite Hc. reflexivity.
    + exact Hc.
    + rewrite Hc. now apply erro_de_busca_classe.
    + destruct He as [a ->], H as [b ->]. intros H. inversion H.
Qed.

Lemma C2_falha_da_busca_e_ValueError_witness :
  fst (buscar_documentos cfg_exemplo mundo_busca_falha "contrato" 5 [])
  = Raise (mkExn ValueError "Falha na busca vetorial: timeout").
Proof.
  destruct (C2_falha_da_busca_e_ValueError cfg_exemplo mundo_busca_falha
              "contrato" 5 [] eq_refl) as [H _].
  edestruct H as [R _];
    [vm_compute; reflexivity | vm_compute; reflexivity
    | vm_compute; reflexivity |].
  rewrite R. reflexivity.
Defined.

(** C2 (as stated) fails: a failure of the vector query and a failure of
    the embedding reach the caller with the same class, ValueError. *)
Lemma C2_counterexample :
  respond mundo_busca_falha
    [embed_content "models/embedding-001" ["contrato"] "RETRIEVAL_QUERY";
     Pinecone "pc-key";
     Index (PObj [("kind", PStr "Pinecone")]) "brito-ai"
       "https://brito-ai.svc.pinecone.io";
     describe_index_stats indice_exemplo]
    (query indice_exemplo embedding_exemplo 5 true)
  = Raise (mkExn RuntimeError "timeout")
  /\ fst (buscar_documentos cfg_exemplo mundo_busca_falha "contrato" 5 [])
     = Raise (mkExn ValueError (prefixo_erro_busca ++ "timeout"))
  /\ fst (buscar_documentos cfg_exemplo mundo_embedding_falha "contrato" 5 [])
     = Raise (mkExn ValueError (prefixo_erro_embedding ++ "quota"))
  /\ exc_type (mkExn ValueError (prefixo_erro_busca ++ "timeout"))
     = exc_type (mkExn ValueError (prefixo_erro_embedding ++ "quota")).
Proof. repeat split; vm_compute; reflexivity. Qed.

(** C3.  In [buscar_documentos], a failure of the body of the outer [try]
    that is neither a ValueError nor a ConnectionError is turned into the
    successful return of the empty list; a ValueError or ConnectionError
    is raised again, unchanged.  So the only exceptions that reach the
    caller are the three raised on purpose by the embedding, connection
    and query steps. *)
Theorem C3_erros_inesperados_viram_lista_vazia (cfg : config) (W : world)
    (consulta : string) (top_k : Z) (t : list call) :
  em_branco consulta = false ->
  (forall e t',
      buscar_documentos_corpo cfg W consulta top_k t = (Raise e, t') ->
      isinstance e ValueError = false ->
      isinstance e ConnectionError = false ->
      buscar_documentos cfg W consulta top_k t = (Ok [], t'))
  /\ (forall e t',
         buscar_documentos_corpo cfg W consulta top_k t = (Raise e, t') ->
         isinstance e ValueError || isinstance e ConnectionError = true ->
         buscar_documentos cfg W consulta top_k t = (Raise e, t'))
  /\ (forall e t',
         buscar_documentos cfg W consulta top_k t = (Raise e, t') ->
         erro_de_embedding e \/ erro_de_conexao e \/ erro_de_busca e).
Proof.
  intros Hb. rewrite (buscar_nao_branco cfg W consulta top_k Hb).
  unfold try_except. repeat split.
  - intros e t' E Hv Hc. rewrite E. now apply tratar_erro_busca_engole.
  - intros e t' E H. rewrite E. now apply tratar_erro_busca_relanca.
  - intros e t'.
    destruct (buscar_documentos_corpo cfg W consulta top_k t)
      as [[docs|e1] t1] eqn:E; [discriminate|].
    apply buscar_corpo_erro in E.
    unfold tratar_erro_busca, isinstance.
    destruct E as [E|[E|[E|[E|E]]]].
    + rewrite (erro_de_embedding_classe _ E). simpl.
      intros H; inversion H; subst. auto.
    + rewrite (erro_de_conexao_classe _ E). simpl.
      intros H; inversion H; subst. auto.
    + rewrite (erro_de_busca_classe _ E). simpl.
      intros H; inversion H; subst. auto.
    + rewrite E. simpl. discriminate.
    + rewrite E. simpl. discriminate.
Qed.

Lemma C3_erros_inesperados_viram_lista_vazia_witness :
  fst (buscar_documentos_corpo cfg_exemplo mundo_matches_invalidos "oi" 5 [])
  = Raise (mkExn TypeError "'int' object is not iterable")
  /\ fst (buscar_documentos cfg_exemplo mundo_matches_invalidos "oi" 5 [])
     = Ok [].
Proof.
  split; [vm_compute; reflexivity|].
  destruct (C3_erros_inesperados_viram_lista_vazia cfg_exemplo
              mundo_matches_invalidos "oi" 5 [] eq_refl) as [H _].
  erewrite H; [reflexivity | vm_compute; reflexivity
              | reflexivity | reflexivity].
Defined.

Lemma nao_branco_de_strip (consulta : string) :
  strip consulta <> "" -> em_branco consulta = false.
Proof.
  intros H. destruct (em_branco consulta) eqn:E; [|reflexivity].
  apply strip_vazio_iff in E. contradiction.
Qed.

(** C4.  When the trimmed query is longer than 1000 characters, the one
    text sent to the embedding service is the first 1000 characters of the
    trimmed query followed by at most one suffix, and which suffix is
    decided by matching on those 1000 characters: the monetary one when a
    monetary term occurs in them, else the person one when a name occurs in
    them, else nothing. *)
Theorem C4_consulta_truncada_antes_de_enriquecer (cfg : config) (W : world)
    (consulta : string) (top_k : Z) (t : list call) :
  (1000 < String.length (strip consulta))%nat ->
  exists primeiros resto sufixo ev,
    strip consulta = (primeiros ++ resto)%string
    /\ String.length primeiros = 1000%nat
    /\ snd (buscar_documentos cfg W consulta top_k t) = t ++ ev
    /\ textos_embutidos ev = [(primeiros ++ sufixo)%string]
    /\ sufixo
       = (if consulta_sobre_valor primeiros then " " ++ sufixo_valor
          else if consulta_sobre_pessoa primeiros then " " ++ sufixo_pessoa
          else "")%string.
Proof.
  intros Hlen.
  assert (Hb : em_branco consulta = false).
  { apply nao_branco_de_strip. intros E. rewrite E in Hlen. simpl in Hlen. lia. }
  destruct (slice_to_prefixo 1000 (strip consulta)) as [resto Hresto].
  destruct (buscar_documentos_traco cfg W consulta top_k t Hb)
    as [ev [Et Hev]].
  apply sem_embedding_propositos in Hev as [_ Htx].
  rewrite (truncar_longa consulta Hlen) in Et.
  set (primeiros := slice_to 1000 (strip consulta)) in *.
  exists primeiros, resto,
    (if consulta_sobre_valor primeiros then " " ++ sufixo_valor
     else if consulta_sobre_pessoa primeiros then " " ++ sufixo_pessoa
     else "")%string.
  eexists. split; [exact Hresto|]. split.
  { unfold primeiros. rewrite slice_to_length. lia. }
  split; [exact Et|]. split; [|reflexivity].
  simpl. rewrite Htx. unfold enriquecer.
  destruct (consulta_sobre_valor primeiros); [reflexivity|].
  destruct (consulta_sobre_pessoa primeiros); [reflexivity|].
  now rewrite append_vazio.
Qed.

(** ** Trimming keeps the terms of the vocabulary *)

Lemma isspace_lower_char (c : ascii) : isspace (lower_char c) = isspace c.
Proof. destruct c as [[] [] [] [] [] [] [] []]; reflexivity. Qed.

Lemma lower_lstrip (s : string) : lower (lstrip s) = lstrip (lower s).
Proof.
  induction s as [|c r IH]; simpl; [reflexivity|].
  rewrite isspace_lower_char. destruct (isspace c); [exact IH|reflexivity].
Qed.

Lemma lower_rstrip (s : string) : lower (rstrip s) = rstrip (lower s).
Proof.
  induction s as [|c r IH]; simpl; [reflexivity|].
  rewrite <- IH, isspace_lower_char.
  destruct (rstrip r); simpl; [destruct (isspace c)|]; reflexivity.
Qed.

Lemma lower_strip (s : string) : lower (strip s) = strip (lower s).
Proof. unfold strip. now rewrite lower_rstrip, lower_lstrip. Qed.

Lemma prefix_str_in (t s : string) : prefix t s = true -> str_in t s = true.
Proof. intros H. destruct s; simpl in *; rewrite H; reflexivity. Qed.

Lemma str_in_lstrip (c : ascii) (t' s : string) :
  isspace c = false ->
  str_in (String c t') s = true -> str_in (String c t') (lstrip s) = true.
Proof.
  intros Hc. induction s as [|x r IH]; simpl; [auto|].
  destruct (isspace x) eqn:Ex; [|auto].
  destruct (Ascii.ascii_dec c x) as [->|Hne]; [congruence|].
  simpl. intros H. apply IH. exact H.
Qed.

Lemma prefix_rstrip (s : string) :
  forall t, fim_nao_branco t = true ->
            prefix t s = true -> prefix t (rstrip s) = true.
Proof.
  induction s as [|x r IH]; intros [|c t'] Ht; simpl in *; try discriminate.
  destruct (Ascii.ascii_dec c x) as [->|Hne]; [|discriminate].
  intros Hp. destruct t' as [|c' t''].
  - apply negb_true_iff in Ht.
    destruct (rstrip r); simpl; [rewrite Ht; simpl|];
      destruct (Ascii.ascii_dec x x); congruence.
  - specialize (IH (String c' t'') Ht Hp).
    destruct (rstrip r); [discriminate|].
    simpl. destruct (Ascii.ascii_dec x x); [exact IH|congruence].
Qed.

Lemma str_in_rstrip (t s : string) :
  fim_nao_branco t = true ->
  str_in t s = true -> str_in t (rstrip s) = true.
Proof.
  intros Ht. induction s as [|x r IH].
  - destruct t; [discriminate|]. simpl. auto.
  - intros H.
    destruct (prefix t (String x r)) eqn:Hp.
    + apply prefix_str_in, prefix_rstrip; assumption.
    + cbn [str_in] in H. rewrite Hp in H. cbn [orb] in H. specialize (IH H).
      cbn [rstrip]. destruct (rstrip r) eqn:Er.
      * destruct t; discriminate.
      * cbn [str_in]. cbn [str_in] in IH. rewrite IH. apply orb_true_r.
Qed.

Lemma str_in_strip (t s : string) :
  sem_bordas_brancas t = true ->
  str_in t s = true -> str_in t (strip s) = true.
Proof.
  destruct t as [|c t']; [discriminate|].
  unfold sem_bordas_brancas. intros H Hin.
  apply andb_true_iff in H as [Hc Hf]. apply negb_true_iff in Hc.
  unfold strip. apply str_in_rstrip; [exact Hf|].
  apply str_in_lstrip; assumption.
Qed.

Lemma consulta_sobre_valor_strip (q : string) :
  consulta_sobre_valor q = true -> consulta_sobre_valor (strip q) = true.
Proof.
  unfold consulta_sobre_valor. rewrite !existsb_exists.
  intros [termo [Hin H]]. exists termo. split; [exact Hin|].
  rewrite lower_strip. apply str_in_strip; [|exact H].
  assert (Hall : forallb sem_bordas_brancas termos_valor = true)
    by (vm_compute; reflexivity).
  rewrite forallb_forall in Hall. auto.
Qed.

Lemma C4_consulta_truncada_antes_de_enriquecer_witness :
  (1000 < String.length (strip consulta_longa))%nat
  /\ exists primeiros resto sufixo ev,
       strip consulta_longa = (primeiros ++ resto)%string
       /\ String.length primeiros = 1000%nat
       /\ snd (buscar_documentos cfg_exemplo mundo_dois_matches
                 consulta_longa 5 []) = [] ++ ev
       /\ textos_embutidos ev = [(primeiros ++ sufixo)%string]
       /\ sufixo
          = (if consulta_sobre_valor primeiros then " " ++ sufixo_valor
             else if consulta_sobre_pessoa primeiros then " " ++ sufixo_pessoa
             else "")%string.
Proof.
  assert (H : (1000 < String.length (strip consulta_longa))%nat).
  { apply Nat.ltb_lt. vm_compute. reflexivity. }
  split; [exact H|].
  exact (C4_consulta_truncada_antes_de_enriquecer cfg_exemplo
           mundo_dois_matches consulta_longa 5 [] H).
Defined.

Lemma consulta_sobre_valor_nao_branca (consulta : string) :
  consulta_sobre_valor (truncar consulta) = true ->
  em_branco consulta = false.
Proof.
  intros H. apply nao_branco_de_strip. intros E.
  rewrite (truncar_vazio consulta E) in H.
  now apply consulta_sobre_valor_nao_vazia in H.
Qed.

(** C5 (as amended).  When a monetary term occurs, whatever the case of
    its letters, in the trimmed query cut to its first 1000 characters, the
    text sent to the embedding service is that cut text, a space, and the
    monetary suffix "valor aluguel preco pagamento R$" (with c-cedilla):
    a person name in the query changes nothing, and no second suffix is
    appended.  This covers every query containing a monetary term whose
    trimmed form has at most 1000 characters.  A term that occurs only
    beyond the 1000th character of the trimmed query is cut off before
    the matching and adds no suffix: when no monetary term occurs in the
    cut text of a query that is not blank, the text embedded is the cut
    text alone, or the cut text with the person suffix when a name occurs
    in it. *)
Theorem C5_sufixo_monetario_tem_precedencia (cfg : config) (W : world)
    (consulta : string) (top_k : Z) (t : list call) :
  (consulta_sobre_valor (truncar consulta) = true ->
   exists ev,
     snd (buscar_documentos cfg W consulta top_k t) = t ++ ev
     /\ textos_embutidos ev
        = [(truncar consulta ++ " " ++ sufixo_valor)%string])
  /\ (consulta_sobre_valor consulta = true ->
      (String.length (strip consulta) <= 1000)%nat ->
      exists ev,
        snd (buscar_documentos cfg W consulta top_k t) = t ++ ev
        /\ textos_embutidos ev
           = [(strip consulta ++ " " ++ sufixo_valor)%string])
  /\ (exists sufixo,
         In sufixo ["";  " " ++ sufixo_valor; " " ++ sufixo_pessoa]%string
         /\ enriquecer (truncar consulta)
            = (truncar consulta ++ sufixo)%string)
  /\ (consulta_sobre_valor (truncar consulta) = false ->
      em_branco consulta = false ->
      exists ev,
        snd (buscar_documentos cfg W consulta top_k t) = t ++ ev
        /\ textos_embutidos ev
           = [if consulta_sobre_pessoa (truncar consulta)
              then (truncar consulta ++ " " ++ sufixo_pessoa)%string
              else truncar consulta]).
Proof.
  assert (Hmain : consulta_sobre_valor (truncar consulta) = true ->
                  exists ev,
                    snd (buscar_documentos cfg W consulta top_k t) = t ++ ev
                    /\ textos_embutidos ev
                       = [(truncar consulta ++ " " ++ sufixo_valor)%string]).
  { intros Hv.
    pose proof (consulta_sobre_valor_nao_branca consulta Hv) as Hb.
    destruct (buscar_documentos_traco cfg W consulta top_k t Hb)
      as [resto [Et Hev]].
    apply sem_embedding_propositos in Hev as [_ Htx].
    eexists. split; [exact Et|].
    simpl. rewrite Htx. unfold enriquecer. rewrite Hv. reflexivity. }
  split; [exact Hmain|]. split; [|split].
  - intros Hv Hlen. rewrite <- (truncar_curta consulta Hlen).
    apply Hmain. rewrite (truncar_curta consulta Hlen).
    now apply consulta_sobre_valor_strip.
  - destruct (enriquecer_casos (truncar consulta))
      as [[_ E]|[[_ [_ E]]|[_ [_ E]]]]; rewrite E.
    + exists (" " ++ sufixo_valor)%string. simpl. auto.
    + exists (" " ++ sufixo_pessoa)%string. simpl. auto.
    + exists "". rewrite append_vazio. simpl. auto.
  - intros Hv Hb.
    destruct (buscar_documentos_traco cfg W consulta top_k t Hb)
      as [resto [Et Hev]].
    apply sem_embedding_propositos in Hev as [_ Htx].
    eexists. split; [exact Et|].
    simpl. rewrite Htx. unfold enriquecer. rewrite Hv. reflexivity.
Qed.

Lemma C5_sufixo_monetario_tem_precedencia_witness :
  (exists ev,
      snd (buscar_documentos cfg_exemplo mundo_dois_matches
             "qual o valor do aluguel?" 5 []) = [] ++ ev
      /\ textos_embutidos ev
         = [("qual o valor do aluguel?" ++ " " ++ sufixo_valor)%string])
  /\ consulta_sobre_pessoa "  Quanto a Ana paga de ALUGUEL? " = true
  /\ (exists ev,
       snd (buscar_documentos cfg_exemplo mundo_dois_matches
              "  Quanto a Ana paga de ALUGUEL? " 5 []) = [] ++ ev
       /\ textos_embutidos ev
          = [("Quanto a Ana paga de ALUGUEL?" ++ " " ++ sufixo_valor)%string])
  /\ consulta_sobre_valor consulta_longa = true
  /\ exists ev,
       snd (buscar_documentos cfg_exemplo mundo_dois_matches
              consulta_longa 5 []) = [] ++ ev
       /\ textos_embutidos ev = [string_of_list_ascii (repeat "a"%char 1000)].
Proof.
  split; [|split; [vm_compute; reflexivity|split; [|split]]].
  - apply (proj1 (C5_sufixo_monetario_tem_precedencia cfg_exemplo
                    mundo_dois_matches "qual o valor do aluguel?" 5 [])).
    vm_compute. reflexivity.
  - apply (proj1 (proj2 (C5_sufixo_monetario_tem_precedencia cfg_exemplo
                           mundo_dois_matches
                           "  Quanto a Ana paga de ALUGUEL? " 5 []))).
    + vm_compute. reflexivity.
    + vm_compute. lia.
  - vm_compute. reflexivity.
  - destruct (proj2 (proj2 (proj2 (C5_sufixo_monetario_tem_precedencia
                                     cfg_exemplo mundo_dois_matches
                                     consulta_longa 5 []))))
      as [ev [E Htx]].
    + vm_compute. reflexivity.
    + vm_compute. reflexivity.
    + exists ev. split; [exact E|]. rewrite Htx. vm_compute. reflexivity.
Defined.

(** C5 (as stated) fails: the query of 1000 letters [a] followed by
    [valor] contains a monetary term, yet the text embedded is the 1000
    letters alone, without the suffix. *)
Lemma C5_counterexample :
  consulta_sobre_valor consulta_longa = true
  /\ textos_embutidos
       (snd (buscar_documentos cfg_exemplo mundo_dois_matches
               consulta_longa 5 []))
     = [string_of_list_ascii (repeat "a"%char 1000)].
Proof. split; vm_compute; reflexivity. Qed.

(** C6.  Each embedding call carries the purpose of its use, as recorded
    in the call made to the SDK: [gerar_embedding], and through it
    [processar_e_indexar_documento], embed the text of the document with
    [RETRIEVAL_DOCUMENT], and that is their only embedding call;
    [buscar_documentos] embeds a non-blank query with [RETRIEVAL_QUERY],
    and that is its only embedding call. *)
Theorem C6_proposito_do_embedding (cfg : config) (W : world) :
  (forall texto t,
      snd (gerar_embedding cfg W texto t)
      = t ++ [embed_content (GEMINI_EMBEDDING_MODEL cfg) [texto]
                "RETRIEVAL_DOCUMENT"])
  /\ (forall texto metadata id index t,
         exists ev,
           snd (processar_e_indexar_documento cfg W texto metadata id index t)
           = t ++ ev
           /\ propositos ev = ["RETRIEVAL_DOCUMENT"]
           /\ textos_embutidos ev = [texto])
  /\ (forall consulta top_k t,
         exists ev,
           snd (buscar_documentos cfg W consulta top_k t) = t ++ ev
           /\ propositos ev
              = (if em_branco consulta then [] else ["RETRIEVAL_QUERY"])
           /\ textos_embutidos ev
              = (if em_branco consulta then []
                 else [enriquecer (truncar consulta)])).
Proof.
  split; [apply gerar_embedding_traco|]. split.
  - intros texto metadata id index t.
    unfold processar_e_indexar_documento.
    unfold try_except at 1. unfold bind at 1.
    pose proof (gerar_embedding_traco cfg W texto t) as Eg.
    destruct (gerar_embedding cfg W texto t) as [[emb|e] t1];
      simpl in Eg; subst t1.
    + match goal with
      | |- context [?m (t ++ [_])] =>
          assert (H : emite (fun x => chamada_embedding x = false) m)
      end.
      { apply emite_bind.
        - destruct id; [apply emite_ret|].
          apply emite_nada. reflexivity.
        - intros i. apply emite_bind.
          + destruct index; [apply emite_ret|].
            eapply emite_impl; [|apply inicializar_pinecone_emite].
            intros [] Hc; simpl in *; congruence.
          + intros ix. emite_passos. reflexivity. }
      match goal with
      | |- context [?m (t ++ [?ec])] =>
          destruct (H (t ++ [ec])) as [ev [E F]];
          destruct (m (t ++ [ec])) as [[r|e] t2]
      end; simpl in E; subst t2;
        apply sem_embedding_propositos in F as [F1 F2];
        eexists; (split; [simpl; rewrite <- app_assoc; reflexivity|]);
        simpl; rewrite F1, F2; auto.
    + eexists. split; [reflexivity|]. auto.
  - intros consulta top_k t.
    destruct (em_branco consulta) eqn:Hb.
    + exists []. unfold buscar_documentos. rewrite guarda_em_branco, Hb.
      simpl. now rewrite app_nil_r.
    + destruct (buscar_documentos_traco cfg W consulta top_k t Hb)
        as [resto [Et Hev]].
      apply sem_embedding_propositos in Hev as [F1 F2].
      eexists. split; [exact Et|]. simpl. now rewrite F1, F2.
Qed.

(** C7.  For a query that is empty or made of whitespace only,
    [buscar_documentos] returns the empty list, raises nothing, and makes
    no call: the trace of SDK calls is left as it was. *)
Theorem C7_consulta_em_branco (cfg : config) (W : world)
    (consulta : string) (top_k : Z) (t : list call) :
  em_branco consulta = true ->
  buscar_documentos cfg W consulta top_k t = (Ok [], t).
Proof.
  intros Hb. unfold buscar_documentos. rewrite guarda_em_branco, Hb.
  reflexivity.
Qed.

Lemma C7_consulta_em_branco_witness :
  buscar_documentos cfg_exemplo mundo_dois_matches "" 5 [] = (Ok [], [])
  /\ buscar_documentos cfg_exemplo mundo_dois_matches
       (" " ++ chr 9 ++ chr 10 ++ chr 160) 5 [] = (Ok [], []).
Proof.
  split; apply C7_consulta_em_branco; reflexivity.
Defined.




(** C9.  Every vector query that [listar_todos_documentos] issues asks
    for [min(limit, 10000)] results, with metadata, around a vector of 768
    zeros; once the connection is made and the index reports a total that
    is not zero, exactly that query follows the statistics.  With
    [limit = 50] the query asks for 50 results. *)
Theorem C9_consulta_da_listagem (cfg : config) (W : world) (limit : Z)
    (t : list call) :
  (exists ev,
      snd (listar_todos_documentos cfg W limit t) = t ++ ev
      /\ Forall (fun c =>
                   chamada_query c = true ->
                   exists index zs,
                     c = query index (PList zs) (Z.min limit 10000) true
                     /\ List.length zs = 768%nat
                     /\ Forall (fun z => z = PFloat 0%float) zs) ev)
  /\ (forall index t1 stats t2 total,
         inicializar_pinecone cfg W t = (Ok index, t1) ->
         method W index "describe_index_stats" (describe_index_stats index) t1
         = (Ok stats, t2) ->
         py_get stats "total_vector_count" (PInt 0) = Ok total ->
         eq_zero total = false ->
         snd (listar_todos_documentos cfg W limit t)
         = t2 ++ [query index dummy_vector (Z.min limit 10000) true])
  /\ (limit = 50 -> Z.min limit 10000 = 50).
Proof.
  split; [|split].
  - destruct (listar_emite cfg W limit t) as [ev [E F]].
    exists ev. split; [exact E|].
    eapply Forall_impl; [|exact F].
    intros c [Hc|[index ->]] Hq.
    + destruct c; simpl in *; congruence.
    + destruct dummy_vector_zeros as [zs [-> [Hl Hz]]]. eauto.
  - intros index t1 stats t2 total E1 E2 E3 Hz.
    rewrite (listar_apos_estatisticas cfg W limit t t1 t2 index stats total
               E1 E2 E3), Hz.
    destruct (inicializar_pinecone_objeto cfg W t t1 index E1) as [attrs ->].
    simpl. unfold sdk.
    destruct (respond W t2 _) as [r|e]; [|reflexivity].
    destruct (documentos_da_resposta r); reflexivity.
  - intros ->. reflexivity.
Qed.

Lemma C9_consulta_da_listagem_witness :
  snd (listar_todos_documentos cfg_exemplo mundo_dois_matches 50 [])
  = [Pinecone "pc-key";
     Index (PObj [("kind", PStr "Pinecone")]) "brito-ai"
       "https://brito-ai.svc.pinecone.io";
     describe_index_stats indice_exemplo;
     describe_index_stats indice_exemplo]
    ++ [query indice_exemplo dummy_vector 50 true].
Proof.
  destruct (C9_consulta_da_listagem cfg_exemplo mundo_dois_matches 50 [])
    as [_ [H H50]].
  rewrite <- (H50 eq_refl).
  eapply H; vm_compute; reflexivity.
Defined.

(** C10.  [listar_todos_documentos] always returns and never raises.
    When the connection fails it returns the empty list and 0.  When the
    index reports a total equal to 0 it returns the empty list and 0
    after the statistics, having issued no query.  When the total is not
    zero and the query raises, or walking its response raises, it returns
    the empty list with the total that the index reported. *)
Theorem C10_listagem_nunca_levanta (cfg : config) (W : world) (limit : Z)
    (t : list call) :
  (exists docs total t',
      listar_todos_documentos cfg W limit t = (Ok (docs, total), t'))
  /\ (forall e t1,
         inicializar_pinecone cfg W t = (Raise e, t1) ->
         listar_todos_documentos cfg W limit t = (Ok ([], PInt 0), t1))
  /\ (forall index t1 stats t2 total,
         inicializar_pinecone cfg W t = (Ok index, t1) ->
         method W index "describe_index_stats" (describe_index_stats index) t1
         = (Ok stats, t2) ->
         py_get stats "total_vector_count" (PInt 0) = Ok total ->
         (eq_zero total = true ->
          listar_todos_documentos cfg W limit t = (Ok ([], PInt 0), t2)
          /\ exists ev, t2 = t ++ ev
                        /\ Forall (fun c => chamada_query c = false) ev)
         /\ (eq_zero total = false ->
             let q := query index dummy_vector (Z.min limit 10000) true in
             (forall e, respond W t2 q = Raise e ->
                        listar_todos_documentos cfg W limit t
                        = (Ok ([], total), t2 ++ [q]))
             /\ (forall resultados e,
                    respond W t2 q = Ok resultados ->
                    documentos_da_resposta resultados = Raise e ->
                    listar_todos_documentos cfg W limit t
                    = (Ok ([], total), t2 ++ [q])))).
Proof.
  split; [apply listar_nunca_levanta|]. split.
  - intros e t1 E1. unfold listar_todos_documentos, try_except, bind.
    rewrite E1. reflexivity.
  - intros index t1 stats t2 total E1 E2 E3.
    rewrite (listar_apos_estatisticas cfg W limit t t1 t2 index stats total
               E1 E2 E3).
    split.
    + intros ->. split; [reflexivity|].
      destruct (inicializar_pinecone_emite cfg W t) as [ev1 [Ev1 F1]].
      rewrite E1 in Ev1. simpl in Ev1. subst t1.
      apply method_ok in E2 as [_ [_ ->]].
      exists (ev1 ++ [describe_index_stats index]).
      split; [now rewrite app_assoc|].
      apply Forall_app. split.
      * eapply Forall_impl; [|exact F1].
        intros [] Hc; simpl in *; congruence.
      * constructor; [reflexivity|constructor].
    + intros ->.
      destruct (inicializar_pinecone_objeto cfg W t t1 index E1) as [attrs ->].
      simpl. unfold sdk. split.
      * intros e ->. reflexivity.
      * intros r e -> ->. reflexivity.
Qed.

Lemma C10_listagem_nunca_levanta_witness :
  listar_todos_documentos cfg_sem_chave mundo_dois_matches 100 []
  = (Ok ([], PInt 0), [])
  /\ fst (listar_todos_documentos cfg_exemplo mundo_indice_vazio 100 [])
     = Ok ([], PInt 0)
  /\ fst (listar_todos_documentos cfg_exemplo mundo_busca_falha 100 [])
     = Ok ([], PInt 3).
Proof.
  split; [|split].
  - apply (proj1 (proj2 (C10_listagem_nunca_levanta cfg_sem_chave
                           mundo_dois_matches 100 []))
             (mkExn ValueError
                ("PINECONE_API_KEY n" ++ chr 227
                 ++ "o encontrada no arquivo .env"))).
    reflexivity.
  - destruct (C10_listagem_nunca_levanta cfg_exemplo mundo_indice_vazio
                100 []) as [_ [_ H]].
    edestruct H as [[R _] _];
      [vm_compute; reflexivity | vm_compute; reflexivity
      | vm_compute; reflexivity | reflexivity |].
    rewrite R. reflexivity.
  - destruct (C10_listagem_nunca_levanta cfg_exemplo mundo_busca_falha
                100 []) as [_ [_ H]].
    edestruct H as [_ R];
      [vm_compute; reflexivity | vm_compute; reflexivity
      | vm_compute; reflexivity |].
    destruct (R eq_refl) as [R1 _].
    erewrite R1; [reflexivity|vm_compute; reflexivity].
Defined.

(** ** More on [inicializar_pinecone] *)

(** A handler that only raises again changes nothing. *)
Lemma try_except_relanca {A} (m : M A) (t : list call) :
  try_except m (fun e => raise e) t = m t.
Proof. unfold try_except, raise. destruct (m t) as [[a|e] t']; reflexivity. Qed.

Lemma configurado_valor (o : option string) :
  configurado o = true -> exists s, o = Some s /\ s <> "".
Proof.
  destruct o as [[|c r]|]; try discriminate.
  intros _. exists (String c r). split; [reflexivity|discriminate].
Qed.

(** With both settings present, the three calls of the connection. *)
Lemma inicializar_pinecone_configurado (cfg : config) (W : world)
    (api_key host : string) (t : list call) :
  PINECONE_API_KEY cfg = Some api_key -> api_key <> "" ->
  PINECONE_HOST cfg = Some host -> host <> "" ->
  inicializar_pinecone cfg W t
  = (pc <- sdk W (Pinecone api_key) ;;
     index <- method W pc "Index" (Index pc (INDEX_NAME cfg) host) ;;
     stats <- method W index "describe_index_stats"
                (describe_index_stats index) ;;
     lift (py_get stats "total_vector_count" (PInt 0)) ;;;
     ret index) t.
Proof.
  intros Hk Hk0 Hh Hh0. unfold inicializar_pinecone. rewrite Hk, Hh.
  destruct api_key as [|a k]; [congruence|].
  destruct host as [|b h]; [congruence|].
  apply try_except_relanca.
Qed.

Lemma inicializar_pinecone_sem_configuracao (cfg : config) (W : world)
    (t : list call) :
  configurado (PINECONE_API_KEY cfg) && configurado (PINECONE_HOST cfg)
  = false ->
  exists e, inicializar_pinecone cfg W t = (Raise e, t)
            /\ exc_type e = ValueError.
Proof.
  unfold inicializar_pinecone, configurado.
  destruct (PINECONE_API_KEY cfg) as [[|a k]|]; simpl;
    try (intros _; eexists; split; reflexivity).
  destruct (PINECONE_HOST cfg) as [[|b h]|]; simpl;
    try (intros _; eexists; split; reflexivity).
  discriminate.
Qed.

(** X1.  [inicializar_pinecone] hands out an index only after the whole
    handshake: both settings are present, and exactly three calls were
    made, in this order: the client is built with the configured key, the
    index is opened on it with the configured name and host, and the
    statistics of that very index were obtained.  The index returned is
    the one the SDK opened. *)
Theorem X1_inicializar_pinecone_protocolo (cfg : config) (W : world)
    (t t' : list call) (index : pyval) :
  inicializar_pinecone cfg W t = (Ok index, t') ->
  exists api_key host pc stats,
    PINECONE_API_KEY cfg = Some api_key /\ api_key <> ""
    /\ PINECONE_HOST cfg = Some host /\ host <> ""
    /\ t' = t ++ [Pinecone api_key; Index pc (INDEX_NAME cfg) host;
                  describe_index_stats index]
    /\ respond W t (Pinecone api_key) = Ok pc
    /\ respond W (t ++ [Pinecone api_key]) (Index pc (INDEX_NAME cfg) host)
       = Ok index
    /\ respond W (t ++ [Pinecone api_key; Index pc (INDEX_NAME cfg) host])
         (describe_index_stats index) = Ok stats.
Proof.
  intros H.
  destruct (configurado (PINECONE_API_KEY cfg)
            && configurado (PINECONE_HOST cfg)) eqn:Hc.
  2:{ destruct (inicializar_pinecone_sem_configuracao cfg W t Hc)
        as [e [E _]]. congruence. }
  apply andb_true_iff in Hc as [Hk Hh].
  apply configurado_valor in Hk as [api_key [Hk Hk0]].
  apply configurado_valor in Hh as [host [Hh Hh0]].
  rewrite (inicializar_pinecone_configurado cfg W api_key host t
             Hk Hk0 Hh Hh0) in H.
  unfold bind in H. unfold sdk at 1 in H.
  destruct (respond W t (Pinecone api_key)) as [pc|e] eqn:E1; [|discriminate].
  destruct (method W pc _ _ _) as [[ix|e] t2] eqn:E2; [|discriminate].
  apply method_ok in E2 as [_ [E2 ->]].
  destruct (method W ix _ _ _) as [[stats|e] t3] eqn:E3; [|discriminate].
  apply method_ok in E3 as [_ [E3 ->]].
  unfold lift, ret in H.
  destruct (py_get stats _ _); [|discriminate].
  inversion H; subst.
  exists api_key, host, pc, stats.
  rewrite <- !app_assoc in *. simpl in *. repeat split; auto.
Qed.

Lemma X1_inicializar_pinecone_protocolo_witness :
  exists api_key host pc stats,
    PINECONE_API_KEY cfg_exemplo = Some api_key /\ api_key <> ""
    /\ PINECONE_HOST cfg_exemplo = Some host /\ host <> ""
    /\ snd (inicializar_pinecone cfg_exemplo mundo_dois_matches [])
       = [] ++ [Pinecone api_key; Index pc (INDEX_NAME cfg_exemplo) host;
                describe_index_stats indice_exemplo]
    /\ respond mundo_dois_matches [] (Pinecone api_key) = Ok pc
    /\ respond mundo_dois_matches ([] ++ [Pinecone api_key])
         (Index pc (INDEX_NAME cfg_exemplo) host) = Ok indice_exemplo
    /\ respond mundo_dois_matches
         ([] ++ [Pinecone api_key; Index pc (INDEX_NAME cfg_exemplo) host])
         (describe_index_stats indice_exemplo) = Ok stats.
Proof.
  apply (X1_inicializar_pinecone_protocolo cfg_exemplo mundo_dois_matches
           [] _ indice_exemplo).
  vm_compute. reflexivity.
Defined.

(** X2.  The handshake stops at the first call that fails, and the
    exception of that call reaches the caller as it is, not wrapped:
    after a failed client no index is opened, after a failed opening no
    statistics are asked for. *)
Theorem X2_inicializar_pinecone_para_na_primeira_falha (cfg : config)
    (W : world) (api_key host : string) (t : list call) :
  PINECONE_API_KEY cfg = Some api_key -> api_key <> "" ->
  PINECONE_HOST cfg = Some host -> host <> "" ->
  (forall e,
      respond W t (Pinecone api_key) = Raise e ->
      inicializar_pinecone cfg W t = (Raise e, t ++ [Pinecone api_key]))
  /\ (forall attrs e,
         let pc := PObj attrs in
         respond W t (Pinecone api_key) = Ok pc ->
         respond W (t ++ [Pinecone api_key]) (Index pc (INDEX_NAME cfg) host)
         = Raise e ->
         inicializar_pinecone cfg W t
         = (Raise e,
            t ++ [Pinecone api_key; Index pc (INDEX_NAME cfg) host]))
  /\ (forall attrs attrs' e,
         let pc := PObj attrs in
         let index := PObj attrs' in
         respond W t (Pinecone api_key) = Ok pc ->
         respond W (t ++ [Pinecone api_key]) (Index pc (INDEX_NAME cfg) host)
         = Ok index ->
         respond W (t ++ [Pinecone api_key; Index pc (INDEX_NAME cfg) host])
           (describe_index_stats index) = Raise e ->
         inicializar_pinecone cfg W t
         = (Raise e,
            t ++ [Pinecone api_key; Index pc (INDEX_NAME cfg) host;
                  describe_index_stats index])).
Proof.
  intros Hk Hk0 Hh Hh0.
  rewrite (inicializar_pinecone_configurado cfg W api_key host t
             Hk Hk0 Hh Hh0).
  split; [|split]; cbv zeta.
  - intros e E1. unfold bind, sdk. rewrite E1. reflexivity.
  - intros attrs e E1 E2. unfold bind, method, sdk. rewrite E1, E2.
    now rewrite <- app_assoc.
  - intros attrs attrs' e E1 E2 E3. unfold bind, method, sdk.
    rewrite E1, E2. rewrite <- !app_assoc. simpl. rewrite E3. reflexivity.
Qed.

Lemma X2_inicializar_pinecone_para_na_primeira_falha_witness :
  inicializar_pinecone cfg_exemplo mundo_offline []
  = (Raise (mkExn ConnectionRefusedError "connection refused"),
     [] ++ [Pinecone "pc-key"]).
Proof.
  apply (proj1 (X2_inicializar_pinecone_para_na_primeira_falha cfg_exemplo
                  mundo_offline "pc-key" "https://brito-ai.svc.pinecone.io"
                  [] eq_refl ltac:(discriminate) eq_refl
                  ltac:(discriminate))).
  reflexivity.
Defined.

(** ** More on [gerar_embedding] and [processar_e_indexar_documento] *)

(** The value of [gerar_embedding]: the first element of the
    [embedding] entry of the response, any failure as it is. *)
Lemma gerar_embedding_valor (cfg : config) (W : world) (texto : string)
    (t : list call) :
  let c := embed_content (GEMINI_EMBEDDING_MODEL cfg) [texto]
             "RETRIEVAL_DOCUMENT" in
  gerar_embedding cfg W texto t
  = (response <~ respond W t c ;;
     embedding <~ getitem_str response "embedding" ;;
     getitem_0 embedding,
     t ++ [c]).
Proof.
  cbv zeta. unfold gerar_embedding. rewrite try_except_relanca.
  unfold bind, sdk, lift.
  destruct (respond W t _) as [r|e]; simpl; [|reflexivity].
  destruct (getitem_str r "embedding") as [v|e]; simpl; [|reflexivity].
  destruct (getitem_0 v); reflexivity.
Qed.

(** The steps of [processar_e_indexar_documento], one after the other. *)
Lemma processar_passos (cfg : config) (W : world) (texto : string)
    (metadata : pyval) (id : option string) (index : option pyval)
    (t : list call) :
  processar_e_indexar_documento cfg W texto metadata id index t
  = match gerar_embedding cfg W texto t with
    | (Raise e, t1) => (Raise e, t1)
    | (Ok embedding, t1) =>
        match match id with
              | None => timestamp_id W t1
              | Some i => (Ok i, t1)
              end with
        | (Raise e, t2) => (Raise e, t2)
        | (Ok i, t2) =>
            match match index with
                  | None => inicializar_pinecone cfg W t2
                  | Some ix => (Ok ix, t2)
                  end with
            | (Raise e, t3) => (Raise e, t3)
            | (Ok ix, t3) =>
                match method W ix "upsert"
                        (upsert ix [(PStr i, embedding, metadata)]) t3 with
                | (Raise e, t4) => (Raise e, t4)
                | (Ok _, t4) => (Ok i, t4)
                end
            end
        end
    end.
Proof.
  unfold processar_e_indexar_documento. rewrite try_except_relanca.
  unfold bind at 1.
  destruct (gerar_embedding cfg W texto t) as [[emb|e] t1]; [|reflexivity].
  unfold bind at 1.
  assert (Hid : (match id with
                 | None => timestamp_id W
                 | Some i => ret i
                 end) t1
                = match id with
                  | None => timestamp_id W t1
                  | Some i => (Ok i, t1)
                  end) by (destruct id; reflexivity).
  rewrite Hid. clear Hid.
  destruct (match id with
            | None => timestamp_id W t1
            | Some i => (Ok i, t1)
            end) as [[i|e] t2]; [|reflexivity].
  unfold bind at 1.
  assert (Hix : (match index with
                 | None => inicializar_pinecone cfg W
                 | Some ix => ret ix
                 end) t2
                = match index with
                  | None => inicializar_pinecone cfg W t2
                  | Some ix => (Ok ix, t2)
                  end) by (destruct index; reflexivity).
  rewrite Hix. clear Hix.
  destruct (match index with
            | None => inicializar_pinecone cfg W t2
            | Some ix => (Ok ix, t2)
            end) as [[ix|e] t3]; [|reflexivity].
  unfold bind, ret.
  destruct (method W ix _ _ t3) as [[r|e] t4]; reflexivity.
Qed.

(** X3.  With an id and an index given, a document whose embedding and
    upsert succeed is written by exactly two calls: the embedding of the
    text, then one upsert of one vector that carries the caller's id, the
    first vector of the embedding response and the caller's metadata
    untouched.  The caller's id is returned and no connection is made. *)
Theorem X3_processar_com_id_e_indice (cfg : config) (W : world)
    (texto id : string) (metadata : pyval)
    (attrs d : list (string * pyval)) (v r : pyval) (resto : list pyval)
    (t : list call) :
  let index := PObj attrs in
  let embedding := embed_content (GEMINI_EMBEDDING_MODEL cfg) [texto]
                     "RETRIEVAL_DOCUMENT" in
  let escrita := upsert index [(PStr id, v, metadata)] in
  respond W t embedding = Ok (PDict d) ->
  assoc "embedding" d = Some (PList (v :: resto)) ->
  respond W (t ++ [embedding]) escrita = Ok r ->
  processar_e_indexar_documento cfg W texto metadata (Some id) (Some index) t
  = (Ok id, t ++ [embedding; escrita]).
Proof.
  cbv zeta. intros E1 Ed E2.
  rewrite processar_passos.
  pose proof (gerar_embedding_valor cfg W texto t) as Hg. cbv zeta in Hg.
  rewrite Hg, E1. simpl. rewrite Ed. simpl.
  unfold sdk. rewrite E2. now rewrite <- app_assoc.
Qed.

Lemma X3_processar_com_id_e_indice_witness :
  processar_e_indexar_documento cfg_exemplo mundo_dois_matches
    "contrato de aluguel" (PDict [("arquivo", PStr "contrato.pdf")])
    (Some "doc-9") (Some indice_exemplo) []
  = (Ok "doc-9",
     [] ++ [embed_content "models/embedding-001" ["contrato de aluguel"]
              "RETRIEVAL_DOCUMENT";
            upsert indice_exemplo
              [(PStr "doc-9", embedding_exemplo,
                PDict [("arquivo", PStr "contrato.pdf")])]]).
Proof.
  eapply (X3_processar_com_id_e_indice cfg_exemplo mundo_dois_matches
            "contrato de aluguel" "doc-9"
            (PDict [("arquivo", PStr "contrato.pdf")])
            [("name", PStr "brito-ai")]);
    reflexivity.
Defined.

(** X4.  Whatever the outcome, [processar_e_indexar_documento] upserts at
    most once, as its last call, and never queries; all that precedes is
    the embedding and, without an index, the connection.  When it returns
    an id, that upsert was made and wrote one vector with the returned id
    and the caller's metadata.  When the embedding fails, the embedding
    call is the only call: nothing is connected, nothing written. *)
Theorem X4_processar_escreve_uma_vez (cfg : config) (W : world)
    (texto : string) (metadata : pyval) (id : option string)
    (index : option pyval) (t : list call) :
  let r := processar_e_indexar_documento cfg W texto metadata id index t in
  exists antes fim,
    snd r = t ++ antes ++ fim
    /\ Forall (fun c => chamada_upsert c = false /\ chamada_query c = false)
         antes
    /\ (fim = []
        \/ exists ix i emb, fim = [upsert ix [(PStr i, emb, metadata)]])
    /\ (forall i, fst r = Ok i ->
                  exists ix emb, fim = [upsert ix [(PStr i, emb, metadata)]])
    /\ (forall e t1, gerar_embedding cfg W texto t = (Raise e, t1) ->
                     r = (Raise e, t1) /\ antes ++ fim
                                          = [embed_content
                                               (GEMINI_EMBEDDING_MODEL cfg)
                                               [texto] "RETRIEVAL_DOCUMENT"]).
Proof.
  cbv zeta. rewrite processar_passos.
  pose proof (gerar_embedding_traco cfg W texto t) as Hg.
  set (c := embed_content (GEMINI_EMBEDDING_MODEL cfg) [texto]
              "RETRIEVAL_DOCUMENT") in *.
  destruct (gerar_embedding cfg W texto t) as [[emb|e] t1] eqn:Eg;
    simpl in Hg; subst t1.
  2:{ exists [c], []. simpl.
      split; [reflexivity|]. split; [repeat constructor|].
      split; [auto|]. split; [discriminate|].
      intros e0 t1 H. inversion H; subst. auto. }
  assert (Hid : exists ri,
             match id with
             | None => timestamp_id W (t ++ [c])
             | Some i => (Ok i, t ++ [c])
             end = (ri, t ++ [c])).
  { destruct id; unfold timestamp_id; eauto. }
  destruct Hid as [[i|e] ->].
  2:{ exists [c], []. simpl.
      split; [reflexivity|]. split; [repeat constructor|].
      split; [auto|]. split; discriminate. }
  assert (Hix : exists rx conn,
             match index with
             | None => inicializar_pinecone cfg W (t ++ [c])
             | Some ix => (Ok ix, t ++ [c])
             end = (rx, (t ++ [c]) ++ conn)
             /\ Forall (fun x => chamada_conexao x = true) conn).
  { destruct index as [ix|].
    - exists (Ok ix), []. rewrite app_nil_r. auto.
    - destruct (inicializar_pinecone_emite cfg W (t ++ [c])) as [conn [E F]].
      destruct (inicializar_pinecone cfg W (t ++ [c])) as [rx tx].
      simpl in E. subst tx. eauto. }
  destruct Hix as [rx [conn [-> Fc]]].
  assert (Fa : Forall (fun x => chamada_upsert x = false
                                /\ chamada_query x = false) (c :: conn)).
  { constructor; [split; reflexivity|].
    eapply Forall_impl; [|exact Fc].
    intros [] Hx; simpl in *; split; congruence. }
  assert (Hsem : forall (e : exn),
             exists antes fim,
               snd (@Raise string e, (t ++ [c]) ++ conn) = t ++ antes ++ fim
               /\ Forall (fun x => chamada_upsert x = false
                                   /\ chamada_query x = false) antes
               /\ (fim = []
                   \/ exists ix i emb,
                        fim = [upsert ix [(PStr i, emb, metadata)]])
               /\ (forall i, fst (@Raise string e, (t ++ [c]) ++ conn) = Ok i ->
                             exists ix emb,
                               fim = [upsert ix [(PStr i, emb, metadata)]])
               /\ (forall e0 t1, (Ok emb, t ++ [c]) = (Raise e0, t1) ->
                                 (@Raise string e, (t ++ [c]) ++ conn)
                                 = (Raise e0, t1) /\ antes ++ fim = [c])).
  { intros e. exists (c :: conn), []. rewrite app_nil_r, <- app_assoc. simpl.
    split; [reflexivity|]. split; [exact Fa|].
    split; [auto|]. split; discriminate. }
  destruct rx as [ix|e]; [|apply Hsem].
  destruct ix as [| | | | | | |attrs]; try apply Hsem.
  simpl method. unfold sdk.
  exists (c :: conn), [upsert (PObj attrs) [(PStr i, emb, metadata)]].
  destruct (respond W _ _) as [r|e]; simpl;
    rewrite <- !app_assoc; simpl;
    (split; [reflexivity|]); (split; [exact Fa|]);
    (split; [eauto|]); (split; [|discriminate]).
  - intros i0 H. inversion H; subst. eauto.
  - discriminate.
Qed.

Lemma X4_processar_escreve_uma_vez_witness :
  exists antes fim,
    snd (processar_e_indexar_documento cfg_exemplo mundo_dois_matches
           "contrato" (PDict []) None None [])
    = [] ++ antes ++ fim
    /\ List.length antes = 4%nat
    /\ fim = [upsert indice_exemplo
                [(PStr "1700000000500", embedding_exemplo, PDict [])]].
Proof.
  destruct (X4_processar_escreve_uma_vez cfg_exemplo mundo_dois_matches
              "contrato" (PDict []) None None [])
    as [antes [fim [E [_ [_ [H _]]]]]].
  destruct (H "1700000000500") as [ix [emb Hf]]; [vm_compute; reflexivity|].
  exists antes, fim. split; [exact E|].
  subst fim. vm_compute in E.
  destruct antes as [|a1 [|a2 [|a3 [|a4 [|a5 r]]]]]; simpl in E;
    try discriminate.
  - inversion E; subst. auto.
  - destruct r; simpl in E; discriminate.
Defined.

(** The decimal writing of an int tells the int. *)
Lemma str_of_int_inj (a b : Z) : str_of_int a = str_of_int b -> a = b.
Proof.
  assert (Hnn : forall z, Z.to_int z <> Decimal.Pos Decimal.Nil
                          /\ Z.to_int z <> Decimal.Neg Decimal.Nil).
  { intros z. split; intros H;
      pose proof (f_equal Z.of_int H) as Hz;
      rewrite DecimalZ.of_to in Hz; simpl in Hz; subst z; discriminate. }
  unfold str_of_int. intros H.
  apply DecimalZ.to_int_inj.
  destruct (Hnn a) as [Ha1 Ha2], (Hnn b) as [Hb1 Hb2].
  pose proof (NilZero.isi _ Ha1 Ha2) as Ia.
  pose proof (NilZero.isi _ Hb1 Hb2) as Ib.
  rewrite H in Ia. congruence.
Qed.

(** X5.  Without an id, the id that [processar_e_indexar_documento]
    returns is the decimal writing of the clock in whole milliseconds,
    read once the embedding is done.  It depends on nothing else: two
    documents indexed in the same millisecond get the same id, whatever
    their text, and two different milliseconds never give the same id. *)
Theorem X5_id_gerado_do_relogio (cfg : config) (W : world)
    (texto : string) (metadata : pyval) (index : option pyval)
    (t t' : list call) (id : string) :
  processar_e_indexar_documento cfg W texto metadata None index t
  = (Ok id, t') ->
  exists ms,
    int_of_float
      (time_time W
         (t ++ [embed_content (GEMINI_EMBEDDING_MODEL cfg) [texto]
                  "RETRIEVAL_DOCUMENT"]) * 1000)%float = Ok ms
    /\ id = str_of_int ms
    /\ forall ms', str_of_int ms' = id <-> ms' = ms.
Proof.
  rewrite processar_passos.
  pose proof (gerar_embedding_traco cfg W texto t) as Hg.
  destruct (gerar_embedding cfg W texto t) as [[emb|e] t1];
    simpl in Hg; subst t1; [|discriminate].
  unfold timestamp_id.
  destruct (int_of_float _) as [ms|e]; simpl; [|discriminate].
  intros H. exists ms. split; [reflexivity|].
  assert (Hid : id = str_of_int ms).
  { destruct (match index with
              | None => inicializar_pinecone cfg W _
              | Some ix => _
              end) as [[ix|e] t3]; [|discriminate].
    destruct (method W ix _ _ t3) as [[r|e] t4]; [|discriminate].
    now inversion H. }
  split; [exact Hid|].
  intros ms'. subst id. split; [apply str_of_int_inj|congruence].
Qed.

Lemma X5_id_gerado_do_relogio_witness :
  exists ms,
    int_of_float
      (time_time mundo_dois_matches
         ([] ++ [embed_content (GEMINI_EMBEDDING_MODEL cfg_exemplo)
                   ["contrato"] "RETRIEVAL_DOCUMENT"]) * 1000)%float = Ok ms
    /\ "1700000000500" = str_of_int ms
    /\ forall ms', str_of_int ms' = "1700000000500" <-> ms' = ms.
Proof.
  eapply (X5_id_gerado_do_relogio cfg_exemplo mundo_dois_matches
            "contrato" (PDict []) None []).
  vm_compute. reflexivity.
Defined.

(** X6.  Without an index, [processar_e_indexar_documento] connects only
    after the embedding: with the API key or the host missing, the text
    is embedded all the same, then the ValueError of the missing setting
    reaches the caller as it is, and nothing is written. *)
Theorem X6_processar_sem_configuracao (cfg : config) (W : world)
    (texto id : string) (metadata emb : pyval) (t t1 : list call) :
  configurado (PINECONE_API_KEY cfg) && configurado (PINECONE_HOST cfg)
  = false ->
  gerar_embedding cfg W texto t = (Ok emb, t1) ->
  exists e,
    processar_e_indexar_documento cfg W texto metadata (Some id) None t
    = (Raise e, t1)
    /\ inicializar_pinecone cfg W t1 = (Raise e, t1)
    /\ exc_type e = ValueError
    /\ t1 = t ++ [embed_content (GEMINI_EMBEDDING_MODEL cfg) [texto]
                    "RETRIEVAL_DOCUMENT"].
Proof.
  intros Hc Eg.
  destruct (inicializar_pinecone_sem_configuracao cfg W t1 Hc) as [e [Ei Hv]].
  exists e. rewrite processar_passos, Eg, Ei.
  repeat split; auto.
  pose proof (gerar_embedding_traco cfg W texto t) as Hg.
  now rewrite Eg in Hg.
Qed.

Lemma X6_processar_sem_configuracao_witness :
  exists e,
    processar_e_indexar_documento cfg_sem_chave mundo_dois_matches
      "contrato" (PDict []) (Some "doc-9") None []
    = (Raise e,
       [embed_content "models/embedding-001" ["contrato"]
          "RETRIEVAL_DOCUMENT"])
    /\ exc_type e = ValueError.
Proof.
  destruct (X6_processar_sem_configuracao cfg_sem_chave mundo_dois_matches
              "contrato" "doc-9" (PDict []) embedding_exemplo []
              [embed_content "models/embedding-001" ["contrato"]
                 "RETRIEVAL_DOCUMENT"] eq_refl eq_refl)
    as [e [H [_ [Hv _]]]].
  exists e. auto.
Defined.

(** X7.  With an index given, [processar_e_indexar_documento] never looks
    at the Pinecone settings: two configurations with the same embedding
    model give the same outcome and the same calls. *)
Theorem X7_processar_com_indice_ignora_configuracao (cfg cfg' : config)
    (W : world) (texto : string) (metadata : pyval) (id : option string)
    (index : pyval) (t : list call) :
  GEMINI_EMBEDDING_MODEL cfg = GEMINI_EMBEDDING_MODEL cfg' ->
  processar_e_indexar_documento cfg W texto metadata id (Some index) t
  = processar_e_indexar_documento cfg' W texto metadata id (Some index) t.
Proof.
  intros Hm. rewrite !processar_passos.
  pose proof (gerar_embedding_valor cfg W texto t) as H1.
  pose proof (gerar_embedding_valor cfg' W texto t) as H2.
  cbv zeta in H1, H2. rewrite H1, H2, Hm. reflexivity.
Qed.

Lemma X7_processar_com_indice_ignora_configuracao_witness :
  processar_e_indexar_documento cfg_sem_chave mundo_dois_matches
    "contrato" (PDict []) (Some "doc-9") (Some indice_exemplo) []
  = processar_e_indexar_documento cfg_exemplo mundo_dois_matches
      "contrato" (PDict []) (Some "doc-9") (Some indice_exemplo) []
  /\ fst (processar_e_indexar_documento cfg_sem_chave mundo_dois_matches
            "contrato" (PDict []) (Some "doc-9") (Some indice_exemplo) [])
     = Ok "doc-9".
Proof.
  split; [|vm_compute; reflexivity].
  apply X7_processar_com_indice_ignora_configuracao. reflexivity.
Defined.

(** ** More on [buscar_documentos] *)

(** The steps of the body, one after the other. *)
Lemma buscar_corpo_passos (cfg : config) (W : world) (consulta : string)
    (top_k : Z) (t : list call) :
  buscar_documentos_corpo cfg W consulta top_k t
  = match embedding_da_consulta cfg W (enriquecer (truncar consulta)) t with
    | (Raise e, t1) => (Raise e, t1)
    | (Ok emb, t1) =>
        match conectar cfg W t1 with
        | (Raise e, t2) => (Raise e, t2)
        | (Ok index, t2) =>
            match realizar_busca W index emb top_k t2 with
            | (Raise e, t3) => (Raise e, t3)
            | (Ok None, t3) => (Ok [], t3)
            | (Ok (Some resultados), t3) =>
                (matches <~ getattr resultados "matches" ;;
                 items <~ py_iter matches ;;
                 Ok (formatar_resultados W items []), t3)
            end
        end
    end.
Proof.
  unfold buscar_documentos_corpo, bind.
  destruct (embedding_da_consulta cfg W _ t) as [[emb|e] t1]; [|reflexivity].
  destruct (conectar cfg W t1) as [[index|e] t2]; [|reflexivity].
  destruct (realizar_busca W index emb top_k t2) as [[[r|]|e] t3];
    try reflexivity.
  unfold lift, ret.
  destruct (getattr r "matches") as [ms|e]; simpl; [|reflexivity].
  destruct (py_iter ms); reflexivity.
Qed.

(** The query step on an index object: one call, then the outcome. *)
Lemma realizar_busca_passos (W : world) (attrs : list (string * pyval))
    (emb : pyval) (top_k : Z) (t : list call) :
  let q := query (PObj attrs) emb top_k true in
  realizar_busca W (PObj attrs) emb top_k t
  = (match respond W t q with
     | Raise e => Raise (mkExn ValueError (prefixo_erro_busca ++ exc_str e))
     | Ok resultados =>
         if negb (truthy resultados) then Ok None
         else match attr resultados "matches" with
              | None => Ok None
              | Some matches =>
                  if negb (truthy matches) then Ok None
                  else Ok (Some resultados)
              end
     end, t ++ [q]).
Proof.
  cbv zeta. unfold realizar_busca, try_except, bind, method, sdk, raise, ret.
  destruct (respond W t _) as [r|e]; [|reflexivity].
  destruct (negb (truthy r)); [reflexivity|].
  destruct (attr r "matches") as [ms|]; [|reflexivity].
  destruct (negb (truthy ms)); reflexivity.
Qed.

Lemma snd_tratar_erro_busca (x : result (list documento) * list call) :
  snd (match x with
       | (Ok a, t') => (Ok a, t')
       | (Raise e, t') => tratar_erro_busca e t'
       end) = snd x.
Proof.
  destruct x as [[a|e] t']; [reflexivity|apply tratar_erro_busca_traco].
Qed.

(** X8.  A search makes its calls in a fixed order and stops at the first
    step that fails: the embedding call, then the connection, then at
    most one query, which is the last call.  That query goes to the index
    that the connection returned, with the vector that the embedding step
    returned, the caller's [top_k] unchanged, and metadata requested.
    After a failed embedding nothing else is called; after a failed
    connection no query is made. *)
Theorem X8_busca_ordem_das_chamadas (cfg : config) (W : world)
    (consulta : string) (top_k : Z) (t : list call) :
  em_branco consulta = false ->
  let texto := enriquecer (truncar consulta) in
  let embedding := embed_content (GEMINI_EMBEDDING_MODEL cfg) [texto]
                     "RETRIEVAL_QUERY" in
  exists conn qs,
    snd (buscar_documentos cfg W consulta top_k t)
    = t ++ embedding :: conn ++ qs
    /\ Forall (fun c => chamada_conexao c = true) conn
    /\ (qs = []
        \/ exists emb index t2,
             embedding_da_consulta cfg W texto t = (Ok emb, t ++ [embedding])
             /\ conectar cfg W (t ++ [embedding]) = (Ok index, t2)
             /\ qs = [query index emb top_k true])
    /\ (forall e t1, embedding_da_consulta cfg W texto t = (Raise e, t1) ->
                     conn = [] /\ qs = [])
    /\ (forall emb t1 e t2,
           embedding_da_consulta cfg W texto t = (Ok emb, t1) ->
           conectar cfg W t1 = (Raise e, t2) -> qs = []).
Proof.
  intros Hb. cbv zeta.
  rewrite (buscar_nao_branco cfg W consulta top_k Hb).
  unfold try_except. rewrite buscar_corpo_passos.
  set (c := embed_content (GEMINI_EMBEDDING_MODEL cfg)
              [enriquecer (truncar consulta)] "RETRIEVAL_QUERY").
  pose proof (embedding_da_consulta_traco cfg W
                (enriquecer (truncar consulta)) t) as He. fold c in He.
  destruct (embedding_da_consulta cfg W _ t) as [[emb|e] t1];
    simpl in He; subst t1.
  2:{ exists [], []. rewrite tratar_erro_busca_traco. simpl.
      split; [reflexivity|]. split; [constructor|]. split; [auto|].
      split; [auto|]. intros ? ? ? ? H. discriminate. }
  destruct (conectar_emite cfg W (t ++ [c])) as [conn [Ec Fc]].
  destruct (conectar cfg W (t ++ [c])) as [[index|e] t2] eqn:Econ;
    simpl in Ec; subst t2.
  2:{ exists conn, []. rewrite tratar_erro_busca_traco.
      rewrite app_nil_r, <- app_assoc. simpl.
      split; [reflexivity|]. split; [exact Fc|]. split; [auto|].
      split; [discriminate|]. auto. }
  destruct (conectar_objeto cfg W _ _ index Econ) as [attrs ->].
  pose proof (realizar_busca_passos W attrs emb top_k ((t ++ [c]) ++ conn))
    as Hq. cbv zeta in Hq. rewrite Hq. clear Hq.
  exists conn, [query (PObj attrs) emb top_k true].
  split.
  { rewrite snd_tratar_erro_busca.
    destruct (respond W ((t ++ [c]) ++ conn) _) as [r|e]; simpl.
    - destruct (negb (truthy r)); simpl;
        [now rewrite <- !app_assoc|].
      destruct (attr r "matches") as [ms|]; simpl;
        [|now rewrite <- !app_assoc].
      destruct (negb (truthy ms)); simpl; now rewrite <- !app_assoc.
    - now rewrite <- !app_assoc. }
  split; [exact Fc|]. split.
  { right. exists emb, (PObj attrs), ((t ++ [c]) ++ conn). auto. }
  split; [discriminate|].
  intros emb0 t1 e t2 H1 H2. inversion H1; subst. congruence.
Qed.

Lemma X8_busca_ordem_das_chamadas_witness :
  exists conn qs,
    snd (buscar_documentos cfg_exemplo mundo_dois_matches "contrato" 7 [])
    = [] ++ embed_content "models/embedding-001" ["contrato"]
              "RETRIEVAL_QUERY" :: conn ++ qs
    /\ Forall (fun c => chamada_conexao c = true) conn
    /\ (qs = []
        \/ exists emb index t2, qs = [query index emb 7 true]
                                /\ conectar cfg_exemplo mundo_dois_matches
                                     ([] ++ [embed_content
                                               "models/embedding-001"
                                               ["contrato"] "RETRIEVAL_QUERY"])
                                   = (Ok index, t2)).
Proof.
  destruct (X8_busca_ordem_das_chamadas cfg_exemplo mundo_dois_matches
              "contrato" 7 [] eq_refl)
    as [conn [qs [E [F [[Hq|[emb [index [t2 [E1 [E2 Hq]]]]]] _]]]]];
    exists conn, qs; (split; [exact E|]); (split; [exact F|]).
  - left. exact Hq.
  - right. exists emb, index, t2. split; [exact Hq|exact E2].
Defined.

(** X9.  A missing Pinecone setting reaches the caller of
    [buscar_documentos] as a ConnectionError, not as the ValueError that
    [inicializar_pinecone] raised: the message is "Falha na conexao com o
    Pinecone: " (with the accents) followed by the message of that
    ValueError.  By then the query has already been embedded, and that
    embedding call is the only call made. *)
Theorem X9_busca_sem_configuracao (cfg : config) (W : world)
    (consulta : string) (top_k : Z) (emb : pyval) (t t1 : list call) :
  em_branco consulta = false ->
  configurado (PINECONE_API_KEY cfg) && configurado (PINECONE_HOST cfg)
  = false ->
  embedding_da_consulta cfg W (enriquecer (truncar consulta)) t
  = (Ok emb, t1) ->
  exists e0,
    inicializar_pinecone cfg W t1 = (Raise e0, t1)
    /\ exc_type e0 = ValueError
    /\ buscar_documentos cfg W consulta top_k t
       = (Raise (mkExn ConnectionError (prefixo_erro_conexao ++ exc_str e0)),
          t1)
    /\ t1 = t ++ [embed_content (GEMINI_EMBEDDING_MODEL cfg)
                    [enriquecer (truncar consulta)] "RETRIEVAL_QUERY"].
Proof.
  intros Hb Hc Ee.
  destruct (inicializar_pinecone_sem_configuracao cfg W t1 Hc) as [e0 [Ei Hv]].
  exists e0. split; [exact Ei|]. split; [exact Hv|]. split.
  - rewrite (buscar_nao_branco cfg W consulta top_k Hb).
    unfold try_except. rewrite buscar_corpo_passos, Ee.
    unfold conectar, try_except, bind. rewrite Ei. reflexivity.
  - pose proof (embedding_da_consulta_traco cfg W
                  (enriquecer (truncar consulta)) t) as He.
    now rewrite Ee in He.
Qed.

Lemma X9_busca_sem_configuracao_witness :
  buscar_documentos cfg_sem_chave mundo_dois_matches "contrato" 5 []
  = (Raise (mkExn ConnectionError
              (prefixo_erro_conexao ++ "PINECONE_API_KEY n" ++ chr 227
               ++ "o encontrada no arquivo .env")),
     [embed_content "models/embedding-001" ["contrato"] "RETRIEVAL_QUERY"]).
Proof.
  destruct (X9_busca_sem_configuracao cfg_sem_chave mundo_dois_matches
              "contrato" 5 embedding_exemplo []
              [embed_content "models/embedding-001" ["contrato"]
                 "RETRIEVAL_QUERY"] eq_refl eq_refl eq_refl)
    as [e0 [Ei [_ [H _]]]].
  vm_compute in Ei. inversion Ei; subst e0. exact H.
Defined.

(** ** The record built for a match *)

Lemma campo_extra_valor (d : list (string * pyval)) (campo : string) :
  campo_extra (PDict d) campo = Ok (extra_de d campo).
Proof.
  unfold campo_extra, extra_de, py_in, getitem_str. simpl.
  destruct (assoc campo d) as [x|]; simpl; [|reflexivity].
  destruct (truthy x); reflexivity.
Qed.

Lemma py_get_ok_dict (v default x : pyval) (k : string) :
  py_get v k default = Ok x ->
  exists d, v = PDict d /\ x = dict_get d k default.
Proof.
  destruct v; simpl; try discriminate.
  - intros H; inversion H. eauto.
  - destruct (assoc "get" attrs); discriminate.
Qed.

(** What [formatar_match] yields, field by field. *)
Lemma formatar_match_campos (W : world) (m : pyval) (doc : documento) :
  formatar_match W m = Ok (Some doc) ->
  exists d score,
    attr m "metadata" = Some (PDict d)
    /\ match attr m "score" with
       | Some s => py_float (float_of_str W) s
       | None => Ok 0%float
       end = Ok score
    /\ doc = mkDocumento
               match attr m "id" with Some i => i | None => PStr "" end
               score
               (dict_get d "arquivo" (PStr "")) (dict_get d "texto" (PStr ""))
               (dict_get d "secao" (PStr ""))
               (extra_de d "valores_monetarios") (extra_de d "cpfs")
               (extra_de d "nomes").
Proof.
  unfold formatar_match.
  destruct (attr m "metadata") as [metadata|]; [|discriminate].
  destruct (negb (truthy metadata)); [discriminate|].
  destruct (match attr m "score" with
            | Some s => py_float (float_of_str W) s
            | None => Ok 0%float
            end) as [score|e]; [|discriminate].
  simpl rbind.
  destruct (py_get metadata "arquivo" (PStr "")) as [arquivo|e] eqn:Ea;
    [|discriminate].
  apply py_get_ok_dict in Ea as [d [-> ->]].
  simpl rbind. rewrite !campo_extra_valor. simpl rbind.
  destruct (_ || _); [discriminate|].
  intros H. inversion H. exists d, score. auto.
Qed.

(** X10.  A record returned by the search copies its match: the id is the
    id of the match (the empty string when the match has none), the score
    is [float] of its score (0.0 when it has none), and the file name,
    text and section are the [arquivo], [texto] and [secao] entries of
    its metadata, which is a dict; an absent section is the empty
    string. *)
Theorem X10_registro_copia_o_match (W : world) (m : pyval) (doc : documento) :
  In doc (contribuicao W m) ->
  exists d,
    attr m "metadata" = Some (PDict d)
    /\ doc_id doc = match attr m "id" with Some i => i | None => PStr "" end
    /\ match attr m "score" with
       | Some s => py_float (float_of_str W) s = Ok (doc_score doc)
       | None => doc_score doc = 0%float
       end
    /\ assoc "arquivo" d = Some (doc_arquivo doc)
    /\ assoc "texto" d = Some (doc_texto doc)
    /\ doc_secao doc = dict_get d "secao" (PStr "").
Proof.
  unfold contribuicao.
  destruct (formatar_match W m) as [[doc'|]|e] eqn:E; simpl; try tauto.
  intros [->|[]].
  pose proof (formatar_match_completo W m doc E) as Hc.
  apply formatar_match_campos in E as [d [score [Hm [Hs ->]]]].
  exists d. simpl. split; [exact Hm|]. split; [reflexivity|].
  split.
  { destruct (attr m "score"); [exact Hs|congruence]. }
  unfold doc_completo in Hc. simpl in Hc.
  apply andb_true_iff in Hc as [Ha Ht].
  unfold dict_get in *.
  destruct (assoc "arquivo" d); [|discriminate].
  destruct (assoc "texto" d); [|discriminate].
  auto.
Qed.

Lemma X10_registro_copia_o_match_witness :
  exists d,
    attr match_completo_2 "metadata" = Some (PDict d)
    /\ assoc "arquivo" d = Some (PStr "aditivo.pdf")
    /\ assoc "texto" d = Some (PStr "multa de 10%").
Proof.
  destruct (X10_registro_copia_o_match mundo_dois_matches match_completo_2
              (mkDocumento (PStr "doc-2") 0.5 (PStr "aditivo.pdf")
                 (PStr "multa de 10%") (PStr "3")
                 (PList []) (PList []) (PList [])))
    as [d [Hm [_ [_ [Ha [Ht _]]]]]].
  - vm_compute. auto.
  - exists d. auto.
Defined.

Lemma extra_de_lista_ou_verdadeiro (d : list (string * pyval))
    (campo : string) :
  extra_de d campo = PList []
  \/ (truthy (extra_de d campo) = true
      /\ assoc campo d = Some (extra_de d campo)).
Proof.
  unfold extra_de.
  destruct (assoc campo d) as [v|]; [|auto].
  destruct (truthy v) eqn:E; auto.
Qed.

(** X11.  In a record returned by the search, each of the three entity
    entries ([valores_monetarios], [cpfs], [nomes]) is either the empty
    list or the truthy value stored under that key in the metadata of the
    match: an absent, empty, zero or None entry always comes out as the
    empty list, never as None and never as a missing field. *)
Theorem X11_campos_extras (W : world) (m : pyval) (doc : documento) :
  In doc (contribuicao W m) ->
  exists d,
    attr m "metadata" = Some (PDict d)
    /\ doc_valores_monetarios doc = extra_de d "valores_monetarios"
    /\ doc_cpfs doc = extra_de d "cpfs"
    /\ doc_nomes doc = extra_de d "nomes"
    /\ Forall (fun campo =>
                 extra_de d campo = PList []
                 \/ (truthy (extra_de d campo) = true
                     /\ assoc campo d = Some (extra_de d campo)))
         ["valores_monetarios"; "cpfs"; "nomes"].
Proof.
  unfold contribuicao.
  destruct (formatar_match W m) as [[doc'|]|e] eqn:E; simpl; try tauto.
  intros [->|[]].
  apply formatar_match_campos in E as [d [score [Hm [Hs ->]]]].
  exists d. simpl. repeat (split; [auto|]).
  repeat (apply Forall_cons; [apply extra_de_lista_ou_verdadeiro|]).
  apply Forall_nil.
Qed.

Lemma X11_campos_extras_witness :
  let m := um_match "doc-7" (PFloat 0.5)
             [("arquivo", PStr "contrato.pdf"); ("texto", PStr "aluguel");
              ("cpfs", PList [PStr "123.456.789-00"]); ("nomes", PNone)] in
  exists doc,
    contribuicao mundo_dois_matches m = [doc]
    /\ doc_cpfs doc = PList [PStr "123.456.789-00"]
    /\ doc_nomes doc = PList []
    /\ doc_valores_monetarios doc = PList [].
Proof.
  cbv zeta. eexists. split; [vm_compute; reflexivity|].
  match goal with
  | |- doc_cpfs ?x = _ /\ _ =>
      destruct (X11_campos_extras mundo_dois_matches
                  (um_match "doc-7" (PFloat 0.5)
                     [("arquivo", PStr "contrato.pdf");
                      ("texto", PStr "aluguel");
                      ("cpfs", PList [PStr "123.456.789-00"]);
                      ("nomes", PNone)]) x)
        as [d [Hm [H1 [H2 [H3 _]]]]]
  end.
  - vm_compute. auto.
  - vm_compute in Hm. inversion Hm; subst d.
    rewrite H1, H2, H3. vm_compute. auto.
Defined.

Lemma contribuicao_no_maximo_um (W : world) (m : pyval) :
  (List.length (contribuicao W m) <= 1)%nat.
Proof.
  unfold contribuicao.
  destruct (formatar_match W m) as [[doc|]|e]; simpl; lia.
Qed.

Lemma contribuicoes_limite (W : world) (ms : list pyval) :
  (List.length (flat_map (contribuicao W) ms) <= List.length ms)%nat.
Proof.
  induction ms as [|m rest IH]; simpl; [lia|].
  rewrite length_app. pose proof (contribuicao_no_maximo_um W m). lia.
Qed.

(** The run of a search up to the response of the query. *)
Lemma buscar_ate_a_resposta (cfg : config) (W : world) (consulta : string)
    (top_k : Z) (t t1 t2 : list call) (emb index resultados : pyval) :
  em_branco consulta = false ->
  embedding_da_consulta cfg W (enriquecer (truncar consulta)) t
  = (Ok emb, t1) ->
  conectar cfg W t1 = (Ok index, t2) ->
  respond W t2 (query index emb top_k true) = Ok resultados ->
  buscar_documentos cfg W consulta top_k t
  = match
      (if negb (truthy resultados) then Ok []
       else match attr resultados "matches" with
            | None => Ok []
            | Some matches =>
                if negb (truthy matches) then Ok []
                else items <~ py_iter matches ;;
                     Ok (formatar_resultados W items [])
            end)
    with
    | Ok docs => (Ok docs, t2 ++ [query index emb top_k true])
    | Raise e => tratar_erro_busca e (t2 ++ [query index emb top_k true])
    end.
Proof.
  intros Hb E1 E2 E3.
  rewrite (buscar_nao_branco cfg W consulta top_k Hb).
  unfold try_except. rewrite buscar_corpo_passos, E1, E2.
  destruct (conectar_objeto cfg W t1 t2 index E2) as [attrs ->].
  pose proof (realizar_busca_passos W attrs emb top_k t2) as Hq.
  cbv zeta in Hq. rewrite Hq, E3. clear Hq.
  destruct (negb (truthy resultados)); [reflexivity|].
  destruct (attr resultados "matches") as [ms|] eqn:Ea; [|reflexivity].
  destruct (negb (truthy ms)); [reflexivity|].
  cbv beta iota. unfold getattr. rewrite Ea. simpl.
  destruct (py_iter ms); reflexivity.
Qed.

(** X12.  When the store answers a search with a list of matches, the
    records returned are those of the matches in the order of the store:
    the search neither sorts nor repeats, it only leaves out the matches
    that yield no record.  So there are at most as many records as
    matches, and exactly as many when every match is well formed. *)
Theorem X12_busca_preserva_a_ordem (cfg : config) (W : world)
    (consulta : string) (top_k : Z) (t t1 t2 : list call)
    (emb index : pyval) (rattrs : list (string * pyval))
    (ms : list pyval) :
  em_branco consulta = false ->
  embedding_da_consulta cfg W (enriquecer (truncar consulta)) t
  = (Ok emb, t1) ->
  conectar cfg W t1 = (Ok index, t2) ->
  respond W t2 (query index emb top_k true) = Ok (PObj rattrs) ->
  assoc "matches" rattrs = Some (PList ms) ->
  let docs := flat_map (contribuicao W) ms in
  buscar_documentos cfg W consulta top_k t
  = (Ok docs, t2 ++ [query index emb top_k true])
  /\ (List.length docs <= List.length ms)%nat
  /\ (forallb (bem_formado W) ms = true ->
      List.length docs = List.length ms).
Proof.
  intros Hb E1 E2 E3 Hm. cbv zeta.
  split; [|split;
           [apply contribuicoes_limite|apply bem_formados_todos]].
  rewrite (buscar_ate_a_resposta cfg W consulta top_k t t1 t2 emb index
             (PObj rattrs) Hb E1 E2 E3).
  simpl. rewrite Hm.
  destruct ms as [|m rest]; [reflexivity|].
  change (negb (truthy (PList (m :: rest)))) with false. cbv iota.
  change (py_iter (PList (m :: rest))) with (Ok (m :: rest)).
  unfold rbind. now rewrite formatar_resultados_contribuicoes.
Qed.

Lemma X12_busca_preserva_a_ordem_witness :
  fst (buscar_documentos cfg_exemplo mundo_tres_matches "contrato" 5 [])
  = Ok (flat_map (contribuicao mundo_tres_matches)
          [match_completo_1; match_sem_metadata; match_completo_2])
  /\ map doc_id
       (flat_map (contribuicao mundo_tres_matches)
          [match_completo_1; match_sem_metadata; match_completo_2])
     = [PStr "doc-1"; PStr "doc-2"].
Proof.
  split; [|vm_compute; reflexivity].
  edestruct (X12_busca_preserva_a_ordem cfg_exemplo mundo_tres_matches
               "contrato" 5 []) as [H _];
    [reflexivity | vm_compute; reflexivity | vm_compute; reflexivity
    | vm_compute; reflexivity | reflexivity |].
  rewrite H. reflexivity.
Defined.

Lemma length_append_str (a b : string) :
  String.length (a ++ b) = (String.length a + String.length b)%nat.
Proof. induction a as [|c r IH]; simpl; congruence. Qed.

Lemma prefix_append (a b : string) : prefix a (a ++ b) = true.
Proof.
  induction a as [|c r IH]; simpl; [now destruct b|].
  destruct (Ascii.ascii_dec c c); [exact IH|congruence].
Qed.

Lemma truncar_limite (consulta : string) :
  (String.length (truncar consulta) <= 1000)%nat.
Proof.
  unfold truncar.
  destruct (1000 <? String.length (strip consulta))%nat eqn:E.
  - rewrite slice_to_length. lia.
  - apply Nat.ltb_ge in E. exact E.
Qed.

(** The texts that a search embeds: none for a blank query, else the
    enriched cut query alone. *)
Lemma buscar_textos_embutidos (cfg : config) (W : world) (consulta : string)
    (top_k : Z) (t : list call) :
  exists ev,
    snd (buscar_documentos cfg W consulta top_k t) = t ++ ev
    /\ textos_embutidos ev
       = if em_branco consulta then [] else [enriquecer (truncar consulta)].
Proof.
  destruct (em_branco consulta) eqn:Hb.
  - exists []. unfold buscar_documentos. rewrite guarda_em_branco, Hb.
    simpl. now rewrite app_nil_r.
  - destruct (buscar_documentos_traco cfg W consulta top_k t Hb)
      as [resto [Et Hev]].
    apply sem_embedding_propositos in Hev as [_ F2].
    eexists. split; [exact Et|]. simpl. now rewrite F2.
Qed.

(** X13.  The text that a search sends to the embedding service is never
    longer than 1058 characters: at most 1000 of the trimmed query, a
    space, and a suffix of at most 57.  It always begins with the trimmed
    query cut to 1000 characters. *)
Theorem X13_texto_embutido_limitado (cfg : config) (W : world)
    (consulta : string) (top_k : Z) (t : list call) :
  tamanho_maximo_embutido = 1058%nat
  /\ exists ev,
       snd (buscar_documentos cfg W consulta top_k t) = t ++ ev
       /\ Forall (fun texto =>
                    (String.length texto <= tamanho_maximo_embutido)%nat
                    /\ prefix (truncar consulta) texto = true)
            (textos_embutidos ev).
Proof.
  split; [reflexivity|].
  destruct (buscar_textos_embutidos cfg W consulta top_k t) as [ev [E Ht]].
  exists ev. split; [exact E|]. rewrite Ht.
  destruct (em_branco consulta); constructor; [|constructor].
  pose proof (truncar_limite consulta) as Hl.
  destruct (enriquecer_casos (truncar consulta))
    as [[_ ->]|[[_ [_ ->]]|[_ [_ ->]]]].
  - split.
    + rewrite !length_append_str.
      change (String.length " ") with 1%nat.
      change (String.length sufixo_valor) with 32%nat.
      change tamanho_maximo_embutido with 1058%nat. lia.
    + apply prefix_append.
  - split.
    + rewrite !length_append_str.
      change (String.length " ") with 1%nat.
      change (String.length sufixo_pessoa) with 57%nat.
      change tamanho_maximo_embutido with 1058%nat. lia.
    + apply prefix_append.
  - split.
    + change tamanho_maximo_embutido with 1058%nat. lia.
    + rewrite <- (append_vazio (truncar consulta)) at 2.
      apply prefix_append.
Qed.

(** X14.  When the cut query holds no monetary term, a person name in it
    (eduardo, rocha, fontenele, gabriela, bruno, ana, in any case) adds
    the identity suffix after a space; when it holds neither a monetary
    term nor a name, the text embedded is the cut query itself, with
    nothing added. *)
Theorem X14_sufixo_de_pessoa_ou_nenhum (cfg : config) (W : world)
    (consulta : string) (top_k : Z) (t : list call) :
  em_branco consulta = false ->
  consulta_sobre_valor (truncar consulta) = false ->
  exists ev,
    snd (buscar_documentos cfg W consulta top_k t) = t ++ ev
    /\ textos_embutidos ev
       = [if consulta_sobre_pessoa (truncar consulta)
          then (truncar consulta ++ " " ++ sufixo_pessoa)%string
          else truncar consulta].
Proof.
  intros Hb Hv.
  destruct (buscar_textos_embutidos cfg W consulta top_k t) as [ev [E Ht]].
  exists ev. split; [exact E|]. rewrite Ht, Hb.
  unfold enriquecer. rewrite Hv. reflexivity.
Qed.

Lemma X14_sufixo_de_pessoa_ou_nenhum_witness :
  (exists ev,
      snd (buscar_documentos cfg_exemplo mundo_dois_matches
             "contrato da GABRIELA" 5 []) = [] ++ ev
      /\ textos_embutidos ev
         = [("contrato da GABRIELA " ++ sufixo_pessoa)%string])
  /\ (exists ev,
         snd (buscar_documentos cfg_exemplo mundo_dois_matches
                " fiador do contrato " 5 []) = [] ++ ev
         /\ textos_embutidos ev = ["fiador do contrato"]).
Proof.
  split.
  - apply (X14_sufixo_de_pessoa_ou_nenhum cfg_exemplo mundo_dois_matches
             "contrato da GABRIELA" 5 []); reflexivity.
  - apply (X14_sufixo_de_pessoa_ou_nenhum cfg_exemplo mundo_dois_matches
             " fiador do contrato " 5 []); reflexivity.
Defined.

(** X15.  A response of the store that holds no match is not an error:
    when the query answers None, or an object without [matches], or one
    whose [matches] is empty or None, the search returns the empty list
    right after the query. *)
Theorem X15_resposta_sem_matches (cfg : config) (W : world)
    (consulta : string) (top_k : Z) (t t1 t2 : list call)
    (emb index resultados : pyval) :
  em_branco consulta = false ->
  embedding_da_consulta cfg W (enriquecer (truncar consulta)) t
  = (Ok emb, t1) ->
  conectar cfg W t1 = (Ok index, t2) ->
  respond W t2 (query index emb top_k true) = Ok resultados ->
  truthy resultados = false
  \/ attr resultados "matches" = None
  \/ (exists matches, attr resultados "matches" = Some matches
                      /\ truthy matches = false) ->
  buscar_documentos cfg W consulta top_k t
  = (Ok [], t2 ++ [query index emb top_k true]).
Proof.
  intros Hb E1 E2 E3 Hvazio.
  rewrite (buscar_ate_a_resposta cfg W consulta top_k t t1 t2 emb index
             resultados Hb E1 E2 E3).
  destruct (truthy resultados) eqn:Hr; [|reflexivity]. simpl.
  destruct Hvazio as [H|[H|[ms [H Hms]]]]; [discriminate| |].
  - now rewrite H.
  - now rewrite H, Hms.
Qed.

Lemma X15_resposta_sem_matches_witness :
  fst (buscar_documentos cfg_exemplo
         (mundo (Ok resposta_embedding) (stats_de 3) (resposta_com []))
         "contrato" 5 []) = Ok []
  /\ fst (buscar_documentos cfg_exemplo
            (mundo (Ok resposta_embedding) (stats_de 3) (Ok PNone))
            "contrato" 5 []) = Ok [].
Proof.
  split.
  - erewrite (X15_resposta_sem_matches cfg_exemplo
                (mundo (Ok resposta_embedding) (stats_de 3) (resposta_com []))
                "contrato" 5 []);
      [reflexivity | reflexivity | vm_compute; reflexivity
      | vm_compute; reflexivity | vm_compute; reflexivity |].
    right. right. exists (PList []). split; reflexivity.
  - erewrite (X15_resposta_sem_matches cfg_exemplo
                (mundo (Ok resposta_embedding) (stats_de 3) (Ok PNone))
                "contrato" 5 []);
      [reflexivity | reflexivity | vm_compute; reflexivity
      | vm_compute; reflexivity | vm_compute; reflexivity |].
    left. reflexivity.
Defined.

(** ** More on [listar_todos_documentos] *)

Lemma listar_match_listavel (m : pyval) :
  listavel m = true -> listar_match m = Ok (registro_listado m).
Proof.
  unfold listavel, listar_match, registro_listado, getattr.
  destruct (attr m "id") as [i|]; [|discriminate].
  destruct (attr m "metadata") as [[| | | | | |d|]|]; try discriminate.
  reflexivity.
Qed.

Lemma listar_match_nao_listavel (m : pyval) :
  listavel m = false -> exists e, listar_match m = Raise e.
Proof.
  unfold listavel, listar_match, getattr.
  destruct (attr m "id") as [i|]; [|intros _; eexists; reflexivity].
  destruct (attr m "metadata") as [[| | | | | |d|attrs]|]; simpl;
    try discriminate; try (intros _; eexists; reflexivity).
  intros _. destruct (assoc "get" attrs); eexists; reflexivity.
Qed.

Lemma listar_matches_listaveis (ms : list pyval) :
  forall acc,
    forallb listavel ms = true ->
    listar_matches ms acc = Ok (acc ++ map registro_listado ms).
Proof.
  induction ms as [|m rest IH]; intros acc; simpl.
  - now rewrite app_nil_r.
  - intros H. apply andb_true_iff in H as [Hm Hr].
    rewrite (listar_match_listavel m Hm). simpl.
    rewrite (IH _ Hr), <- app_assoc. reflexivity.
Qed.

Lemma listar_matches_tudo_ou_nada (ms : list pyval) :
  forall acc,
    forallb listavel ms = false ->
    exists e, listar_matches ms acc = Raise e.
Proof.
  induction ms as [|m rest IH]; intros acc; simpl; [discriminate|].
  destruct (listavel m) eqn:Hm; simpl.
  - intros Hr. rewrite (listar_match_listavel m Hm). simpl. now apply IH.
  - intros _. destruct (listar_match_nao_listavel m Hm) as [e ->].
    simpl. eauto.
Qed.

(** X16.  When the connection is made, the index reports a total that is
    not zero and every match of the response has an id and a metadata
    dict, the listing returns one record per match, in the order of the
    store, paired with the reported total.  The code does not cut the
    list to [limit] itself: it returns as many records as the store
    sent. *)
Theorem X16_listagem_bem_sucedida (cfg : config) (W : world) (limit : Z)
    (t t1 t2 : list call) (index stats total : pyval)
    (rattrs : list (string * pyval)) (ms : list pyval) :
  inicializar_pinecone cfg W t = (Ok index, t1) ->
  method W index "describe_index_stats" (describe_index_stats index) t1
  = (Ok stats, t2) ->
  py_get stats "total_vector_count" (PInt 0) = Ok total ->
  eq_zero total = false ->
  let q := query index dummy_vector (Z.min limit 10000) true in
  respond W t2 q = Ok (PObj rattrs) ->
  assoc "matches" rattrs = Some (PList ms) ->
  forallb listavel ms = true ->
  listar_todos_documentos cfg W limit t
  = (Ok (map registro_listado ms, total), t2 ++ [q]).
Proof.
  intros E1 E2 E3 Hz q Eq Hm Hl.
  rewrite (listar_apos_estatisticas cfg W limit t t1 t2 index stats total
             E1 E2 E3), Hz.
  destruct (inicializar_pinecone_objeto cfg W t t1 index E1) as [attrs ->].
  simpl method. unfold sdk. fold q. rewrite Eq.
  unfold documentos_da_resposta, getattr. simpl attr. rewrite Hm. simpl.
  now rewrite (listar_matches_listaveis ms [] Hl).
Qed.

Lemma X16_listagem_bem_sucedida_witness :
  fst (listar_todos_documentos cfg_exemplo mundo_dois_matches 1 [])
  = Ok (map registro_listado [match_completo_1; match_sem_arquivo], PInt 2).
Proof.
  erewrite (X16_listagem_bem_sucedida cfg_exemplo mundo_dois_matches 1 []);
    [reflexivity | vm_compute; reflexivity | vm_compute; reflexivity
    | vm_compute; reflexivity | reflexivity | vm_compute; reflexivity
    | reflexivity | reflexivity].
Defined.

(** X17.  The listing is all or nothing: if even one match of the response
    lacks an id, or has no metadata dict, the whole list is lost and the
    listing returns the empty list with the reported total, although the
    other matches were fine.  (The search skips such a match and keeps
    the others.) *)
Theorem X17_listagem_tudo_ou_nada (cfg : config) (W : world) (limit : Z)
    (t t1 t2 : list call) (index stats total : pyval)
    (rattrs : list (string * pyval)) (ms : list pyval) :
  inicializar_pinecone cfg W t = (Ok index, t1) ->
  method W index "describe_index_stats" (describe_index_stats index) t1
  = (Ok stats, t2) ->
  py_get stats "total_vector_count" (PInt 0) = Ok total ->
  eq_zero total = false ->
  let q := query index dummy_vector (Z.min limit 10000) true in
  respond W t2 q = Ok (PObj rattrs) ->
  assoc "matches" rattrs = Some (PList ms) ->
  forallb listavel ms = false ->
  listar_todos_documentos cfg W limit t = (Ok ([], total), t2 ++ [q]).
Proof.
  intros E1 E2 E3 Hz q Eq Hm Hl.
  rewrite (listar_apos_estatisticas cfg W limit t t1 t2 index stats total
             E1 E2 E3), Hz.
  destruct (inicializar_pinecone_objeto cfg W t t1 index E1) as [attrs ->].
  simpl method. unfold sdk. fold q. rewrite Eq.
  unfold documentos_da_resposta, getattr. simpl attr. rewrite Hm. simpl.
  destruct (listar_matches_tudo_ou_nada ms [] Hl) as [e ->]. reflexivity.
Qed.

Lemma X17_listagem_tudo_ou_nada_witness :
  fst (listar_todos_documentos cfg_exemplo mundo_tres_matches 100 [])
  = Ok ([], PInt 3)
  /\ List.length
       (formatar_resultados mundo_tres_matches
          [match_completo_1; match_sem_metadata; match_completo_2] [])
     = 2%nat.
Proof.
  split; [|reflexivity].
  erewrite (X17_listagem_tudo_ou_nada cfg_exemplo mundo_tres_matches 100 []);
    [reflexivity | vm_compute; reflexivity | vm_compute; reflexivity
    | vm_compute; reflexivity | reflexivity | vm_compute; reflexivity
    | reflexivity | reflexivity].
Defined.

(** X18.  The search and the listing only read: neither ever calls
    [upsert], whatever the outcome; and the listing never calls the
    embedding service. *)
Theorem X18_busca_e_listagem_nao_escrevem (cfg : config) (W : world)
    (consulta : string) (top_k limit : Z) (t : list call) :
  (exists ev,
      snd (buscar_documentos cfg W consulta top_k t) = t ++ ev
      /\ Forall (fun c => chamada_upsert c = false) ev)
  /\ (exists ev,
         snd (listar_todos_documentos cfg W limit t) = t ++ ev
         /\ Forall (fun c => chamada_upsert c = false
                             /\ chamada_embedding c = false) ev).
Proof.
  split.
  - destruct (em_branco consulta) eqn:Hb.
    + exists []. unfold buscar_documentos. rewrite guarda_em_branco, Hb.
      simpl. rewrite app_nil_r. auto.
    + rewrite (buscar_nao_branco cfg W consulta top_k Hb).
      assert (H : emite (fun c => chamada_upsert c = false)
                    (try_except (buscar_documentos_corpo cfg W consulta top_k)
                       tratar_erro_busca)).
      { apply emite_try_except.
        - unfold buscar_documentos_corpo.
          apply emite_bind.
          { unfold embedding_da_consulta. emite_passos. reflexivity. }
          intros emb. apply emite_bind.
          { eapply emite_impl; [|apply conectar_emite].
            intros [] Hc; simpl in *; congruence. }
          intros index. apply emite_bind.
          { eapply emite_impl; [|apply realizar_busca_emite].
            intros c ->. reflexivity. }
          intros [r|]; emite_passos.
        - intros e. apply emite_nada. apply tratar_erro_busca_traco. }
      apply H.
  - destruct (listar_emite cfg W limit t) as [ev [E F]].
    exists ev. split; [exact E|].
    eapply Forall_impl; [|exact F].
    intros c [Hc|[index ->]]; [|split; reflexivity].
    destruct c; simpl in *; split; congruence.
Qed.

(** X19.  Statistics without a [total_vector_count] entry count as an
    empty index: the listing returns the empty list and 0 and asks the
    store nothing more.  It returns the same, again without a query, when
    its own request for the statistics fails after the connection was
    made. *)
Theorem X19_listagem_sem_total (cfg : config) (W : world) (limit : Z)
    (t t1 : list call) (index : pyval) :
  inicializar_pinecone cfg W t = (Ok index, t1) ->
  (forall d,
      respond W t1 (describe_index_stats index) = Ok (PDict d) ->
      assoc "total_vector_count" d = None ->
      listar_todos_documentos cfg W limit t
      = (Ok ([], PInt 0), t1 ++ [describe_index_stats index]))
  /\ (forall e,
         respond W t1 (describe_index_stats index) = Raise e ->
         listar_todos_documentos cfg W limit t
         = (Ok ([], PInt 0), t1 ++ [describe_index_stats index])).
Proof.
  intros E1.
  destruct (inicializar_pinecone_objeto cfg W t t1 index E1) as [attrs ->].
  split.
  - intros d Es Hd.
    rewrite (listar_apos_estatisticas cfg W limit t t1
               (t1 ++ [describe_index_stats (PObj attrs)]) (PObj attrs)
               (PDict d) (PInt 0) E1).
    + reflexivity.
    + simpl. unfold sdk. now rewrite Es.
    + simpl. now rewrite Hd.
  - intros e Es.
    unfold listar_todos_documentos, try_except, bind.
    rewrite E1. simpl. unfold sdk. rewrite Es. reflexivity.
Qed.

Lemma X19_listagem_sem_total_witness :
  listar_todos_documentos cfg_exemplo mundo_sem_total 100 []
  = (Ok ([], PInt 0),
     [Pinecone "pc-key";
      Index (PObj [("kind", PStr "Pinecone")]) "brito-ai"
        "https://brito-ai.svc.pinecone.io";
      describe_index_stats indice_exemplo]
     ++ [describe_index_stats indice_exemplo]).
Proof.
  assert (E1 : inicializar_pinecone cfg_exemplo mundo_sem_total []
               = (Ok indice_exemplo,
                  [Pinecone "pc-key";
                   Index (PObj [("kind", PStr "Pinecone")]) "brito-ai"
                     "https://brito-ai.svc.pinecone.io";
                   describe_index_stats indice_exemplo]))
    by (vm_compute; reflexivity).
  apply (proj1 (X19_listagem_sem_total cfg_exemplo mundo_sem_total 100 []
                  _ indice_exemplo E1) [("dimension", PInt 768)]);
    reflexivity.
Defined.

(** ** [ask_question] *)

(** The steps of [ask_question] for a question that is not blank. *)
Lemma ask_question_passos (cfg : config) (W : world) (L : llm)
    (question : string) (max_results : Z) (t : list call) :
  em_branco question = false ->
  ask_question cfg W L question max_results t
  = match buscar_documentos cfg W question max_results t with
    | (Raise e, t') =>
        (Levanta (HTTPException 500
                    ("Erro ao processar a consulta de busca: " ++ exc_str e)),
         t')
    | (Ok [], t') =>
        (Levanta (HTTPException 500
                    ("Erro ao processar a consulta de busca: "
                     ++ str_HTTPException L 404
                          "Nenhum documento relevante encontrado.")), t')
    | (Ok documentos, t') =>
        (match gerar_resposta L documentos question t' with
         | Levanta x => Levanta x
         | Retorna answer => Retorna (mkResposta answer (fontes documentos))
         end, t')
    end.
Proof.
  intros Hb. unfold ask_question. rewrite guarda_em_branco, Hb.
  unfold busca_semantica.
  destruct (buscar_documentos cfg W question max_results t)
    as [[[|doc r]|e] t']; try reflexivity.
  unfold gerar_resposta.
  destruct (rbind _ _); reflexivity.
Qed.

(** X20.  Whatever goes wrong, [ask_question] raises an HTTPException and
    nothing else, and its status is 400 exactly when the question is
    blank and 500 otherwise: no other status ever leaves the handler,
    404 included.  A blank question is refused with "A pergunta nao pode
    estar vazia" (with the tilde) before any SDK call. *)
Theorem X20_so_400_ou_500 (cfg : config) (W : world) (L : llm)
    (question : string) (max_results : Z) (t : list call) :
  (em_branco question = true ->
   ask_question cfg W L question max_results t
   = (Levanta (HTTPException 400
                 ("A pergunta n" ++ chr 227 ++ "o pode estar vazia")), t))
  /\ (forall x t',
         ask_question cfg W L question max_results t = (Levanta x, t') ->
         exists detail,
           x = HTTPException (if em_branco question then 400 else 500)
                 detail).
Proof.
  split.
  - intros Hb. unfold ask_question. now rewrite guarda_em_branco, Hb.
  - intros x t'. destruct (em_branco question) eqn:Hb.
    + unfold ask_question. rewrite guarda_em_branco, Hb. simpl.
      intros H. inversion H. eauto.
    + rewrite (ask_question_passos cfg W L question max_results t Hb).
      destruct (buscar_documentos cfg W question max_results t)
        as [[[|doc r]|e] t1].
      * intros H. inversion H. eauto.
      * unfold gerar_resposta.
        destruct (rbind _ _); intros H; inversion H. eauto.
      * intros H. inversion H. eauto.
Qed.

Lemma X20_so_400_ou_500_witness :
  ask_question cfg_exemplo mundo_dois_matches llm_exemplo "   " 50 []
  = (Levanta (HTTPException 400
                ("A pergunta n" ++ chr 227 ++ "o pode estar vazia")), [])
  /\ exists detail,
       fst (ask_question cfg_exemplo mundo_busca_falha llm_exemplo
              "contrato" 50 [])
       = Levanta (HTTPException 500 detail).
Proof.
  split.
  - apply (proj1 (X20_so_400_ou_500 cfg_exemplo mundo_dois_matches
                    llm_exemplo "   " 50 [])). reflexivity.
  - destruct (ask_question cfg_exemplo mundo_busca_falha llm_exemplo
                "contrato" 50 []) as [d t'] eqn:E.
    assert (Hd : exists x, d = Levanta x).
    { vm_compute in E. inversion E. eauto. }
    destruct Hd as [x ->].
    destruct (proj2 (X20_so_400_ou_500 cfg_exemplo mundo_busca_falha
                       llm_exemplo "contrato" 50 []) x t' E)
      as [detail ->].
    exists detail. reflexivity.
Defined.

(** X21.  When the search finds no document, the HTTPException with
    status 404 that the handler raises is caught by its own [except
    Exception] two lines below: the client gets status 500, with the
    detail "Erro ao processar a consulta de busca: " followed by [str] of
    that 404 exception.  The chat model is not called. *)
Theorem X21_sem_documentos_e_500 (cfg : config) (W : world) (L : llm)
    (question : string) (max_results : Z) (t t' : list call) :
  em_branco question = false ->
  buscar_documentos cfg W question max_results t = (Ok [], t') ->
  ask_question cfg W L question max_results t
  = (Levanta (HTTPException 500
                ("Erro ao processar a consulta de busca: "
                 ++ str_HTTPException L 404
                      "Nenhum documento relevante encontrado.")), t').
Proof.
  intros Hb E.
  now rewrite (ask_question_passos cfg W L question max_results t Hb), E.
Qed.

Lemma X21_sem_documentos_e_500_witness :
  fst (ask_question cfg_exemplo
         (mundo (Ok resposta_embedding) (stats_de 3) (resposta_com []))
         llm_exemplo "contrato" 50 [])
  = Levanta (HTTPException 500
               ("Erro ao processar a consulta de busca: "
                ++ "404: Nenhum documento relevante encontrado.")).
Proof.
  erewrite (X21_sem_documentos_e_500 cfg_exemplo
              (mundo (Ok resposta_embedding) (stats_de 3) (resposta_com []))
              llm_exemplo "contrato" 50 []);
    [reflexivity | reflexivity | vm_compute; reflexivity].
Defined.

Lemma fontes_completas (docs : list documento) :
  Forall (fun d => doc_completo d = true) docs ->
  Forall (fun f => truthy (filename f) = true /\ truthy (text f) = true)
    (fontes docs).
Proof.
  induction 1 as [|d r Hd _ IH]; simpl; constructor; [|exact IH].
  unfold doc_completo in Hd. now apply andb_true_iff in Hd.
Qed.

(** X22.  When [ask_question] returns, its sources are the documents that
    [buscar_documentos] found for the question as it was sent (not
    trimmed) with [max_results] as [top_k]: one source per document, in
    the same order, the file name and text of each, and there is at
    least one.  Every source has a non-empty file name and text. *)
Theorem X22_fontes_da_resposta (cfg : config) (W : world) (L : llm)
    (question : string) (max_results : Z) (t t' : list call)
    (r : resposta) :
  ask_question cfg W L question max_results t = (Retorna r, t') ->
  exists docs,
    buscar_documentos cfg W question max_results t = (Ok docs, t')
    /\ docs <> []
    /\ sources r
       = map (fun doc => mkFonte (doc_arquivo doc) (doc_texto doc)) docs
    /\ Forall (fun f => truthy (filename f) = true
                        /\ truthy (text f) = true) (sources r).
Proof.
  destruct (em_branco question) eqn:Hb.
  { unfold ask_question. rewrite guarda_em_branco, Hb. discriminate. }
  rewrite (ask_question_passos cfg W L question max_results t Hb).
  destruct (buscar_documentos cfg W question max_results t)
    as [[[|doc docs]|e] t1] eqn:E; try discriminate.
  destruct (gerar_resposta L (doc :: docs) question t1) as [a|x];
    [|discriminate].
  intros H. inversion H; subst. exists (doc :: docs).
  split; [reflexivity|]. split; [discriminate|]. split; [reflexivity|].
  apply (fontes_completas (doc :: docs)). eapply buscar_completos, E.
Qed.

Lemma X22_fontes_da_resposta_witness :
  exists r,
    fst (ask_question cfg_exemplo mundo_tres_matches llm_exemplo
           "qual o valor do aluguel?" 50 []) = Retorna r
    /\ sources r
       = [mkFonte (PStr "contrato.pdf") (PStr "aluguel de R$ 1500");
          mkFonte (PStr "aditivo.pdf") (PStr "multa de 10%")].
Proof.
  destruct (ask_question cfg_exemplo mundo_tres_matches llm_exemplo
              "qual o valor do aluguel?" 50 []) as [d t'] eqn:E.
  assert (Hd : exists r, d = Retorna r).
  { vm_compute in E. inversion E. eauto. }
  destruct Hd as [r ->]. exists r. split; [reflexivity|].
  destruct (X22_fontes_da_resposta cfg_exemplo mundo_tres_matches
              llm_exemplo "qual o valor do aluguel?" 50 [] t' r E)
    as [docs [Eb [_ [-> _]]]].
  vm_compute in Eb. inversion Eb. reflexivity.
Defined.

(** X23.  A failure of the search, whatever its kind, reaches the client
    as status 500 with the detail "Erro ao processar a consulta de
    busca: " followed by the message of the error; the calls made are
    those of the search, and the chat model is not called. *)
Theorem X23_falha_da_busca_e_500 (cfg : config) (W : world) (L : llm)
    (question : string) (max_results : Z) (t t' : list call) (e : exn) :
  buscar_documentos cfg W question max_results t = (Raise e, t') ->
  ask_question cfg W L question max_results t
  = (Levanta (HTTPException 500
                ("Erro ao processar a consulta de busca: " ++ exc_str e)),
     t').
Proof.
  intros E.
  destruct (em_branco question) eqn:Hb.
  { unfold buscar_documentos in E. rewrite guarda_em_branco, Hb in E.
    discriminate. }
  now rewrite (ask_question_passos cfg W L question max_results t Hb), E.
Qed.

Lemma X23_falha_da_busca_e_500_witness :
  fst (ask_question cfg_sem_chave mundo_dois_matches llm_exemplo
         "contrato" 50 [])
  = Levanta (HTTPException 500
               ("Erro ao processar a consulta de busca: "
                ++ prefixo_erro_conexao ++ "PINECONE_API_KEY n" ++ chr 227
                ++ "o encontrada no arquivo .env")).
Proof.
  assert (H : buscar_documentos cfg_sem_chave mundo_dois_matches
                "contrato" 50 []
              = (Raise (mkExn ConnectionError
                          (prefixo_erro_conexao ++ "PINECONE_API_KEY n"
                           ++ chr 227 ++ "o encontrada no arquivo .env")),
                 [embed_content "models/embedding-001" ["contrato"]
                    "RETRIEVAL_QUERY"]))
    by (vm_compute; reflexivity).
  rewrite (X23_falha_da_busca_e_500 cfg_sem_chave mundo_dois_matches
             llm_exemplo "contrato" 50 [] _ _ H).
  reflexivity.
Defined.

(** X24.  The chat model is consulted only once documents were found,
    and then with the prompt built from them: two chat models that
    answer that one prompt alike (and print values alike) give the same
    outcome, and when the search fails or finds nothing the outcome does
    not depend on the chat model at all. *)
Theorem X24_modelo_consultado_so_com_documentos (cfg : config) (W : world)
    (L1 L2 : llm) (question : string) (max_results : Z) (t : list call) :
  str_HTTPException L1 = str_HTTPException L2 ->
  str_valor L1 = str_valor L2 ->
  (forall docs t',
      buscar_documentos cfg W question max_results t = (Ok docs, t') ->
      docs <> [] ->
      generate_content L1 t' (full_prompt L1 docs question)
      = generate_content L2 t' (full_prompt L2 docs question)) ->
  ask_question cfg W L1 question max_results t
  = ask_question cfg W L2 question max_results t.
Proof.
  intros Hh Hv Hg.
  destruct (em_branco question) eqn:Hb.
  { unfold ask_question. now rewrite guarda_em_branco, Hb. }
  rewrite !(ask_question_passos cfg W _ question max_results t Hb).
  destruct (buscar_documentos cfg W question max_results t)
    as [[[|doc docs]|e] t1]; [now rewrite Hh| |reflexivity].
  unfold gerar_resposta.
  rewrite (Hg (doc :: docs) t1 eq_refl) by discriminate.
  destruct (generate_content L2 t1 _) as [r|e]; [|reflexivity].
  simpl. unfold extrair_resposta, py_str. rewrite Hv. reflexivity.
Qed.

Lemma X24_modelo_consultado_so_com_documentos_witness :
  ask_question cfg_exemplo mundo_busca_falha llm_exemplo "contrato" 50 []
  = ask_question cfg_exemplo mundo_busca_falha llm_falha "contrato" 50 [].
Proof.
  apply X24_modelo_consultado_so_com_documentos; try reflexivity.
  intros docs t' H. vm_compute in H. discriminate.
Defined.

(** X25.  When documents were found but the generation fails, be it the
    call to the chat model or the reading of its response, the client
    gets status 500 with the fixed detail "Ocorreu um erro interno ao
    gerar a resposta com o modelo.": the message of the error is not
    disclosed. *)
Theorem X25_falha_da_geracao_e_500 (cfg : config) (W : world) (L : llm)
    (question : string) (max_results : Z) (t t' : list call)
    (docs : list documento) :
  buscar_documentos cfg W question max_results t = (Ok docs, t') ->
  docs <> [] ->
  (exists e, generate_content L t' (full_prompt L docs question) = Raise e)
  \/ (exists r e,
         generate_content L t' (full_prompt L docs question) = Ok r
         /\ extrair_resposta L r = Raise e) ->
  ask_question cfg W L question max_results t
  = (Levanta (HTTPException 500 erro_interno), t').
Proof.
  intros E Hd Hf.
  destruct (em_branco question) eqn:Hb.
  { unfold buscar_documentos in E. rewrite guarda_em_branco, Hb in E.
    inversion E; subst. congruence. }
  rewrite (ask_question_passos cfg W L question max_results t Hb), E.
  destruct docs as [|doc docs]; [congruence|].
  unfold gerar_resposta.
  destruct Hf as [[e ->]|[r [e [Eg Ee]]]]; [reflexivity|].
  rewrite Eg. simpl rbind. now rewrite Ee.
Qed.

Lemma X25_falha_da_geracao_e_500_witness :
  fst (ask_question cfg_exemplo mundo_tres_matches llm_falha
         "contrato" 50 [])
  = Levanta (HTTPException 500 erro_interno).
Proof.
  erewrite (X25_falha_da_geracao_e_500 cfg_exemplo mundo_tres_matches
              llm_falha "contrato" 50 []);
    [reflexivity | vm_compute; reflexivity | discriminate |].
  left. eexists. reflexivity.
Defined.

(** ** The answer read from the response of the chat model *)

Lemma join_vazio_textos (parts : list pyval) (l : list string) :
  textos_str parts = Some l ->
  forall i, join_vazio i (textos_das_partes parts)
            = Ok (String.concat "" l).
Proof.
  revert l. induction parts as [|part r IH]; intros l; simpl.
  - intros H i. inversion H. reflexivity.
  - destruct (attr part "text") as [v|]; [|exact (IH l)].
    destruct v; try discriminate.
    destruct (textos_str r) as [l'|]; [|discriminate].
    intros H i. inversion H; subst. simpl.
    rewrite (IH l' eq_refl). simpl.
    destruct l' as [|s' l'']; simpl; [now rewrite append_vazio|reflexivity].
Qed.

Lemma extrair_resposta_classes (L : llm) (resp a : pyval) :
  extrair_resposta L resp = Ok a ->
  exists texto,
    attr resp "text" = Some texto
    /\ if truthy texto then a = texto else exists s, a = PStr s.
Proof.
  unfold extrair_resposta, getattr.
  destruct (attr resp "text") as [texto|]; [|discriminate].
  simpl. intros H. exists texto. split; [reflexivity|].
  destruct (truthy texto); [now inversion H|].
  destruct (attr resp "parts") as [parts|]; [|discriminate].
  simpl in H. destruct (truthy parts).
  - destruct (py_iter parts) as [items|]; [|discriminate].
    simpl in H.
    destruct (join_vazio 0 (textos_das_partes items)) as [junto|];
      [|discriminate].
    inversion H. eauto.
  - destruct (attr resp "prompt_feedback") as [feedback|]; [|discriminate].
    simpl in H.
    destruct (if truthy feedback
              then match attr feedback "block_reason" with
                   | Some x => Ok x
                   | None => Raise (no_attribute feedback "block_reason")
                   end
              else Ok feedback) as [bloqueio|]; [|discriminate].
    simpl in H. destruct (truthy bloqueio); [|inversion H; eauto].
    destruct (attr feedback "block_reason") as [motivo|]; [|discriminate].
    simpl in H.
    destruct (attr motivo "name") as [nome|]; [|discriminate].
    inversion H. eauto.
Qed.

(** X26.  The answer that [ask_question] returns comes from the response
    of the chat model to the prompt built from the documents found: it
    is the [text] of that response whenever that is truthy, whatever else
    the response carries, and it is a str in every other case.  So with
    a model whose [text] is a str, the answer is always a str, never
    None. *)
Theorem X26_answer_e_o_texto_ou_uma_str (cfg : config) (W : world) (L : llm)
    (question : string) (max_results : Z) (t t' : list call)
    (r : resposta) :
  ask_question cfg W L question max_results t = (Retorna r, t') ->
  exists docs resp texto,
    buscar_documentos cfg W question max_results t = (Ok docs, t')
    /\ generate_content L t' (full_prompt L docs question) = Ok resp
    /\ attr resp "text" = Some texto
    /\ if truthy texto then answer r = texto
       else exists s, answer r = PStr s.
Proof.
  destruct (em_branco question) eqn:Hb.
  { unfold ask_question. rewrite guarda_em_branco, Hb. discriminate. }
  rewrite (ask_question_passos cfg W L question max_results t Hb).
  destruct (buscar_documentos cfg W question max_results t)
    as [[[|doc docs]|e] t1]; try discriminate.
  unfold gerar_resposta.
  destruct (generate_content L t1 _) as [resp|e] eqn:Eg; [|discriminate].
  simpl rbind.
  destruct (extrair_resposta L resp) as [a|e] eqn:Ee; [|discriminate].
  intros H. inversion H; subst.
  destruct (extrair_resposta_classes L resp a Ee) as [texto [Ht Hc]].
  exists (doc :: docs), resp, texto. auto.
Qed.

Lemma X26_answer_e_o_texto_ou_uma_str_witness :
  exists r,
    fst (ask_question cfg_exemplo mundo_tres_matches llm_exemplo
           "contrato" 50 []) = Retorna r
    /\ answer r = PStr "O aluguel e de R$ 1500.".
Proof.
  destruct (ask_question cfg_exemplo mundo_tres_matches llm_exemplo
              "contrato" 50 []) as [d t'] eqn:E.
  assert (Hd : exists r, d = Retorna r).
  { vm_compute in E. inversion E. eauto. }
  destruct Hd as [r ->]. exists r. split; [reflexivity|].
  destruct (X26_answer_e_o_texto_ou_uma_str cfg_exemplo mundo_tres_matches
              llm_exemplo "contrato" 50 [] t' r E)
    as [docs [resp [texto [_ [Eg [Ht Hc]]]]]].
  vm_compute in Eg. inversion Eg; subst resp.
  vm_compute in Ht. inversion Ht; subst texto. exact Hc.
Defined.

(** X27.  When the response of the chat model has no text of its own but
    has parts, the answer is the texts of the parts put together in
    their order, the parts without a text being skipped.  When no part
    has a text, [ask_question] still returns normally, with the empty
    string as its answer. *)
Theorem X27_answer_das_partes (cfg : config) (W : world) (L : llm)
    (question : string) (max_results : Z) (t t' : list call)
    (docs : list documento) (attrs : list (string * pyval))
    (texto : pyval) (parts : list pyval) (l : list string) :
  buscar_documentos cfg W question max_results t = (Ok docs, t') ->
  docs <> [] ->
  generate_content L t' (full_prompt L docs question) = Ok (PObj attrs) ->
  assoc "text" attrs = Some texto -> truthy texto = false ->
  assoc "parts" attrs = Some (PList parts) -> parts <> [] ->
  textos_str parts = Some l ->
  ask_question cfg W L question max_results t
  = (Retorna (mkResposta (PStr (String.concat "" l)) (fontes docs)), t')
  /\ (Forall (fun part => attr part "text" = None) parts -> l = []).
Proof.
  intros E Hd Eg Ht Hf Hp Hne Hl. split.
  - destruct (em_branco question) eqn:Hb.
    { unfold buscar_documentos in E. rewrite guarda_em_branco, Hb in E.
      inversion E; subst. congruence. }
    rewrite (ask_question_passos cfg W L question max_results t Hb), E.
    destruct docs as [|doc docs]; [congruence|].
    unfold gerar_resposta. rewrite Eg. simpl rbind.
    unfold extrair_resposta, getattr. simpl attr. rewrite Ht. simpl rbind.
    rewrite Hf, Hp. simpl rbind.
    destruct parts as [|p ps]; [congruence|].
    change (truthy (PList (p :: ps))) with true. cbv iota.
    change (py_iter (PList (p :: ps))) with (Ok (p :: ps)).
    unfold rbind at 1.
    now rewrite (join_vazio_textos (p :: ps) l Hl 0).
  - clear -Hl. revert l Hl.
    induction parts as [|p ps IH]; intros l Hl Hall.
    + now inversion Hl.
    + inversion Hall as [|? ? Hp Hps]; subst.
      simpl in Hl. rewrite Hp in Hl. now apply IH.
Qed.

Lemma X27_answer_das_partes_witness :
  fst (ask_question cfg_exemplo mundo_tres_matches llm_sem_texto
         "contrato" 50 [])
  = Retorna
      (mkResposta (PStr "")
         [mkFonte (PStr "contrato.pdf") (PStr "aluguel de R$ 1500");
          mkFonte (PStr "aditivo.pdf") (PStr "multa de 10%")]).
Proof.
  assert (Hb : exists docs t',
             buscar_documentos cfg_exemplo mundo_tres_matches "contrato" 50 []
             = (Ok docs, t')
             /\ fontes docs
                = [mkFonte (PStr "contrato.pdf") (PStr "aluguel de R$ 1500");
                   mkFonte (PStr "aditivo.pdf") (PStr "multa de 10%")]).
  { eexists. eexists. split; [vm_compute; reflexivity|reflexivity]. }
  destruct Hb as [docs [t' [E Hf]]].
  destruct (X27_answer_das_partes cfg_exemplo mundo_tres_matches
              llm_sem_texto "contrato" 50 [] t' docs
              [("text", PStr "");
               ("parts", PList [PObj [("inline_data", PNone)]])]
              (PStr "") [PObj [("inline_data", PNone)]] [] E)
    as [H _];
    [ intros ->; vm_compute in E; discriminate
    | reflexivity | reflexivity | reflexivity | reflexivity
    | discriminate | reflexivity | ].
  rewrite H, Hf. reflexivity.
Defined.

(** ** [list_gemini_models.py] *)

Lemma imprimir_modelos_bem_formados (str : pyval -> string)
    (modelos : list pyval) :
  forallb modelo_bem_formado modelos = true ->
  imprimir_modelos str modelos
  = (map (fun m => ("- " ++ nome_do_modelo m)%string)
       (filter suporta_generateContent modelos), None).
Proof.
  induction modelos as [|m r IH]; simpl; [reflexivity|].
  intros H. apply andb_true_iff in H as [Hm Hr].
  rewrite (IH Hr). clear IH.
  unfold modelo_bem_formado in Hm.
  destruct (attr m "supported_generation_methods") as [[| | | | |l| |]|]
    eqn:Ea; try discriminate.
  destruct (attr m "name") as [[| | | |s| | |]|] eqn:En; try discriminate.
  assert (Hs : suporta_generateContent m
               = existsb (fun x => eq_str x "generateContent") l)
    by (unfold suporta_generateContent; now rewrite Ea).
  assert (Hn : nome_do_modelo m = s)
    by (unfold nome_do_modelo; now rewrite En).
  unfold getattr. rewrite Ea, En, Hs. simpl.
  destruct (existsb _ l); [|reflexivity].
  simpl. now rewrite Hn.
Qed.

(** X28.  With a key and a listing that succeeds, the script prints the
    header and then one line "- name" for each model whose
    [supported_generation_methods] contains "generateContent", in the
    order of the listing; the other models are left out, and it does not
    exit early. *)
Theorem X28_modelos_impressos (key : string) (modelos : list pyval)
    (str : pyval -> string) :
  key <> "" ->
  forallb modelo_bem_formado modelos = true ->
  list_gemini_models (Some key) (Ok (modelos, None)) str
  = (cabecalho_modelos
     :: map (fun m => ("- " ++ nome_do_modelo m)%string)
          (filter suporta_generateContent modelos), false).
Proof.
  intros Hk Hm. unfold list_gemini_models.
  destruct key as [|c k]; [congruence|]. simpl configurado. cbv iota.
  rewrite (imprimir_modelos_bem_formados str modelos Hm).
  now rewrite app_nil_r.
Qed.

Lemma X28_modelos_impressos_witness :
  list_gemini_models (Some "g-key")
    (Ok ([um_modelo "models/gemini-pro" ["generateContent"; "countTokens"];
          um_modelo "models/embedding-001" ["embedContent"];
          um_modelo "models/gemini-1.5-flash" ["generateContent"]], None))
    (fun _ => "?")
  = ([cabecalho_modelos; "- models/gemini-pro"; "- models/gemini-1.5-flash"],
     false).
Proof.
  rewrite X28_modelos_impressos; [reflexivity|discriminate|reflexivity].
Defined.

Lemma imprimir_modelos_linhas (str : pyval -> string) (modelos : list pyval) :
  Forall (fun linha => prefix "- " linha = true)
    (fst (imprimir_modelos str modelos)).
Proof.
  induction modelos as [|m r IH]; simpl; [constructor|].
  destruct (rbind _ _) as [[|]|e]; simpl; [|exact IH|constructor].
  destruct (getattr m "name") as [name|e]; simpl; [|constructor].
  destruct (imprimir_modelos str r) as [linhas fim]. simpl in *.
  constructor; [|exact IH]. apply (prefix_append "- ").
Qed.

(** X29.  The script never lets an error of the listing escape: whatever
    [genai.list_models()] does, it prints the header, then the lines of
    the models it could read, then at most one line "Erro ao listar
    modelos: ..." as its last line.  Without a key it prints one error
    line, exits, and the listing is not consulted. *)
Theorem X29_erros_da_listagem_de_modelos (key : option string)
    (list_models : result (list pyval * option exn))
    (str : pyval -> string) :
  (configurado key = true ->
   exists linhas fim,
     list_gemini_models key list_models str
     = (cabecalho_modelos :: linhas ++ fim, false)
     /\ Forall (fun linha => prefix "- " linha = true) linhas
     /\ (fim = [] \/ exists e, fim = [erro_ao_listar e]))
  /\ (configurado key = false ->
      forall list_models',
        list_gemini_models key list_models' str = ([erro_sem_chave], true)).
Proof.
  unfold list_gemini_models. split; intros ->; [|reflexivity].
  destruct list_models as [[modelos fim_da_iteracao]|e].
  - pose proof (imprimir_modelos_linhas str modelos) as Hl.
    destruct (imprimir_modelos str modelos) as [linhas fim]. simpl in Hl.
    exists linhas. eexists. split; [reflexivity|]. split; [exact Hl|].
    destruct fim as [e|]; [eauto|].
    destruct fim_da_iteracao as [e|]; eauto.
  - exists [], [erro_ao_listar e]. split; [reflexivity|].
    split; [constructor|eauto].
Qed.

Lemma X29_erros_da_listagem_de_modelos_witness :
  (exists linhas fim,
      list_gemini_models (Some "g-key")
        (Ok ([um_modelo "models/gemini-pro" ["generateContent"];
              PObj [("name", PStr "models/sem-metodos")];
              um_modelo "models/gemini-1.5-flash" ["generateContent"]],
             None))
        (fun _ => "?")
      = (cabecalho_modelos :: linhas ++ fim, false)
      /\ Forall (fun linha => prefix "- " linha = true) linhas
      /\ (fim = [] \/ exists e, fim = [erro_ao_listar e]))
  /\ list_gemini_models None (Raise (mkExn RuntimeError "offline"))
       (fun _ => "?")
     = ([erro_sem_chave], true).
Proof.
  split.
  - apply (proj1 (X29_erros_da_listagem_de_modelos (Some "g-key") _ _)).
    reflexivity.
  - apply (proj2 (X29_erros_da_listagem_de_modelos None
                    (Raise (mkExn RuntimeError "offline")) (fun _ => "?"))).
    reflexivity.
Defined.
